(** * Plan-and-Solve agent (code/chapter4/Plan_and_solve.py)

    A shallow embedding of the [Planner] and the [Executor] of the
    plan-and-solve agent, and the properties of their structured-output
    protocol and of the bounded tool-resolution loop.

    Layout:
    - [PyStr]: Python [str] as a sequence of code points, with the string
      methods the program calls ([split], [strip], [find], [format]);
    - values, exceptions and the interface of the Python library functions
      the program calls ([json.loads], [ast.literal_eval], [str], [repr]);
    - the effect monad: a world (engine and tools), a trace of the calls
      made to the external collaborators, and raised exceptions;
    - [Planner.plan], [Executor._parse_tool_request], [Executor.execute];
    - a runnable instance of the library interface and a scripted engine,
      used by the examples;
    - the theorems.

    The progress messages the program prints are not part of the model. *)

From Stdlib Require Import String Ascii DecimalString.
From Stdlib Require Import List ZArith NArith Bool Lia.
Import ListNotations.

Set Implicit Arguments.
Set Warnings "-register-all".

(** ** Python strings *)

Module PyStr.

(** A Python [str] is a sequence of Unicode code points. *)
Definition pystr : Type := list N.

(** Decoding of UTF-8, used to write the string constants of the program
    (this file is UTF-8 encoded, as the Python source is). *)
Fixpoint utf8_decode (bs : list N) : pystr :=
  match bs with
  | [] => []
  | b :: bs1 =>
    if (b <? 128)%N then b :: utf8_decode bs1
    else if (b <? 224)%N then
      match bs1 with
      | b1 :: bs2 =>
        (N.lor (N.shiftl (N.land b 31) 6) (N.land b1 63)) :: utf8_decode bs2
      | [] => [b]
      end
    else if (b <? 240)%N then
      match bs1 with
      | b1 :: b2 :: bs3 =>
        (N.lor (N.shiftl (N.land b 15) 12)
           (N.lor (N.shiftl (N.land b1 63) 6) (N.land b2 63))) :: utf8_decode bs3
      | _ => [b]
      end
    else
      match bs1 with
      | b1 :: b2 :: b3 :: bs4 =>
        (N.lor (N.shiftl (N.land b 7) 18)
           (N.lor (N.shiftl (N.land b1 63) 12)
              (N.lor (N.shiftl (N.land b2 63) 6) (N.land b3 63)))) :: utf8_decode bs4
      | _ => [b]
      end
  end.

(** A string constant of the source. *)
Definition lit (s : string) : pystr :=
  utf8_decode (map N_of_ascii (list_ascii_of_string s)).

(** The empty string. *)
Definition empty : pystr := [].

Definition dquote : pystr := [34%N].
Definition newline : pystr := [10%N].

Fixpoint eqb (s t : pystr) : bool :=
  match s, t with
  | [], [] => true
  | a :: s', b :: t' => (a =? b)%N && eqb s' t'
  | _, _ => false
  end.

(** [s.startswith(p)] *)
Fixpoint startswith (p s : pystr) : bool :=
  match p, s with
  | [], _ => true
  | a :: p', b :: s' => (a =? b)%N && startswith p' s'
  | _ :: _, [] => false
  end.

(** [s.find(sep)]: the offset of the first occurrence of [sep], if any. *)
Fixpoint find (sep s : pystr) : option nat :=
  if startswith sep s then Some 0
  else match s with
       | [] => None
       | _ :: s' => option_map S (find sep s')
       end.

(** [s.split(sep)] for a non-empty separator: the pieces between the
    successive non-overlapping occurrences of [sep], scanning from the
    left.  [skip] counts the characters of a matched separator that are
    still to be passed over; [cur] is the current piece, reversed. *)
Fixpoint split_go (sep : pystr) (skip : nat) (cur : pystr) (s : pystr)
  : list pystr :=
  match s with
  | [] => [rev cur]
  | c :: s' =>
    match skip with
    | S k => split_go sep k cur s'
    | O =>
      if startswith sep s
      then rev cur :: split_go sep (length sep - 1) [] s'
      else split_go sep 0 (c :: cur) s'
    end
  end.

Definition split (sep s : pystr) : list pystr := split_go sep 0 [] s.

(** [str.isspace] on one character: the code points the interpreter
    classifies as whitespace. *)
Definition isspace (c : N) : bool :=
  ((9 <=? c) && (c <=? 13) || (28 <=? c) && (c <=? 32)
   || (c =? 133) || (c =? 160) || (c =? 5760)
   || (8192 <=? c) && (c <=? 8202)
   || (c =? 8232) || (c =? 8233) || (c =? 8239) || (c =? 8287)
   || (c =? 12288))%N.

Fixpoint lstrip (s : pystr) : pystr :=
  match s with
  | c :: s' => if isspace c then lstrip s' else s
  | [] => []
  end.

Definition rstrip (s : pystr) : pystr := rev (lstrip (rev s)).

(** [s.strip()] *)
Definition strip (s : pystr) : pystr := rstrip (lstrip s).

(** Truth value of a string: [bool(s)]. *)
Definition truthy (s : pystr) : bool :=
  match s with [] => false | _ :: _ => true end.

(** [str(i)] for an integer. *)
Definition of_int (i : Z) : pystr :=
  map N_of_ascii (list_ascii_of_string (NilZero.string_of_int (Z.to_int i))).

End PyStr.
Import PyStr.


(** ** Values, exceptions and the Python library *)

(** The values [json.loads] and [ast.literal_eval] can produce.  A float
    and a complex number keep the text they were read from.  [PyDict]
    lists the items in insertion order; where two items have equal
    keys the later one is the dictionary's. *)
Inductive pyvalue : Type :=
| PyNone
| PyEllipsis
| PyBool (b : bool)
| PyInt (z : Z)
| PyFloat (lexeme : pystr)
| PyComplex (lexeme : pystr)
| PyStr (s : pystr)
| PyBytes (bs : list N)
| PyList (items : list pyvalue)
| PyTuple (items : list pyvalue)
| PySet (items : list pyvalue)
| PyDict (items : list (pyvalue * pyvalue)).

(** The exception classes that occur; all derive from [Exception], and
    [JSONDecodeError] derives from [ValueError].  [OtherError] is any other
    class (a fault raised by a tool callable, for instance). *)
Inductive exn : Type :=
| JSONDecodeError
| ValueError
| SyntaxError
| IndexError
| TypeError
| RecursionError
| MemoryError
| OtherError (name : pystr).

Definition is_JSONDecodeError (e : exn) : bool :=
  match e with JSONDecodeError => true | _ => false end.
Definition is_ValueError (e : exn) : bool :=
  match e with ValueError | JSONDecodeError => true | _ => false end.
Definition is_SyntaxError (e : exn) : bool :=
  match e with SyntaxError => true | _ => false end.
Definition is_IndexError (e : exn) : bool :=
  match e with IndexError => true | _ => false end.
Definition is_Exception (e : exn) : bool := true.

(** The result of a call that returns or raises. *)
Inductive result (A : Type) : Type :=
| Value (a : A)
| Error (e : exn).
Arguments Error {A} e.

(** Whether [v] holds an integer for which [p] answers [true]: [v]
    itself, or an element, a key or a value inside it, at any depth. *)
Fixpoint holds_int (p : Z -> bool) (v : pyvalue) : bool :=
  match v with
  | PyInt z => p z
  | PyList items | PyTuple items | PySet items => existsb (holds_int p) items
  | PyDict items =>
    existsb (fun kv => match kv with
                       | (k, x) => holds_int p k || holds_int p x
                       end) items
  | _ => false
  end.

(** The functions of the Python library the program calls.  The program
    is verified against this interface: a theorem holds whatever these
    functions answer.  Exhaustion of the memory or of the stack of the
    interpreter is not modelled. *)
Class PyLib : Type := {
  (** [json.loads(text)] *)
  json_loads : pystr -> result pyvalue;
  (** [ast.literal_eval(text)] *)
  literal_eval : pystr -> result pyvalue;
  (** The text [repr(v)] returns, for a value it can print. *)
  py_repr : pyvalue -> pystr;
  (** The integers that [str] and [repr] refuse to print, raising
      [ValueError]: those with more decimal digits than
      [sys.get_int_max_str_digits()]. *)
  exceeds_max_str_digits : Z -> bool
}.

(** [repr(v)] raises: [v] holds an integer that cannot be printed. *)
Definition repr_raises `{PyLib} (v : pyvalue) : bool :=
  holds_int exceeds_max_str_digits v.

(** The text [str(v)] returns, for a value it can print: a string is
    itself, another value is its [repr]. *)
Definition str_text `{PyLib} (v : pyvalue) : pystr :=
  match v with
  | PyStr s => s
  | _ => py_repr v
  end.

(** [str(v)]: the text, or [ValueError] where an integer inside [v]
    cannot be printed. *)
Definition py_str `{PyLib} (v : pyvalue) : result pystr :=
  if repr_raises v then Error ValueError else Value (str_text v).

(** [data[key]] for a string [key], [None] when [key not in data]. *)
Fixpoint dict_get (items : list (pyvalue * pyvalue)) (key : pystr)
  : option pyvalue :=
  match items with
  | [] => None
  | (k, v) :: rest =>
    match dict_get rest key with
    | Some v' => Some v'
    | None =>
      match k with
      | PyStr s => if PyStr.eqb s key then Some v else None
      | _ => None
      end
    end
  end.

(** ** Conversations *)

Inductive role : Type := user | assistant.

(** [{"role": ..., "content": ...}] *)
Record message : Type := Message {
  msg_role : role;
  msg_content : pystr
}.

(** ** External collaborators *)

(** What a tool callable does with its input. *)
Inductive tool_result : Type :=
| Observation (text : pystr)
| Fault (e : exn).

(** Modelled from the spec: the class [HelloAgentsLLM] of [llm_client.py]
    is not among the sources.  [think] maps a conversation to a text
    completion or to an absent result; it may depend on, and change, the
    state of the world. *)
Class HelloAgentsLLM (World : Type) : Type := {
  llm_think : list message -> World -> option pystr * World
}.

(** Modelled from the spec: the class [ToolExecutor] of [tools.py] is not
    among the sources.  The registry is seen through what the executor
    reads of it: whether [tools] is non-empty, the catalog
    [getAvailableTools()] and the lookup [getTool(name)], absent on a miss.
    A callable maps a string to an observation, may change the world and
    may raise. *)
Record ToolExecutor (World : Type) : Type := {
  tools_nonempty : bool;
  getAvailableTools : pystr;
  getTool : pystr -> option (pystr -> World -> tool_result * World)
}.

(** ** Effects *)

(** A call made to an external collaborator, with its answer. *)
Inductive event : Type :=
| EvThink (messages : list message) (reply : option pystr)
| EvGetTool (name : pystr) (found : bool)
| EvToolCall (name input : pystr) (res : tool_result).

(** How a computation ends: with a value, with an exception, or cut off
    by the recursion bound of the model. *)
Inductive outcome (A : Type) : Type :=
| Ok (a : A)
| Raise (e : exn)
| OutOfFuel.
Arguments Raise {A} e.
Arguments OutOfFuel {A}.

(** A computation runs from a state of the world and yields its outcome,
    the new state of the world and the calls it made. *)
Definition M (World A : Type) : Type :=
  World -> outcome A * World * list event.

Definition ret {World A} (a : A) : M World A := fun w => (Ok a, w, []).

Definition bind {World A B} (m : M World A) (k : A -> M World B) : M World B :=
  fun w =>
    match m w with
    | (Ok a, w1, evs1) =>
      match k a w1 with
      | (out, w2, evs2) => (out, w2, evs1 ++ evs2)
      end
    | (Raise e, w1, evs1) => (Raise e, w1, evs1)
    | (OutOfFuel, w1, evs1) => (OutOfFuel, w1, evs1)
    end.

Definition lift {World A} (r : result A) : M World A :=
  fun w =>
    match r with
    | Value a => (Ok a, w, [])
    | Error e => (Raise e, w, [])
    end.

Declare Scope monad_scope.
Delimit Scope monad_scope with monad.
Notation "x <- m ;; k" := (bind m (fun x => k))
  (at level 61, m at next level, right associativity) : monad_scope.
Open Scope monad_scope.

(** [x or empty] for an optional string [x]. *)
Definition or_empty (o : option pystr) : pystr :=
  match o with
  | Some s => if truthy s then s else empty
  | None => empty
  end.

Definition quoted (s : pystr) : pystr := dquote ++ s ++ dquote.

(** ** The planner *)

(** [PLANNER_PROMPT_TEMPLATE.format(question=question)] *)
Definition PLANNER_PROMPT_TEMPLATE (question : pystr) : pystr :=
  lit "
你是一个顶级的AI规划专家。你的任务是将用户提出的复杂问题分解成一个由多个简单步骤组成的行动计划。
请确保计划中的每个步骤都是一个独立的、可执行的子任务，并且严格按照逻辑顺序排列。
你的输出必须是一个Python列表, 其中每个元素都是一个描述子任务的字符串。

问题: "
  ++ question
  ++ lit "

请严格按照以下格式输出你的计划，```python与```作为前后缀是必要的:
```python
["
  ++ quoted (lit "步骤1") ++ lit ", " ++ quoted (lit "步骤2") ++ lit ", "
  ++ quoted (lit "步骤3")
  ++ lit ", ...]
```
".

(** The two fence markers [plan] splits on. *)
Definition FENCE_OPEN : pystr := lit "```python".
Definition FENCE : pystr := lit "```".

(** ** The executor *)

(** [EXECUTOR_PROMPT_TEMPLATE.format(question=..., plan=..., history=...,
    current_step=..., tool_instructions=...)], the fields already
    converted to strings. *)
Definition EXECUTOR_PROMPT_TEMPLATE
    (question plan history current_step tool_instructions : pystr) : pystr :=
  lit "
你是一位顶级的AI执行专家。你的任务是严格按照给定的计划，一步步地解决问题。
你将收到原始问题、完整的计划、以及到目前为止已经完成的步骤和结果。
你可以使用下方的工具列表获取所需信息：
"
  ++ tool_instructions
  ++ lit "

使用工具时，请输出 JSON：{"
  ++ quoted (lit "tool") ++ lit ": " ++ quoted (lit "工具名称") ++ lit ", "
  ++ quoted (lit "input") ++ lit ": " ++ quoted (lit "工具输入")
  ++ lit "}。
当你获得最终答案时，仅输出答案文本，不要再输出 JSON 或额外解释。

# 原始问题:
"
  ++ question
  ++ lit "

# 完整计划:
"
  ++ plan
  ++ lit "

# 历史步骤与结果:
"
  ++ history
  ++ lit "

# 当前步骤:
"
  ++ current_step
  ++ lit "
".

(** The placeholder for the tool catalog. *)
Definition NO_TOOLS : pystr := lit "（当前无可用工具）".

(** [f"错误：工具 '{tool_name}' 未注册。"] *)
Definition unregistered_message (tool_name : pystr) : pystr :=
  lit "错误：工具 '" ++ tool_name ++ lit "' 未注册。".

(** [f"工具 '{tool_name}' 的输出: {observation}"] *)
Definition tool_output_message (tool_name observation : pystr) : pystr :=
  lit "工具 '" ++ tool_name ++ lit "' 的输出: " ++ observation.

(** [f"步骤 {i}: {step}\n使用工具 {tool_name} -> {observation}\n\n"] *)
Definition tool_record (i : Z) (step tool_name observation : pystr) : pystr :=
  lit "步骤 " ++ of_int i ++ lit ": " ++ step ++ newline
  ++ lit "使用工具 " ++ tool_name ++ lit " -> " ++ observation
  ++ newline ++ newline.

(** [f"步骤 {i}: {step}\n结果: {response_text}\n\n"] *)
Definition result_record (i : Z) (step response_text : pystr) : pystr :=
  lit "步骤 " ++ of_int i ++ lit ": " ++ step ++ newline
  ++ lit "结果: " ++ response_text ++ newline ++ newline.

(** [{"tool": tool_name, "input": tool_input}] *)
Record ToolRequest : Type := {
  req_tool : pystr;
  req_input : pystr
}.

(** The local variables of one step that the tool loop reads and
    updates. *)
Record loop_state : Type := {
  messages : list message;
  response_text : pystr;
  tool_iterations : Z;
  history : pystr
}.

(** [response_text.split(FENCE_OPEN)[1].split(FENCE)[0]]; an index out
    of range raises [IndexError]. *)
Definition fenced_block (response : pystr) : result pystr :=
  match nth_error (split FENCE_OPEN response) 1 with
  | None => Error IndexError
  | Some after_open =>
    match nth_error (split FENCE after_open) 0 with
    | None => Error IndexError
    | Some block => Value block
    end
  end.

Section Agent.

Context {lib : PyLib} {World : Type} {llm : HelloAgentsLLM World}.

(** [self.llm_client.think(messages=messages)] *)
Definition think (msgs : list message) : M World (option pystr) :=
  fun w =>
    let (reply, w') := llm_think msgs w in
    (Ok reply, w', [EvThink msgs reply]).

(** [self.tool_executor.getTool(tool_name)] *)
Definition get_tool (te : ToolExecutor World) (tool_name : pystr)
  : M World (option (pystr -> World -> tool_result * World)) :=
  fun w =>
    let f := getTool te tool_name in
    (Ok f, w,
     [EvGetTool tool_name (match f with Some _ => true | None => false end)]).

(** [tool_func(tool_input)] *)
Definition call_tool (tool_name : pystr)
    (tool_func : pystr -> World -> tool_result * World) (tool_input : pystr)
  : M World pystr :=
  fun w =>
    let (res, w') := tool_func tool_input w in
    let evs := [EvToolCall tool_name tool_input res] in
    match res with
    | Observation text => (Ok text, w', evs)
    | Fault e => (Raise e, w', evs)
    end.

(** *** [Planner.plan] *)

(** The body of the [try] block. *)
Definition plan_try (response : pystr) : result (list pyvalue) :=
  match fenced_block response with
  | Error e => Error e
  | Value block =>
    let plan_str := strip block in
    match literal_eval plan_str with
    | Error e => Error e
    | Value plan =>
      Value (match plan with PyList items => items | _ => [] end)
    end
  end.

Definition plan (question : pystr) : M World (list pyvalue) :=
  let prompt := PLANNER_PROMPT_TEMPLATE question in
  let msgs := [Message user prompt] in
  reply <- think msgs ;;
  let response := or_empty reply in
  match plan_try response with
  | Value p => ret p
  | Error e =>
    if is_ValueError e || is_SyntaxError e || is_IndexError e then ret []
    else if is_Exception e then ret []
    else lift (Error e)
  end.

(** *** [Executor] *)

(** The fields of an executor; its [llm_client] is the instance [llm]. *)
Record Executor : Type := {
  tool_executor : option (ToolExecutor World);
  max_tool_iterations : Z
}.

Definition _parse_tool_request (response : pystr)
  : result (option ToolRequest) :=
  if negb (truthy response) then Value None
  else
    let parsed : result (option pyvalue) :=
      match json_loads response with
      | Value data => Value (Some data)
      | Error e =>
        if is_JSONDecodeError e then
          match literal_eval response with
          | Value data => Value (Some data)
          | Error e' =>
            if is_ValueError e' || is_SyntaxError e' then Value None
            else Error e'
          end
        else Error e
      end in
    match parsed with
    | Error e => Error e
    | Value None => Value None
    | Value (Some (PyDict items)) =>
      match dict_get items (lit "tool"), dict_get items (lit "input") with
      | Some t, Some inp =>
        match py_str t with
        | Error e => Error e
        | Value tool_text =>
          let tool_name := strip tool_text in
          match py_str inp with
          | Error e => Error e
          | Value tool_input =>
            if truthy tool_name
            then Value (Some {| req_tool := tool_name;
                                req_input := tool_input |})
            else Value None
          end
        end
      | _, _ => Value None
      end
    | Value (Some _) => Value None
    end.

(** One pass through the body of the [while] loop; [None] is [break]. *)
Definition tool_iteration (te : ToolExecutor World) (i : Z) (step : pystr)
    (ls : loop_state) : M World (option loop_state) :=
  tool_request <- lift (_parse_tool_request (response_text ls)) ;;
  match tool_request with
  | None => ret None
  | Some req =>
    let tool_name := req_tool req in
    let tool_input := req_input req in
    tool_func <- get_tool te tool_name ;;
    observation <-
      match tool_func with
      | None => ret (unregistered_message tool_name)
      | Some f => call_tool tool_name f tool_input
      end ;;
    let history' := history ls ++ tool_record i step tool_name observation in
    let tool_iterations' := (tool_iterations ls + 1)%Z in
    let messages1 :=
      messages ls
      ++ [Message user (tool_output_message tool_name observation)] in
    reply <- think messages1 ;;
    let response' := or_empty reply in
    let messages2 := messages1 ++ [Message assistant response'] in
    ret (Some {| messages := messages2; response_text := response';
                 tool_iterations := tool_iterations'; history := history' |})
  end.

(** [while self.tool_executor and tool_iterations < self.max_tool_iterations]
    The recursion is bounded by [fuel]; the remaining budget is always
    enough fuel (lemma [tool_loop_events]). *)
Fixpoint tool_loop (fuel : nat) (ex : Executor) (i : Z) (step : pystr)
    (ls : loop_state) : M World loop_state :=
  match tool_executor ex with
  | None => ret ls
  | Some te =>
    if (tool_iterations ls <? max_tool_iterations ex)%Z then
      match fuel with
      | O => fun w => (OutOfFuel, w, [])
      | S fuel' =>
        next <- tool_iteration te i step ls ;;
        match next with
        | None => ret ls
        | Some ls' => tool_loop fuel' ex i step ls'
        end
      end
    else ret ls
  end.

(** [tool_instructions] *)
Definition tool_instructions (ex : Executor) : pystr :=
  match tool_executor ex with
  | Some te => if tools_nonempty te then getAvailableTools te else NO_TOOLS
  | None => NO_TOOLS
  end.

(** The prompt of a step.  The plan is formatted with [str], which
    returns on a list of strings (lemma [py_str_strings]). *)
Definition step_prompt (ex : Executor) (question : pystr) (plan : list pystr)
    (hist step : pystr) : pystr :=
  EXECUTOR_PROMPT_TEMPLATE question
    (str_text (PyList (map PyStr plan)))
    (if truthy hist then hist else lit "无")
    step
    (tool_instructions ex).

(** The body of the [for] loop, up to the end of the [while] loop: the
    final values of the step's local variables. *)
Definition run_step (ex : Executor) (question : pystr) (plan : list pystr)
    (i : Z) (step : pystr) (hist : pystr) : M World loop_state :=
  let prompt := step_prompt ex question plan hist step in
  let msgs := [Message user prompt] in
  reply <- think msgs ;;
  let response := or_empty reply in
  let msgs := msgs ++ [Message assistant response] in
  tool_loop (Z.to_nat (max_tool_iterations ex)) ex i step
    {| messages := msgs; response_text := response;
       tool_iterations := 0; history := hist |}.

(** The body of the [for] loop: the updated [history] and the step's
    result, which becomes [final_answer]. *)
Definition execute_step (ex : Executor) (question : pystr) (plan : list pystr)
    (i : Z) (step : pystr) (hist : pystr) : M World (pystr * pystr) :=
  ls <- run_step ex question plan i step hist ;;
  let hist' := history ls ++ result_record i step (response_text ls) in
  ret (hist', response_text ls).

(** [for i, step in enumerate(plan, 1)], from the step of index [i] on. *)
Fixpoint execute_steps (ex : Executor) (question : pystr) (plan : list pystr)
    (i : Z) (steps : list pystr) (hist final_answer : pystr)
  : M World (pystr * pystr) :=
  match steps with
  | [] => ret (hist, final_answer)
  | step :: rest =>
    r <- execute_step ex question plan i step hist ;;
    execute_steps ex question plan (i + 1) rest (fst r) (snd r)
  end.

Definition execute (ex : Executor) (question : pystr) (plan : list pystr)
  : M World pystr :=
  r <- execute_steps ex question plan 1 plan empty empty ;;
  ret (snd r).

End Agent.

(** ** The orchestrator *)

(** Modelled from the spec: [tools.py] is not among the sources.  Its
    constructor [ToolExecutor()], its method [registerTool] (the registry
    after the registration) and its function [search] are taken as they
    are given. *)
Class ToolsModule (World : Type) : Type := {
  new_ToolExecutor : ToolExecutor World;
  registerTool :
    ToolExecutor World -> pystr -> pystr ->
    (pystr -> World -> tool_result * World) -> ToolExecutor World;
  search : pystr -> World -> tool_result * World
}.

(** The description under which the agent registers [search]. *)
Definition SEARCH_DESCRIPTION : pystr :=
  lit "一个网页搜索引擎。当你需要回答关于时事、事实以及在你的知识库中找不到的信息时，应使用此工具。".

Section Orchestrator.

Context {lib : PyLib} {World : Type} {llm : HelloAgentsLLM World}
        {tools : ToolsModule World}.

(** The body of the [for] loop of [Executor.execute] up to the end of
    the [while] loop, for a prompt given as a function of the history and
    of the text of the step. *)
Definition run_step_with (prompt_of : pystr -> pystr -> pystr)
    (ex : Executor (World:=World)) (i : Z) (step : pystr) (hist : pystr)
  : M World loop_state :=
  let prompt := prompt_of hist step in
  let msgs := [Message user prompt] in
  reply <- think msgs ;;
  let response := or_empty reply in
  let msgs := msgs ++ [Message assistant response] in
  tool_loop (Z.to_nat (max_tool_iterations ex)) ex i step
    {| messages := msgs; response_text := response;
       tool_iterations := 0; history := hist |}.

Definition step_with (prompt_of : pystr -> pystr -> pystr)
    (ex : Executor (World:=World)) (i : Z) (step : pystr) (hist : pystr)
  : M World (pystr * pystr) :=
  ls <- run_step_with prompt_of ex i step hist ;;
  let hist' := history ls ++ result_record i step (response_text ls) in
  ret (hist', response_text ls).

Fixpoint steps_with (prompt_of : pystr -> pystr -> pystr)
    (ex : Executor (World:=World)) (i : Z) (steps : list pystr) (hist final_answer : pystr)
  : M World (pystr * pystr) :=
  match steps with
  | [] => ret (hist, final_answer)
  | step :: rest =>
    r <- step_with prompt_of ex i step hist ;;
    steps_with prompt_of ex (i + 1) rest (fst r) (snd r)
  end.

(** The prompt of a step, from the texts of the plan and of the step. *)
Definition values_prompt (ex : Executor (World:=World)) (question : pystr)
    (plan_text : pystr) (hist step : pystr) : pystr :=
  EXECUTOR_PROMPT_TEMPLATE question
    plan_text
    (if truthy hist then hist else lit "无")
    step
    (tool_instructions ex).

(** The body of the [for] loop when the plan holds values of any type:
    [format] converts the plan, then the step, with [str], and either
    conversion may raise; the text of the step is what the records and
    the prompt show. *)
Definition value_step (ex : Executor (World:=World)) (question : pystr)
    (plan : list pyvalue) (i : Z) (step : pyvalue) (hist : pystr)
  : M World (pystr * pystr) :=
  plan_text <- lift (py_str (PyList plan)) ;;
  step_text <- lift (py_str step) ;;
  step_with (values_prompt ex question plan_text) ex i step_text hist.

Fixpoint value_steps (ex : Executor (World:=World)) (question : pystr)
    (plan : list pyvalue) (i : Z) (steps : list pyvalue)
    (hist final_answer : pystr) : M World (pystr * pystr) :=
  match steps with
  | [] => ret (hist, final_answer)
  | step :: rest =>
    r <- value_step ex question plan i step hist ;;
    value_steps ex question plan (i + 1) rest (fst r) (snd r)
  end.

(** [Executor.execute] on a plan as [Planner.plan] returns it: the
    elements are what the literal held, strings or not. *)
Definition execute_values (ex : Executor (World:=World)) (question : pystr)
    (plan : list pyvalue) : M World pystr :=
  r <- value_steps ex question plan 1 plan empty empty ;;
  ret (snd r).

(** *** [PlanAndSolveAgent] *)

(** The fields of the agent that [run] reads; the planner has the
    engine [llm] only. *)
Record PlanAndSolveAgent : Type := {
  agent_tool_executor : ToolExecutor World;
  agent_executor : Executor (World:=World)
}.

(** [PlanAndSolveAgent.__init__]: the registry given, or a new one; then
    [search] registered as [Search] unless a tool of that name is
    there. *)
Definition PlanAndSolveAgent_init (tool_executor : option (ToolExecutor World))
  : PlanAndSolveAgent :=
  let te :=
    match tool_executor with
    | Some te => te
    | None => new_ToolExecutor
    end in
  let te :=
    match getTool te (lit "Search") with
    | Some _ => te
    | None => registerTool te (lit "Search") SEARCH_DESCRIPTION search
    end in
  {| agent_tool_executor := te;
     agent_executor := {| tool_executor := Some te;
                          max_tool_iterations := 5 |} |}.

(** [PlanAndSolveAgent.run].  The method prints its report and returns
    nothing; the model returns what it reports: no answer when the plan
    is empty, the final answer otherwise. *)
Definition run (agent : PlanAndSolveAgent) (question : pystr)
  : M World (option pystr) :=
  p <- plan question ;;
  match p with
  | [] => ret None
  | _ :: _ =>
    final_answer <- execute_values (agent_executor agent) question p ;;
    ret (Some final_answer)
  end.

End Orchestrator.

(** ** A runnable instance of the library interface

    The theorems below hold for every [PyLib].  To run the program on
    concrete completions, [PyModel] implements the interface: the JSON
    decoder follows the grammar of [json.decoder] (strict mode), and the
    literal evaluator covers the fragment of Python literals described at
    [literal_eval_model].  The recursion limit of the interpreter is not
    modelled. *)

Module PyModel.

Definition is_digit (c : N) : bool := ((48 <=? c) && (c <=? 57))%N.

Definition hex_digit (c : N) : option N :=
  (if (48 <=? c) && (c <=? 57) then Some (c - 48)
   else if (97 <=? c) && (c <=? 102) then Some (c - 87)
   else if (65 <=? c) && (c <=? 70) then Some (c - 55)
   else None)%N.

Definition hex4 (a b c d : N) : option N :=
  match hex_digit a, hex_digit b, hex_digit c, hex_digit d with
  | Some x, Some y, Some z, Some w => Some (((x * 16 + y) * 16 + z) * 16 + w)%N
  | _, _, _, _ => None
  end.

Fixpoint take_digits (s : pystr) : pystr * pystr :=
  match s with
  | c :: s' =>
    if is_digit c then let (ds, r) := take_digits s' in (c :: ds, r)
    else ([], s)
  | [] => ([], [])
  end.

Definition int_of_digits (ds : pystr) : Z :=
  fold_left (fun acc c => (acc * 10 + Z.of_N (c - 48))%Z) ds 0%Z.

(** The default of [sys.get_int_max_str_digits()], and the integers
    with more decimal digits. *)
Definition max_str_digits : Z := 4300.

(** The least integer with more digits, computed once. *)
Definition first_over_limit : Z := Eval vm_compute in (10 ^ max_str_digits)%Z.

Definition over_limit (z : Z) : bool := (first_over_limit <=? Z.abs z)%Z.

(** *** [json.loads] *)

(** [WHITESPACE = [ \t\n\r]*] *)
Definition json_ws (c : N) : bool :=
  ((c =? 32) || (c =? 9) || (c =? 10) || (c =? 13))%N.

Fixpoint json_skip_ws (s : pystr) : pystr :=
  match s with
  | c :: s' => if json_ws c then json_skip_ws s' else s
  | [] => []
  end.

(** The escapes of [BACKSLASH]. *)
Definition json_escape (c : N) : option N :=
  (if c =? 34 then Some 34        (* quote *)
   else if c =? 92 then Some 92   (* backslash *)
   else if c =? 47 then Some 47   (* slash *)
   else if c =? 98 then Some 8    (* b *)
   else if c =? 102 then Some 12  (* f *)
   else if c =? 110 then Some 10  (* n *)
   else if c =? 114 then Some 13  (* r *)
   else if c =? 116 then Some 9   (* t *)
   else None)%N.

(** [scanstring], after the opening quote; [acc] is the content read so
    far, reversed.  Control characters are refused; a high surrogate
    followed by a low one makes one code point. *)
Fixpoint json_scanstring (s : pystr) (acc : pystr) : option (pystr * pystr) :=
  match s with
  | [] => None
  | c :: s1 =>
    if (c =? 34)%N then Some (rev acc, s1)
    else if (c =? 92)%N then
      match s1 with
      | [] => None
      | e :: s2 =>
        if (e =? 117)%N then
          match s2 with
          | h1 :: h2 :: h3 :: h4 :: s3 =>
            match hex4 h1 h2 h3 h4 with
            | None => None
            | Some uni =>
              match s3 with
              | b :: u :: l1 :: l2 :: l3 :: l4 :: s4 =>
                match hex4 l1 l2 l3 l4 with
                | Some uni2 =>
                  if ((55296 <=? uni) && (uni <=? 56319) && (b =? 92)
                      && (u =? 117) && (56320 <=? uni2) && (uni2 <=? 57343))%N
                  then json_scanstring s4
                         ((65536 + (N.lor (N.shiftl (uni - 55296) 10)
                                      (uni2 - 56320)))%N :: acc)
                  else json_scanstring s3 (uni :: acc)
                | None => json_scanstring s3 (uni :: acc)
                end
              | _ => json_scanstring s3 (uni :: acc)
              end
            end
          | _ => None
          end
        else
          match json_escape e with
          | Some ch => json_scanstring s2 (ch :: acc)
          | None => None
          end
      end
    else if (c <? 32)%N then None
    else json_scanstring s1 (c :: acc)
  end.

(** [NUMBER_RE]: an optional minus sign, then zero or a non-zero digit
    with more digits; then, optionally, a dot with digits; then, optionally,
    an exponent: e or E, an optional sign, digits. *)
Definition json_number (s : pystr) : option (pyvalue * pystr) :=
  let (neg, s0) :=
    match s with
    | c :: s' => if (c =? 45)%N then (true, s') else (false, s)
    | [] => (false, s)
    end in
  let int_part : option (pystr * pystr) :=
    match s0 with
    | c :: s' =>
      if (c =? 48)%N then Some ([c], s')
      else if is_digit c then Some (take_digits s0)
      else None
    | [] => None
    end in
  match int_part with
  | None => None
  | Some (ds, s1) =>
    let (frac, s2) :=
      match s1 with
      | c :: s' =>
        if (c =? 46)%N then
          match take_digits s' with
          | ([], _) => ([], s1)
          | (fs, r) => (c :: fs, r)
          end
        else ([], s1)
      | [] => ([], s1)
      end in
    let (exp, s3) :=
      match s2 with
      | c :: s' =>
        if ((c =? 101) || (c =? 69))%N then
          let (sign, s'') :=
            match s' with
            | g :: t => if ((g =? 43) || (g =? 45))%N then ([g], t) else ([], s')
            | [] => ([], s')
            end in
          match take_digits s'' with
          | ([], _) => ([], s2)
          | (es, r) => (c :: sign ++ es, r)
          end
        else ([], s2)
      | [] => ([], s2)
      end in
    let sign := if neg then [45%N] else [] in
    match frac, exp with
    | [], [] =>
      Some (PyInt (if neg then - int_of_digits ds else int_of_digits ds)%Z, s3)
    | _, _ => Some (PyFloat (sign ++ ds ++ frac ++ exp), s3)
    end
  end.

(** A constant: [w] must be a prefix of [s]. *)
Definition keyword (w : pystr) (v : pyvalue) (s : pystr)
  : option (pyvalue * pystr) :=
  if startswith w s then Some (v, skipn (List.length w) s) else None.

(** [scan_once], [JSONObject] and [JSONArray].  [json_members] reads
    the members of an object from a key's opening quote on,
    [json_elements] the elements of an array from a value on; [acc]
    is what was read so far, reversed.  A call that does not consume a
    character is followed by one that does, so twice the length of the text
    is enough fuel. *)
Fixpoint json_value (fuel : nat) (s : pystr) : option (pyvalue * pystr) :=
  match fuel with
  | O => None
  | S f =>
    match s with
    | [] => None
    | c :: s1 =>
      if (c =? 34)%N then
        match json_scanstring s1 [] with
        | Some (str, r) => Some (PyStr str, r)
        | None => None
        end
      else if (c =? 123)%N then
        match json_skip_ws s1 with
        | d :: r =>
          if (d =? 125)%N then Some (PyDict [], r)
          else if (d =? 34)%N then json_members f r []
          else None
        | [] => None
        end
      else if (c =? 91)%N then
        match json_skip_ws s1 with
        | d :: r =>
          if (d =? 93)%N then Some (PyList [], r)
          else json_elements f (d :: r) []
        | [] => None
        end
      else if (c =? 110)%N then keyword (lit "null") PyNone s
      else if (c =? 116)%N then keyword (lit "true") (PyBool true) s
      else if (c =? 102)%N then keyword (lit "false") (PyBool false) s
      else
        match json_number s with
        | Some r => Some r
        | None =>
          if (c =? 78)%N then keyword (lit "NaN") (PyFloat (lit "NaN")) s
          else if (c =? 73)%N
          then keyword (lit "Infinity") (PyFloat (lit "Infinity")) s
          else if (c =? 45)%N
          then keyword (lit "-Infinity") (PyFloat (lit "-Infinity")) s
          else None
        end
    end
  end

with json_members (fuel : nat) (s : pystr) (acc : list (pyvalue * pyvalue))
  : option (pyvalue * pystr) :=
  match fuel with
  | O => None
  | S f =>
    match json_scanstring s [] with
    | None => None
    | Some (key, r) =>
      match json_skip_ws r with
      | c :: r1 =>
        if (c =? 58)%N then
          match json_value f (json_skip_ws r1) with
          | None => None
          | Some (v, r2) =>
            let acc' := (PyStr key, v) :: acc in
            match json_skip_ws r2 with
            | d :: r3 =>
              if (d =? 125)%N then Some (PyDict (rev acc'), r3)
              else if (d =? 44)%N then
                match json_skip_ws r3 with
                | q :: r4 =>
                  if (q =? 34)%N then json_members f r4 acc' else None
                | [] => None
                end
              else None
            | [] => None
            end
          end
        else None
      | [] => None
      end
    end
  end

with json_elements (fuel : nat) (s : pystr) (acc : list pyvalue)
  : option (pyvalue * pystr) :=
  match fuel with
  | O => None
  | S f =>
    match json_value f s with
    | None => None
    | Some (v, r) =>
      let acc' := v :: acc in
      match json_skip_ws r with
      | d :: r1 =>
        if (d =? 93)%N then Some (PyList (rev acc'), r1)
        else if (d =? 44)%N then json_elements f (json_skip_ws r1) acc'
        else None
      | [] => None
      end
    end
  end.

(** [json.loads(text)]: one value, surrounded by whitespace only.  The
    decoder converts an integer with [int], which raises [ValueError]
    beyond the digit limit; the model raises it for a text that is well
    formed otherwise. *)
Definition json_loads_model (text : pystr) : result pyvalue :=
  match json_value (2 * List.length text + 2) (json_skip_ws text) with
  | Some (v, r) =>
    match json_skip_ws r with
    | [] => if holds_int over_limit v then Error ValueError else Value v
    | _ :: _ => Error JSONDecodeError
    end
  | None => Error JSONDecodeError
  end.

(** *** [ast.literal_eval] *)

(** Blanks between the tokens of a literal. *)
Definition py_ws (c : N) : bool :=
  ((c =? 32) || (c =? 9) || (c =? 12) || (c =? 10) || (c =? 13))%N.

Fixpoint py_skip_ws (s : pystr) : pystr :=
  match s with
  | c :: s' => if py_ws c then py_skip_ws s' else s
  | [] => []
  end.

(** A character that continues a name or a number. *)
Definition ident_char (c : N) : bool :=
  (is_digit c || (65 <=? c) && (c <=? 90) || (97 <=? c) && (c <=? 122)
   || (c =? 95) || (128 <=? c))%N.

Definition is_octal (c : N) : bool := ((48 <=? c) && (c <=? 55))%N.

(** The one-character escapes of a string literal. *)
Definition py_escape (c : N) : option N :=
  (if (c =? 92) || (c =? 39) || (c =? 34) then Some c
   else if c =? 97 then Some 7
   else if c =? 98 then Some 8
   else if c =? 102 then Some 12
   else if c =? 110 then Some 10
   else if c =? 114 then Some 13
   else if c =? 116 then Some 9
   else if c =? 118 then Some 11
   else None)%N.

(** A string literal after its opening quote [q]; [acc] is the content
    read so far, reversed. *)
Fixpoint py_scanstring (q : N) (s : pystr) (acc : pystr)
  : option (pystr * pystr) :=
  match s with
  | [] => None
  | c :: s1 =>
    if (c =? q)%N then Some (rev acc, s1)
    else if ((c =? 10) || (c =? 13))%N then None
    else if (c =? 92)%N then
      match s1 with
      | [] => None
      | e :: s2 =>
        match py_escape e with
        | Some ch => py_scanstring q s2 (ch :: acc)
        | None =>
          if (e =? 10)%N then py_scanstring q s2 acc
          else if (e =? 120)%N then
            match s2 with
            | h1 :: h2 :: s3 =>
              match hex4 48 48 h1 h2 with
              | Some ch => py_scanstring q s3 (ch :: acc)
              | None => None
              end
            | _ => None
            end
          else if (e =? 117)%N then
            match s2 with
            | h1 :: h2 :: h3 :: h4 :: s3 =>
              match hex4 h1 h2 h3 h4 with
              | Some ch => py_scanstring q s3 (ch :: acc)
              | None => None
              end
            | _ => None
            end
          else if ((e =? 85) || (e =? 78) || is_octal e)%N then None
          else py_scanstring q s2 (e :: 92%N :: acc)
        end
      end
    else py_scanstring q s1 (c :: acc)
  end.

(** A decimal integer literal: digits not followed by a character that
    would continue the token, and no leading zero before a non-zero
    digit. *)
Definition py_integer (s : pystr) : option (Z * pystr) :=
  match take_digits s with
  | ([], _) => None
  | (d :: ds, r) =>
    let continued :=
      match r with
      | c :: _ => ident_char c || (c =? 46)%N
      | [] => false
      end in
    if continued then None
    else if (d =? 48)%N && negb (forallb (N.eqb 48) ds) then None
    else Some (int_of_digits (d :: ds), r)
  end.

Fixpoint take_hex_digits (s : pystr) (acc : Z) (n : nat)
  : Z * nat * pystr :=
  match s with
  | c :: s' =>
    match hex_digit c with
    | Some d => take_hex_digits s' (Z.shiftl acc 4 + Z.of_N d)%Z (S n)
    | None => (acc, n, s)
    end
  | [] => (acc, n, [])
  end.

(** A hexadecimal integer literal: [0x] or [0X], then digits not
    followed by a character that would continue the token. *)
Definition py_hex_integer (s : pystr) : option (Z * pystr) :=
  match s with
  | z :: x :: s' =>
    if ((z =? 48) && ((x =? 120) || (x =? 88)))%N then
      match take_hex_digits s' 0%Z O with
      | (_, O, _) => None
      | (v, S _, r) =>
        match r with
        | c :: _ => if ident_char c || (c =? 46)%N then None else Some (v, r)
        | [] => Some (v, r)
        end
      end
    else None
  | _ => None
  end.

(** An integer literal, hexadecimal or decimal.  A decimal literal of
    an integer beyond the digit limit is refused (the interpreter raises
    [SyntaxError] for it); a hexadecimal one is not. *)
Definition py_number (s : pystr) : option (Z * pystr) :=
  match py_hex_integer s with
  | Some r => Some r
  | None =>
    match py_integer s with
    | Some (z, r) => if over_limit z then None else Some (z, r)
    | None => None
    end
  end.

(** A constant name: [w], not followed by a character of a name. *)
Definition py_keyword (w : pystr) (v : pyvalue) (s : pystr)
  : option (pyvalue * pystr) :=
  if startswith w s then
    let r := skipn (List.length w) s in
    match r with
    | c :: _ => if ident_char c then None else Some (v, r)
    | [] => Some (v, r)
    end
  else None.

(** The parser of the fragment.  [py_items] reads comma-separated values
    up to the bracket [close], a comma before it allowed; [py_pairs]
    reads the rest of a dictionary display after an item. *)
Fixpoint py_value (fuel : nat) (s : pystr) : option (pyvalue * pystr) :=
  match fuel with
  | O => None
  | S f =>
    match py_skip_ws s with
    | [] => None
    | c :: s1 =>
      if ((c =? 39) || (c =? 34))%N then
        match s1 with
        | c1 :: c2 :: _ =>
          if ((c1 =? c) && (c2 =? c))%N then None
          else match py_scanstring c s1 [] with
               | Some (str, r) => Some (PyStr str, r)
               | None => None
               end
        | _ => match py_scanstring c s1 [] with
               | Some (str, r) => Some (PyStr str, r)
               | None => None
               end
        end
      else if (c =? 91)%N then
        match py_items f 93 s1 [] with
        | Some (items, r) => Some (PyList items, r)
        | None => None
        end
      else if (c =? 40)%N then
        match py_skip_ws s1 with
        | d :: r =>
          if (d =? 41)%N then Some (PyTuple [], r)
          else
            match py_value f (d :: r) with
            | None => None
            | Some (v, r1) =>
              match py_skip_ws r1 with
              | e :: r2 =>
                if (e =? 41)%N then Some (v, r2)
                else if (e =? 44)%N then
                  match py_items f 41 r2 [v] with
                  | Some (items, r3) => Some (PyTuple items, r3)
                  | None => None
                  end
                else None
              | [] => None
              end
            end
        | [] => None
        end
      else if (c =? 123)%N then
        match py_skip_ws s1 with
        | d :: r =>
          if (d =? 125)%N then Some (PyDict [], r)
          else
            match py_value f (d :: r) with
            | None => None
            | Some (k, r1) =>
              match py_skip_ws r1 with
              | e :: r2 =>
                if (e =? 58)%N then
                  match py_value f r2 with
                  | Some (v, r3) => py_pairs f r3 [(k, v)]
                  | None => None
                  end
                else if (e =? 44)%N then
                  match py_items f 125 r2 [k] with
                  | Some (items, r3) => Some (PySet items, r3)
                  | None => None
                  end
                else if (e =? 125)%N then Some (PySet [k], r2)
                else None
              | [] => None
              end
            end
        | [] => None
        end
      else if ((c =? 45) || (c =? 43))%N then
        match py_number (py_skip_ws s1) with
        | Some (z, r) => Some (PyInt (if (c =? 45)%N then - z else z)%Z, r)
        | None => None
        end
      else if is_digit c then
        match py_number (c :: s1) with
        | Some (z, r) => Some (PyInt z, r)
        | None => None
        end
      else if (c =? 78)%N then py_keyword (lit "None") PyNone (c :: s1)
      else if (c =? 84)%N then py_keyword (lit "True") (PyBool true) (c :: s1)
      else if (c =? 70)%N then py_keyword (lit "False") (PyBool false) (c :: s1)
      else None
    end
  end

with py_items (fuel : nat) (close : N) (s : pystr) (acc : list pyvalue)
  : option (list pyvalue * pystr) :=
  match fuel with
  | O => None
  | S f =>
    match py_skip_ws s with
    | [] => None
    | c :: s1 =>
      if (c =? close)%N then
        match acc with
        | [] => Some ([], s1)
        | _ :: _ => Some (rev acc, s1)
        end
      else
        match py_value f (c :: s1) with
        | None => None
        | Some (v, r) =>
          match py_skip_ws r with
          | d :: r1 =>
            if (d =? close)%N then Some (rev (v :: acc), r1)
            else if (d =? 44)%N then py_items f close r1 (v :: acc)
            else None
          | [] => None
          end
        end
    end
  end

with py_pairs (fuel : nat) (s : pystr) (acc : list (pyvalue * pyvalue))
  : option (pyvalue * pystr) :=
  match fuel with
  | O => None
  | S f =>
    match py_skip_ws s with
    | [] => None
    | c :: s1 =>
      if (c =? 125)%N then Some (PyDict (rev acc), s1)
      else if (c =? 44)%N then
        match py_skip_ws s1 with
        | d :: r =>
          if (d =? 125)%N then Some (PyDict (rev acc), r)
          else
            match py_value f (d :: r) with
            | None => None
            | Some (k, r1) =>
              match py_skip_ws r1 with
              | e :: r2 =>
                if (e =? 58)%N then
                  match py_value f r2 with
                  | Some (v, r3) => py_pairs f r3 ((k, v) :: acc)
                  | None => None
                  end
                else None
              | [] => None
              end
            end
        | [] => None
        end
      else None
    end
  end.

(** [hash(v)] succeeds. *)
Fixpoint hashable (v : pyvalue) : bool :=
  match v with
  | PyList _ | PySet _ | PyDict _ => false
  | PyTuple items => forallb hashable items
  | _ => true
  end.

(** Every element of a set and every key of a dictionary inside [v] is
    hashable. *)
Fixpoint keys_hashable (v : pyvalue) : bool :=
  match v with
  | PyList items | PyTuple items => forallb keys_hashable items
  | PySet items => forallb (fun x => keys_hashable x && hashable x) items
  | PyDict items =>
    forallb (fun kv => match kv with
                       | (k, x) => keys_hashable k && hashable k
                                   && keys_hashable x
                       end) items
  | _ => true
  end.

(** [str.lstrip] with the characters space and tab. *)
Fixpoint lstrip_blank (s : pystr) : pystr :=
  match s with
  | c :: s' => if ((c =? 32) || (c =? 9))%N then lstrip_blank s' else s
  | [] => []
  end.

(** [ast.literal_eval(text)] on a fragment of the literals: [None],
    [True], [False], decimal and hexadecimal integers with an optional
    sign, string
    literals in single or double quotes without prefix (with the
    one-character escapes and the escapes x and u), lists, tuples, sets and
    dictionaries, with blanks between tokens; building a set or a
    dictionary raises [TypeError] on an unhashable element or key.
    Everything else is answered with [SyntaxError]; the interpreter
    raises [ValueError] for some of it and accepts more literals (floats,
    octal and binary integers, digits separated by underscores, triple
    quotes, adjacent strings, a leading line break). *)
Definition literal_eval_model (text : pystr) : result pyvalue :=
  let src := lstrip_blank text in
  match src with
  | c :: _ =>
    if ((c =? 10) || (c =? 13))%N then Error SyntaxError
    else
      match py_value (2 * List.length src + 2) src with
      | Some (v, r) =>
        match py_skip_ws r with
        | [] => if keys_hashable v then Value v else Error TypeError
        | _ :: _ => Error SyntaxError
        end
      | None => Error SyntaxError
      end
  | [] => Error SyntaxError
  end.

(** *** [repr] *)

Fixpoint join (sep : pystr) (l : list pystr) : pystr :=
  match l with
  | [] => []
  | [x] => x
  | x :: rest => x ++ sep ++ join sep rest
  end.

Definition hex_char (d : N) : N := (if d <? 10 then 48 + d else 87 + d)%N.

Definition repr_char (q c : N) : pystr :=
  (if (c =? q) || (c =? 92) then [92; c]
   else if c =? 10 then [92; 110]
   else if c =? 13 then [92; 114]
   else if c =? 9 then [92; 116]
   else if (c <? 32) || (c =? 127)
   then [92; 120; hex_char (c / 16); hex_char (c mod 16)]
   else [c])%N.

Definition repr_str (s : pystr) : pystr :=
  let q := if existsb (N.eqb 39) s && negb (existsb (N.eqb 34) s)
           then 34%N else 39%N in
  [q] ++ flat_map (repr_char q) s ++ [q].

(** [repr(v)].  Exact on [None], the booleans, the integers, strings of
    ASCII characters, and lists and tuples of these; a float shows the
    text it was read from, a character above ASCII counts as printable,
    and a set or dictionary shows its items as listed. *)
Fixpoint repr_model (v : pyvalue) : pystr :=
  match v with
  | PyNone => lit "None"
  | PyEllipsis => lit "Ellipsis"
  | PyBool true => lit "True"
  | PyBool false => lit "False"
  | PyInt z => of_int z
  | PyFloat lexeme => lexeme
  | PyComplex lexeme => lexeme
  | PyStr s => repr_str s
  | PyBytes bs => lit "b" ++ repr_str bs
  | PyList items => lit "[" ++ join (lit ", ") (map repr_model items) ++ lit "]"
  | PyTuple [x] => lit "(" ++ repr_model x ++ lit ",)"
  | PyTuple items => lit "(" ++ join (lit ", ") (map repr_model items) ++ lit ")"
  | PySet [] => lit "set()"
  | PySet items => lit "{" ++ join (lit ", ") (map repr_model items) ++ lit "}"
  | PyDict items =>
    lit "{"
    ++ join (lit ", ")
         (map (fun kv => match kv with
                         | (k, x) => repr_model k ++ lit ": " ++ repr_model x
                         end) items)
    ++ lit "}"
  end.

#[export] Instance model : PyLib := {
  json_loads := json_loads_model;
  literal_eval := literal_eval_model;
  py_repr := repr_model;
  exceeds_max_str_digits := over_limit
}.

End PyModel.

(** ** Vocabulary of the properties *)

(** The completions received in a sequence of calls, as the program
    reads them. *)
Definition replies (evs : list event) : list pystr :=
  flat_map (fun e => match e with
                     | EvThink _ reply => [or_empty reply]
                     | _ => []
                     end) evs.

(** The number of invocations of the completion engine. *)
Definition engine_calls (evs : list event) : nat := List.length (replies evs).

Definition is_lookup (e : event) : bool :=
  match e with EvGetTool _ _ => true | _ => false end.

(** The number of tool resolutions: lookups in the registry. *)
Definition tool_lookups (evs : list event) : nat :=
  List.length (filter is_lookup evs).

Definition faulted (e : event) : bool :=
  match e with EvToolCall _ _ (Fault _) => true | _ => false end.

(** No tool callable raised. *)
Definition no_tool_fault (evs : list event) : bool :=
  forallb (fun e => negb (faulted e)) evs.

(** The completion parses as a tool request. *)
Definition requests_tool `{PyLib} (text : pystr) : Prop :=
  exists req, _parse_tool_request text = Value (Some req).


(** The local variables of a step after a tool resolution that gave
    [observation] and was answered by the completion [reply]. *)
Definition resolved (i : Z) (step : pystr) (ls : loop_state)
    (tool_name observation : pystr) (reply : option pystr) : loop_state :=
  let messages1 :=
    messages ls
    ++ [Message user (tool_output_message tool_name observation)] in
  {| messages := messages1 ++ [Message assistant (or_empty reply)];
     response_text := or_empty reply;
     tool_iterations := tool_iterations ls + 1;
     history := history ls ++ tool_record i step tool_name observation |}.

(** The iterations the budget of the executor still allows. *)
Definition remaining {World : Type} (ex : Executor (World:=World))
    (ls : loop_state) : nat :=
  Z.to_nat (max_tool_iterations ex - tool_iterations ls).

(** The history records of a sequence of tool resolutions, each a tool
    name with the observation it gave. *)
Definition tool_records (i : Z) (step : pystr)
    (resolutions : list (pystr * pystr)) : pystr :=
  flat_map (fun r => tool_record i step (fst r) (snd r)) resolutions.

(** The local variables of a step when the tool loop is reached. *)
Definition initial_state (prompt : pystr) (reply : option pystr)
    (hist : pystr) : loop_state :=
  {| messages := [Message user prompt; Message assistant (or_empty reply)];
     response_text := or_empty reply;
     tool_iterations := 0;
     history := hist |}.

(** The observation a request gets in the world [w]: the output of the
    registered tool, or the error message for a tool that is not
    registered. *)
Definition observes {World : Type} (te : ToolExecutor World) (w : World)
    (req : ToolRequest) (observation : pystr) : Prop :=
  match getTool te (req_tool req) with
  | Some tool_func =>
    fst (tool_func (req_input req) w) = Observation observation
  | None => observation = unregistered_message (req_tool req)
  end.

(** The tool-request format in the words of the specification: a single
    JSON object with exactly the keys [tool] and [input]. *)
Definition json_object_with_exactly_tool_and_input `{PyLib} (text : pystr)
  : Prop :=
  exists items,
    json_loads text = Value (PyDict items)
    /\ forall k, In k (map fst items)
                 <-> (k = PyStr (lit "tool") \/ k = PyStr (lit "input")).

(** What the parser reads a completion as: the JSON value, or the Python
    literal when the JSON decoder refuses the text. *)
Definition reads_as `{PyLib} (text : pystr) (data : pyvalue) : Prop :=
  json_loads text = Value data
  \/ (exists e, json_loads text = Error e /\ is_JSONDecodeError e = true
                /\ literal_eval text = Value data).

(** ** A scripted engine and a small registry

    To run the executor on concrete conversations: the world is the list
    of the completions the engine will give, in order; the registry holds
    one tool, [Search]. *)

Module Script.

Definition World : Type := list (option pystr).

#[export] Instance engine : HelloAgentsLLM World := {
  llm_think := fun _ w =>
    match w with
    | reply :: w' => (reply, w')
    | [] => (None, [])
    end
}.

Definition search (input : pystr) (w : World) : tool_result * World :=
  (Observation (lit "results for " ++ input), w).

Definition registry : ToolExecutor World := {|
  tools_nonempty := true;
  getAvailableTools := lit "- Search: web search";
  getTool := fun name =>
    if PyStr.eqb name (lit "Search") then Some search else None
|}.

(** The text of a tool request, as the prompt asks for it. *)
Definition tool_request (name input : pystr) : pystr :=
  lit "{" ++ quoted (lit "tool") ++ lit ": " ++ quoted name ++ lit ", "
  ++ quoted (lit "input") ++ lit ": " ++ quoted input ++ lit "}".

(** An executor bound to [registry], and one bound to no registry. *)
Definition executor (budget : Z) : Executor := {|
  tool_executor := Some registry;
  max_tool_iterations := budget
|}.

Definition bare_executor (budget : Z) : Executor (World:=World) := {|
  tool_executor := None;
  max_tool_iterations := budget
|}.

Definition question : pystr := lit "A then B".

Definition the_plan : list pystr := [lit "Do A"; lit "Do B"].

(** A response of the planner's engine: prose, then the fenced list. *)
Definition plan_response_pre : pystr := lit "Here is the plan:
".
Definition plan_response_body : pystr :=
  lit "
[" ++ quoted (lit "Do A") ++ lit ", " ++ quoted (lit "Do B") ++ lit "]
".
Definition plan_response_post : pystr := lit "
Good luck.".

(** The first step of [the_plan], run against a script of completions. *)
Definition run_step_on (ex : Executor) (script : World)
  : outcome (pystr * pystr) * World * list event :=
  execute_step (lib:=PyModel.model) ex question the_plan 1 (lit "Do A")
    empty script.

(** [Planner.plan] on [question], run against a script of completions. *)
Definition plan_on (script : World)
  : outcome (list pyvalue) * World * list event :=
  plan (lib:=PyModel.model) question script.

(** A script for a budget of two: two tool requests, the second for a
    tool that is not registered, then the answer. *)
Definition two_requests_then_answer : World :=
  [Some (tool_request (lit "Search") (lit "X"));
   Some (tool_request (lit "Foo") (lit "Y"));
   Some (lit "ANSWER")].

(** The local variables of a step whose first completion requests the
    unregistered tool [Foo]. *)
Definition asked_for_foo : loop_state :=
  initial_state (lit "prompt") (Some (tool_request (lit "Foo") (lit "Y")))
    empty.

(** A tool request with one more key. *)
Definition request_with_extra_key : pystr :=
  lit "{" ++ quoted (lit "tool") ++ lit ": " ++ quoted (lit "Search")
  ++ lit ", " ++ quoted (lit "input") ++ lit ": " ++ quoted (lit "x")
  ++ lit ", " ++ quoted (lit "extra") ++ lit ": 1}".

(** A tool request in doubled braces: no JSON, and as a Python literal a
    set that holds a dictionary. *)
Definition doubled_request : pystr :=
  lit "{" ++ tool_request (lit "Search") (lit "x") ++ lit "}".


(** A tool request surrounded by whitespace. *)
Definition padded_request : pystr :=
  lit "  " ++ newline ++ tool_request (lit "Search") (lit "x") ++ newline
  ++ lit " ".

(** A tool request written as a Python literal, whose input is a
    hexadecimal integer of 3600 digits: more than 4300 decimal digits. *)
Definition huge_input_request : pystr :=
  lit "{'tool': 'Search', 'input': 0x" ++ repeat 102%N 3600 ++ lit "}".

(** A registry whose only tool raises. *)
Definition boom (input : pystr) (w : World) : tool_result * World :=
  (Fault (OtherError (lit "RuntimeError")), w).

Definition faulty_registry : ToolExecutor World := {|
  tools_nonempty := true;
  getAvailableTools := lit "- Boom: always fails";
  getTool := fun name =>
    if PyStr.eqb name (lit "Boom") then Some boom else None
|}.

Definition faulty_executor (budget : Z) : Executor := {|
  tool_executor := Some faulty_registry;
  max_tool_iterations := budget
|}.

(** A module of tools for the scripted world: an empty registry, a
    registration that puts the new tool before the others, and
    [search]. *)
#[export] Instance tools : ToolsModule World := {
  new_ToolExecutor := {| tools_nonempty := false;
                         getAvailableTools := empty;
                         getTool := fun _ => None |};
  registerTool := fun te name description func =>
    {| tools_nonempty := true;
       getAvailableTools :=
         lit "- " ++ name ++ lit ": " ++ description ++ newline
         ++ getAvailableTools te;
       getTool := fun n =>
         if PyStr.eqb n name then Some func else getTool te n |};
  search := search
}.

(** The agent built without a registry, and its run on [question]. *)
Definition default_agent : PlanAndSolveAgent :=
  PlanAndSolveAgent_init None.

Definition run_on (script : World)
  : outcome (option pystr) * World * list event :=
  run (lib:=PyModel.model) default_agent question script.

(** The whole plan, run against a script of completions. *)
Definition execute_on (ex : Executor) (script : World)
  : outcome pystr * World * list event :=
  execute (lib:=PyModel.model) ex question the_plan script.

(** The first step of the plan, with its history, run against a
    script. *)
Definition execute_steps_on (ex : Executor) (script : World)
  : outcome (pystr * pystr) * World * list event :=
  execute_steps (lib:=PyModel.model) ex question the_plan 1 the_plan
    empty empty script.

(** Named runs, for the examples of the further properties. *)
Definition two_request_run := run_step_on (executor 2) two_requests_then_answer.

Definition boom_run :=
  run_step_on (faulty_executor 5)
    [Some (tool_request (lit "Boom") (lit "x")); Some (lit "ANSWER")].

(** A run of the whole plan whose second step asks for the tool that
    raises. *)
Definition boom_execute :=
  execute_on (faulty_executor 5)
    [Some (lit "done A"); Some (tool_request (lit "Boom") (lit "x"));
     Some (lit "ANSWER")].

Definition plain_script : World := [Some (lit "done A"); Some (lit "done B")].

Definition plain_run := execute_on (executor 5) plain_script.

Definition plain_steps_run := execute_steps_on (executor 5) plain_script.

Definition plan_response : pystr :=
  plan_response_pre ++ FENCE_OPEN ++ plan_response_body ++ FENCE
  ++ plan_response_post.

Definition agent_run := run_on (Some plan_response :: plain_script).

(** A response whose fence is never closed, holding a list of numbers. *)
Definition open_fence_body : pystr := lit "
[1, 2]".

Definition open_fence_response : pystr :=
  plan_response_pre ++ FENCE_OPEN ++ open_fence_body.

End Script.

(** ** Vocabulary of the further properties *)

(** The text of [s] before the first occurrence of [sep]; all of [s]
    when [sep] does not occur in it. *)
Definition upto (sep s : pystr) : pystr :=
  match find sep s with
  | Some n => firstn n s
  | None => s
  end.

(** The order of the calls to the registry and to the tools in a trace:
    a lookup that found a tool is followed at once by the invocation of
    the tool of that name, and a tool is invoked nowhere else. *)
Fixpoint calls_follow_lookups (evs : list event) : bool :=
  match evs with
  | [] => true
  | EvGetTool name true :: EvToolCall name' _ _ :: rest =>
    PyStr.eqb name name' && calls_follow_lookups rest
  | EvGetTool _ true :: _ => false
  | EvToolCall _ _ _ :: _ => false
  | _ :: rest => calls_follow_lookups rest
  end.

(** Every lookup and every invocation in a trace is for the request
    parsed from the completion received last before it, [response] at
    the start of the trace: the lookup for its tool name, the invocation
    for its tool name and its input. *)
Fixpoint calls_follow_requests `{PyLib} (response : pystr) (evs : list event)
  : Prop :=
  match evs with
  | [] => True
  | EvThink _ reply :: rest => calls_follow_requests (or_empty reply) rest
  | EvGetTool name _ :: rest =>
    (exists req, _parse_tool_request response = Value (Some req)
                 /\ req_tool req = name)
    /\ calls_follow_requests response rest
  | EvToolCall name input _ :: rest =>
    (exists req, _parse_tool_request response = Value (Some req)
                 /\ req_tool req = name /\ req_input req = input)
    /\ calls_follow_requests response rest
  end.

Definition is_tool_call (e : event) : bool :=
  match e with EvToolCall _ _ _ => true | _ => false end.

(** The number of invocations of tool callables. *)
Definition tool_calls (evs : list event) : nat :=
  List.length (filter is_tool_call evs).

(** The conversations sent to the engine, each with its answer. *)
Definition thinks (evs : list event) : list (list message * option pystr) :=
  flat_map (fun e => match e with
                     | EvThink msgs reply => [(msgs, reply)]
                     | _ => []
                     end) evs.

(** Each conversation of [rest] is the one before it, the completion
    that answered it as an assistant turn, and one tool output as a user
    turn; [msgs] and [reply] are the conversation before the first of
    [rest] and its answer. *)
Fixpoint chained (msgs : list message) (reply : option pystr)
    (rest : list (list message * option pystr)) : Prop :=
  match rest with
  | [] => True
  | (msgs', reply') :: rest' =>
    (exists tool_name observation,
        msgs' = msgs ++ [Message assistant (or_empty reply);
                         Message user
                           (tool_output_message tool_name observation)])
    /\ chained msgs' reply' rest'
  end.

(** The other role. *)
Definition other (r : role) : role :=
  match r with user => assistant | assistant => user end.

(** The roles of a conversation alternate, from [r] on. *)
Fixpoint alternates (r : role) (msgs : list message) : bool :=
  match msgs with
  | [] => true
  | m :: rest =>
    match r, msg_role m with
    | user, user => alternates assistant rest
    | assistant, assistant => alternates user rest
    | _, _ => false
    end
  end.

(** What the trace of a step says of the registry [te]: a lookup
    reports whether the name is registered, and a callable is invoked
    for a registered name only. *)
Definition agrees_with {World : Type} (te : ToolExecutor World) (e : event)
  : Prop :=
  match e with
  | EvGetTool name found =>
    found = match getTool te name with Some _ => true | None => false end
  | EvToolCall name _ _ => getTool te name <> None
  | EvThink _ _ => True
  end.

(** The name is not empty and has no whitespace at its ends. *)
Definition trimmed (name : pystr) : Prop :=
  name <> []
  /\ (forall c rest, name = c :: rest -> isspace c = false)
  /\ (forall c front, name = front ++ [c] -> isspace c = false).

(** The history a run of [steps] writes, numbered from [i]: for each
    step the records of its tool resolutions, then its terminal record.
    A block is the resolutions of a step and its result. *)
Fixpoint run_history (i : Z) (steps : list pystr)
    (blocks : list (list (pystr * pystr) * pystr)) : pystr :=
  match steps, blocks with
  | step :: steps', (resolutions, result) :: blocks' =>
    tool_records i step resolutions ++ result_record i step result
    ++ run_history (i + 1) steps' blocks'
  | _, _ => []
  end.

Section LoopTrace.

Context {lib : PyLib} {World : Type} {llm : HelloAgentsLLM World}.

(** The runs of the [while] loop of a step, for an executor bound to the
    registry [te]: from the local variables and the world at its
    entry to its outcome, the world at its exit and the calls made. *)
Inductive loop_trace (ex : Executor (World:=World)) (te : ToolExecutor World)
    (i : Z) (step : pystr)
  : loop_state -> World -> outcome loop_state -> World -> list event
    -> Prop :=
| loop_exhausted (ls : loop_state) (w : World) :
    (max_tool_iterations ex <= tool_iterations ls)%Z ->
    loop_trace ex te i step ls w (Ok ls) w []
| loop_break (ls : loop_state) (w : World) :
    (tool_iterations ls < max_tool_iterations ex)%Z ->
    _parse_tool_request (response_text ls) = Value None ->
    loop_trace ex te i step ls w (Ok ls) w []
| loop_parse_error (ls : loop_state) (w : World) (e : exn) :
    (tool_iterations ls < max_tool_iterations ex)%Z ->
    _parse_tool_request (response_text ls) = Error e ->
    loop_trace ex te i step ls w (Raise e) w []
| loop_tool_fault (ls : loop_state) (w w1 : World) (req : ToolRequest)
    (f : pystr -> World -> tool_result * World) (e : exn) :
    (tool_iterations ls < max_tool_iterations ex)%Z ->
    _parse_tool_request (response_text ls) = Value (Some req) ->
    getTool te (req_tool req) = Some f ->
    f (req_input req) w = (Fault e, w1) ->
    loop_trace ex te i step ls w (Raise e) w1
      [EvGetTool (req_tool req) true;
       EvToolCall (req_tool req) (req_input req) (Fault e)]
| loop_observed (ls : loop_state) (w w1 w2 w3 : World) (req : ToolRequest)
    (f : pystr -> World -> tool_result * World) (observation : pystr)
    (reply : option pystr) (out : outcome loop_state) (evs : list event) :
    (tool_iterations ls < max_tool_iterations ex)%Z ->
    _parse_tool_request (response_text ls) = Value (Some req) ->
    getTool te (req_tool req) = Some f ->
    f (req_input req) w = (Observation observation, w1) ->
    llm_think
      (messages ls
       ++ [Message user (tool_output_message (req_tool req) observation)])
      w1 = (reply, w2) ->
    loop_trace ex te i step
      (resolved i step ls (req_tool req) observation reply) w2 out w3 evs ->
    loop_trace ex te i step ls w out w3
      ([EvGetTool (req_tool req) true;
        EvToolCall (req_tool req) (req_input req) (Observation observation);
        EvThink
          (messages ls
           ++ [Message user
                 (tool_output_message (req_tool req) observation)])
          reply] ++ evs)
| loop_unregistered (ls : loop_state) (w w1 w2 : World) (req : ToolRequest)
    (reply : option pystr) (out : outcome loop_state) (evs : list event) :
    (tool_iterations ls < max_tool_iterations ex)%Z ->
    _parse_tool_request (response_text ls) = Value (Some req) ->
    getTool te (req_tool req) = None ->
    llm_think
      (messages ls
       ++ [Message user
             (tool_output_message (req_tool req)
                (unregistered_message (req_tool req)))])
      w = (reply, w1) ->
    loop_trace ex te i step
      (resolved i step ls (req_tool req)
         (unregistered_message (req_tool req)) reply) w1 out w2 evs ->
    loop_trace ex te i step ls w out w2
      ([EvGetTool (req_tool req) false;
        EvThink
          (messages ls
           ++ [Message user
                 (tool_output_message (req_tool req)
                    (unregistered_message (req_tool req)))])
          reply] ++ evs).

End LoopTrace.

(** ** Examples *)

Example lit_ascii :
  lit "```python" = [96; 96; 96; 112; 121; 116; 104; 111; 110]%N.
Proof. reflexivity. Qed.

Example lit_cjk : lit "无" = [26080%N].
Proof. reflexivity. Qed.

Example split_two :
  split (lit "```") (lit "a```b```") = [lit "a"; lit "b"; empty].
Proof. reflexivity. Qed.

Example strip_both : strip (lit "  [1]
 ") = lit "[1]".
Proof. reflexivity. Qed.

Example of_int_12 : of_int 12 = lit "12".
Proof. reflexivity. Qed.

Example json_object :
  PyModel.json_loads_model
    (lit " {" ++ quoted (lit "tool") ++ lit ": " ++ quoted (lit "Search")
     ++ lit ", " ++ quoted (lit "n") ++ lit ": [1, -2.5e3, null, true]}
")
  = Value (PyDict [(PyStr (lit "tool"), PyStr (lit "Search"));
                   (PyStr (lit "n"),
                    PyList [PyInt 1; PyFloat (lit "-2.5e3"); PyNone;
                            PyBool true])]).
Proof. vm_compute. reflexivity. Qed.

Example json_rejects_python :
  PyModel.json_loads_model (lit "{'tool': 'Search'}") = Error JSONDecodeError
  /\ PyModel.json_loads_model (lit "[1, 2,]") = Error JSONDecodeError
  /\ PyModel.json_loads_model (lit "{[1]: 2}") = Error JSONDecodeError
  /\ PyModel.json_loads_model (lit "1 2") = Error JSONDecodeError
  /\ PyModel.json_loads_model empty = Error JSONDecodeError.
Proof. vm_compute. repeat split. Qed.

Example literal_list :
  PyModel.literal_eval_model
    (lit "[" ++ quoted (lit "a") ++ lit ", 'b\n',
 -3, (1,), {'k': None}, (True)]")
  = Value (PyList [PyStr (lit "a"); PyStr (lit "b" ++ newline); PyInt (-3);
                   PyTuple [PyInt 1];
                   PyDict [(PyStr (lit "k"), PyNone)]; PyBool true]).
Proof. vm_compute. reflexivity. Qed.

Example literal_errors :
  PyModel.literal_eval_model (lit "{[1]: 2}") = Error TypeError
  /\ PyModel.literal_eval_model (lit "{(1, [2])}") = Error TypeError
  /\ PyModel.literal_eval_model (lit "[1, 2") = Error SyntaxError
  /\ PyModel.literal_eval_model (lit "the answer") = Error SyntaxError
  /\ PyModel.literal_eval_model empty = Error SyntaxError.
Proof. vm_compute. repeat split. Qed.

Example repr_plan :
  PyModel.repr_model (PyList [PyStr (lit "Do A"); PyStr (lit "it's B")])
  = lit "['Do A', " ++ quoted (lit "it's B") ++ lit "]".
Proof. vm_compute. reflexivity. Qed.

Example literal_hexadecimal :
  PyModel.literal_eval_model (lit "0x1F") = Value (PyInt 31)
  /\ PyModel.literal_eval_model (lit "[-0x10, 7]")
     = Value (PyList [PyInt (-16); PyInt 7])
  /\ PyModel.literal_eval_model (lit "0x") = Error SyntaxError.
Proof. vm_compute. repeat split. Qed.

(** The digit limit: [str] prints an integer of 4300 digits and refuses
    one of 4301, alone or inside a list. *)
Example str_digit_limit :
  repr_raises (H:=PyModel.model) (PyInt (10 ^ 4300 - 1)) = false
  /\ py_str (H:=PyModel.model) (PyInt (10 ^ 4300)) = Error ValueError
  /\ py_str (H:=PyModel.model) (PyList [PyStr (lit "a"); PyInt (- 10 ^ 4300)])
     = Error ValueError
  /\ py_str (H:=PyModel.model) (PyInt 12) = Value (lit "12")
  /\ py_str (H:=PyModel.model) (PyStr (lit "a")) = Value (lit "a").
Proof. vm_compute. repeat split. Qed.

(** Backticks right before a second opening marker stay in the block:
    the response is split at the opening markers first. *)
Example fenced_block_before_second_marker :
  fenced_block (lit "```pythonabc````pythondef") = Value (lit "abc`")
  /\ fenced_block (lit "```pythonabc```def") = Value (lit "abc").
Proof. vm_compute. repeat split. Qed.

(** ** Facts about strings *)

Unset Implicit Arguments.

Section StringFacts.

Lemma eqb_spec (s t : pystr) : reflect (s = t) (PyStr.eqb s t).
Proof.
  revert t; induction s as [|a s IH]; intros [|b t]; simpl;
    try (constructor; congruence).
  destruct (N.eqb_spec a b) as [->|Hab]; simpl.
  - destruct (IH t) as [->|Hst]; constructor; congruence.
  - constructor; congruence.
Qed.

Lemma eqb_refl (s : pystr) : PyStr.eqb s s = true.
Proof. destruct (eqb_spec s s); congruence. Qed.

Lemma startswith_app (p s : pystr) : startswith p (p ++ s) = true.
Proof.
  induction p as [|a p IH]; simpl; [reflexivity|].
  now rewrite N.eqb_refl.
Qed.

Lemma startswith_split (p s : pystr) :
  startswith p s = true -> s = p ++ skipn (List.length p) s.
Proof.
  revert s; induction p as [|a p IH]; intros s H; simpl in *; [reflexivity|].
  destruct s as [|b s]; [discriminate|].
  apply andb_prop in H as [Hab Hps].
  apply N.eqb_eq in Hab; subst b. simpl. f_equal. now apply IH.
Qed.

Lemma startswith_length (p s : pystr) :
  startswith p s = true -> (List.length p <= List.length s)%nat.
Proof.
  intros H. apply startswith_split in H.
  apply (f_equal (@List.length N)) in H. rewrite length_app in H. lia.
Qed.

(** A prefix of [p] that starts [s] when [p] does. *)
Lemma startswith_prefix (p q s : pystr) :
  startswith (p ++ q) s = true -> startswith p s = true.
Proof.
  revert s; induction p as [|a p IH]; intros s H; simpl in *; [reflexivity|].
  destruct s as [|b s]; [discriminate|].
  apply andb_prop in H as [Hab Hps]. rewrite Hab. simpl. now apply IH.
Qed.

Lemma startswith_firstn_elim (p s : pystr) (m : nat) :
  startswith p (firstn m s) = true -> startswith p s = true.
Proof.
  revert s m; induction p as [|a p IH]; intros s m H; simpl in *;
    [reflexivity|].
  destruct s as [|b s]; [now rewrite firstn_nil in H|].
  destruct m as [|m]; simpl in H; [discriminate|].
  apply andb_prop in H as [Hab Hps]. rewrite Hab. simpl. now apply (IH _ m).
Qed.


(** *** [find] *)

Lemma find_Some_startswith (sep s : pystr) (n : nat) :
  find sep s = Some n -> startswith sep (skipn n s) = true.
Proof.
  revert n; induction s as [|c s IH]; intros n H; simpl in H.
  - destruct (startswith sep []) eqn:E; [|discriminate].
    injection H as <-. exact E.
  - destruct (startswith sep (c :: s)) eqn:E.
    + injection H as <-. exact E.
    + destruct (find sep s) as [m|] eqn:F; [|discriminate].
      injection H as <-. simpl. now apply IH.
Qed.

Lemma find_Some_bound (sep s : pystr) (n : nat) :
  find sep s = Some n -> (n + List.length sep <= List.length s)%nat.
Proof.
  intros H. apply find_Some_startswith in H as Hs.
  apply startswith_length in Hs. rewrite length_skipn in Hs.
  revert n H Hs; induction s as [|c s IH]; intros n H Hs; simpl in H.
  - destruct (startswith sep []); [|discriminate]. injection H as <-.
    simpl in *. lia.
  - destruct (startswith sep (c :: s)) eqn:E.
    + injection H as <-. simpl in *. lia.
    + destruct (find sep s) as [m|] eqn:F; [|discriminate].
      injection H as <-. simpl in *.
      specialize (IH m eq_refl). lia.
Qed.

Lemma find_Some_first (sep s : pystr) (n k : nat) :
  find sep s = Some n -> (k < n)%nat -> startswith sep (skipn k s) = false.
Proof.
  revert n k; induction s as [|c s IH]; intros n k H Hk; simpl in H.
  - destruct (startswith sep []); [|discriminate]. injection H as <-. lia.
  - destruct (startswith sep (c :: s)) eqn:E.
    + injection H as <-. lia.
    + destruct (find sep s) as [m|] eqn:F; [|discriminate].
      injection H as <-.
      destruct k as [|k]; [exact E|]. simpl. apply (IH m); [reflexivity|lia].
Qed.

Lemma find_None_nowhere (sep s : pystr) (k : nat) :
  find sep s = None -> startswith sep (skipn k s) = false.
Proof.
  revert k; induction s as [|c s IH]; intros k H; simpl in H.
  - destruct (startswith sep []) eqn:E; [discriminate|].
    now rewrite skipn_nil.
  - destruct (startswith sep (c :: s)) eqn:E; [discriminate|].
    destruct (find sep s) eqn:F; [discriminate|].
    destruct k as [|k]; [exact E|]. simpl. now apply IH.
Qed.



(** A truncation that stops at the first occurrence has none. *)
Lemma find_firstn_none (sep s : pystr) (n : nat) :
  sep <> [] -> find sep s = Some n -> find sep (firstn n s) = None.
Proof.
  intros Hsep H.
  destruct (find sep (firstn n s)) as [k|] eqn:F; [exfalso|reflexivity].
  pose proof (find_Some_bound _ _ _ F) as Hb.
  rewrite length_firstn in Hb.
  assert (k < n)%nat as Hk.
  { destruct sep; [congruence|]. simpl in Hb. lia. }
  apply find_Some_startswith in F. rewrite skipn_firstn_comm in F.
  apply startswith_firstn_elim in F.
  now rewrite (find_Some_first _ _ _ _ H Hk) in F.
Qed.

(** *** [split] *)

Lemma split_go_skip (sep : pystr) (k : nat) (cur s : pystr) :
  split_go sep k cur s = split_go sep 0 cur (skipn k s).
Proof.
  revert k; induction s as [|c s IH]; intros k.
  - now rewrite skipn_nil.
  - destruct k as [|k]; [reflexivity|]. simpl. apply IH.
Qed.

Lemma split_go_find (sep : pystr) (n : nat) (cur s : pystr) :
  sep <> [] -> find sep s = Some n ->
  split_go sep 0 cur s
  = (rev cur ++ firstn n s)
      :: split_go sep 0 [] (skipn (n + List.length sep) s).
Proof.
  intros Hsep. revert n cur; induction s as [|c s IH]; intros n cur H.
  - simpl in H. destruct sep; [congruence|discriminate].
  - cbn [find] in H. cbn [split_go].
    destruct (startswith sep (c :: s)) eqn:E.
    + injection H as <-. rewrite split_go_skip, app_nil_r.
      destruct sep as [|a sep]; [congruence|].
      simpl. now rewrite Nat.sub_0_r.
    + destruct (find sep s) as [m|] eqn:F; [|discriminate].
      injection H as <-. rewrite (IH m (c :: cur) eq_refl).
      simpl. now rewrite <- app_assoc.
Qed.

Lemma split_go_find_none (sep cur s : pystr) :
  find sep s = None -> split_go sep 0 cur s = [rev cur ++ s].
Proof.
  revert cur; induction s as [|c s IH]; intros cur H.
  - simpl. now rewrite app_nil_r.
  - cbn [find] in H. cbn [split_go].
    destruct (startswith sep (c :: s)) eqn:E; [discriminate|].
    destruct (find sep s) eqn:F; [discriminate|].
    rewrite IH by reflexivity. simpl. now rewrite <- app_assoc.
Qed.

(** The first piece of a split stops at the first separator. *)
Lemma split_first (sep s : pystr) :
  sep <> [] ->
  nth_error (split sep s) 0
  = Some (match find sep s with Some n => firstn n s | None => s end).
Proof.
  intros Hsep. unfold split. destruct (find sep s) as [n|] eqn:F.
  - now rewrite (split_go_find sep n [] s Hsep F).
  - now rewrite (split_go_find_none sep [] s F).
Qed.

(** The second piece starts after the first separator, if there is one. *)
Lemma split_second (sep s : pystr) :
  sep <> [] ->
  nth_error (split sep s) 1
  = match find sep s with
    | Some n => nth_error (split sep (skipn (n + List.length sep) s)) 0
    | None => None
    end.
Proof.
  intros Hsep. unfold split. destruct (find sep s) as [n|] eqn:F.
  - now rewrite (split_go_find sep n [] s Hsep F).
  - now rewrite (split_go_find_none sep [] s F).
Qed.

End StringFacts.

(** ** The fenced block *)

Section FencedBlock.


Lemma skipn_length_app (a b : pystr) (k : nat) :
  skipn (List.length a + k) (a ++ b) = skipn k b.
Proof. induction a as [|x a IH]; simpl; [reflexivity | exact IH]. Qed.

Lemma FENCE_OPEN_nonempty : FENCE_OPEN <> [].
Proof. discriminate. Qed.

Lemma FENCE_nonempty : FENCE <> [].
Proof. discriminate. Qed.

Lemma FENCE_OPEN_starts_with_FENCE : FENCE_OPEN = FENCE ++ lit "python".
Proof. reflexivity. Qed.



(** Without an opening marker the index [1] is out of range. *)
Lemma fenced_block_no_marker (response : pystr) :
  find FENCE_OPEN response = None ->
  fenced_block response = Error IndexError.
Proof.
  intros H. unfold fenced_block.
  now rewrite (split_second _ _ FENCE_OPEN_nonempty), H.
Qed.

End FencedBlock.

(** ** Facts about traces *)

Section TraceFacts.

Lemma replies_app (evs1 evs2 : list event) :
  replies (evs1 ++ evs2) = replies evs1 ++ replies evs2.
Proof. apply flat_map_app. Qed.

Lemma engine_calls_app (evs1 evs2 : list event) :
  engine_calls (evs1 ++ evs2) = (engine_calls evs1 + engine_calls evs2)%nat.
Proof. unfold engine_calls. now rewrite replies_app, length_app. Qed.

Lemma tool_lookups_app (evs1 evs2 : list event) :
  tool_lookups (evs1 ++ evs2) = (tool_lookups evs1 + tool_lookups evs2)%nat.
Proof. unfold tool_lookups. now rewrite filter_app, length_app. Qed.

Lemma no_tool_fault_app (evs1 evs2 : list event) :
  no_tool_fault (evs1 ++ evs2) = no_tool_fault evs1 && no_tool_fault evs2.
Proof. apply forallb_app. Qed.

Lemma last_cons_default (l : list pystr) (a d : pystr) :
  last (a :: l) d = last l a.
Proof.
  revert a d; induction l as [|b l IH]; intros a d; [reflexivity|].
  change (last (a :: b :: l) d) with (last (b :: l) d).
  now rewrite !IH.
Qed.




End TraceFacts.

(** ** Facts about [str] *)

Section StrFacts.

Context {lib : PyLib}.

(** [str] of a string is the string. *)
Lemma py_str_PyStr (s : pystr) : py_str (PyStr s) = Value s.
Proof. reflexivity. Qed.

(** [str] raises [ValueError] only, and only on a value that holds an
    integer beyond the digit limit. *)
Lemma py_str_error (v : pyvalue) (e : exn) :
  py_str v = Error e -> e = ValueError /\ repr_raises v = true.
Proof.
  unfold py_str. destruct (repr_raises v); [|discriminate].
  intros H. injection H as <-. now split.
Qed.

Lemma py_str_value (v : pyvalue) (text : pystr) :
  py_str v = Value text -> text = str_text v /\ repr_raises v = false.
Proof.
  unfold py_str. destruct (repr_raises v); [discriminate|].
  intros H. injection H as <-. now split.
Qed.

(** [str] returns on a list of strings. *)
Lemma py_str_strings (plan : list pystr) :
  py_str (PyList (map PyStr plan))
  = Value (str_text (PyList (map PyStr plan))).
Proof.
  unfold py_str, repr_raises. cbn [holds_int].
  assert (H : existsb (holds_int exceeds_max_str_digits) (map PyStr plan)
              = false)
    by (induction plan as [|s l IH]; [reflexivity | exact IH]).
  now rewrite H.
Qed.

(** Where [str] returns on a list, it returns on each element. *)
Lemma py_str_elements (items : list pyvalue) (text : pystr) (v : pyvalue) :
  py_str (PyList items) = Value text -> In v items ->
  py_str v = Value (str_text v).
Proof.
  intros H Hin. apply py_str_value in H. destruct H as [_ H].
  unfold repr_raises in H. cbn [holds_int] in H.
  unfold py_str, repr_raises.
  destruct (holds_int exceeds_max_str_digits v) eqn:E; [|reflexivity].
  assert (existsb (holds_int exceeds_max_str_digits) items = true)
    by (apply existsb_exists; now exists v).
  congruence.
Qed.

End StrFacts.

(** ** Facts about the executor *)

Section ExecutorFacts.

Context {lib : PyLib} {World : Type} {llm : HelloAgentsLLM World}.

Variables (te : ToolExecutor World) (i : Z) (step : pystr).

(** *** One pass through the loop body, case by case *)

Lemma tool_iteration_error (ls : loop_state) (w : World) (e : exn) :
  _parse_tool_request (response_text ls) = Error e ->
  tool_iteration te i step ls w = (Raise e, w, []).
Proof. intros H. unfold tool_iteration, bind, lift. now rewrite H. Qed.

Lemma tool_iteration_break (ls : loop_state) (w : World) :
  _parse_tool_request (response_text ls) = Value None ->
  tool_iteration te i step ls w = (Ok None, w, []).
Proof. intros H. unfold tool_iteration, bind, lift, ret. now rewrite H. Qed.

Lemma tool_iteration_unregistered (ls : loop_state) (w w' : World)
    (req : ToolRequest) (reply : option pystr) :
  _parse_tool_request (response_text ls) = Value (Some req) ->
  getTool te (req_tool req) = None ->
  llm_think
    (messages ls
     ++ [Message user
           (tool_output_message (req_tool req)
              (unregistered_message (req_tool req)))]) w = (reply, w') ->
  tool_iteration te i step ls w
  = (Ok (Some (resolved i step ls (req_tool req)
                 (unregistered_message (req_tool req)) reply)),
     w',
     [EvGetTool (req_tool req) false;
      EvThink
        (messages ls
         ++ [Message user
               (tool_output_message (req_tool req)
                  (unregistered_message (req_tool req)))]) reply]).
Proof.
  intros Hp Hg Ht.
  unfold tool_iteration, bind, lift, ret, get_tool, think.
  now rewrite Hp, Hg, Ht.
Qed.

Lemma tool_iteration_fault (ls : loop_state) (w w1 : World)
    (req : ToolRequest) (f : pystr -> World -> tool_result * World)
    (e : exn) :
  _parse_tool_request (response_text ls) = Value (Some req) ->
  getTool te (req_tool req) = Some f ->
  f (req_input req) w = (Fault e, w1) ->
  tool_iteration te i step ls w
  = (Raise e, w1,
     [EvGetTool (req_tool req) true;
      EvToolCall (req_tool req) (req_input req) (Fault e)]).
Proof.
  intros Hp Hg Hf.
  unfold tool_iteration, bind, lift, ret, get_tool, call_tool.
  now rewrite Hp, Hg, Hf.
Qed.

Lemma tool_iteration_observed (ls : loop_state) (w w1 w2 : World)
    (req : ToolRequest) (f : pystr -> World -> tool_result * World)
    (observation : pystr) (reply : option pystr) :
  _parse_tool_request (response_text ls) = Value (Some req) ->
  getTool te (req_tool req) = Some f ->
  f (req_input req) w = (Observation observation, w1) ->
  llm_think
    (messages ls
     ++ [Message user (tool_output_message (req_tool req) observation)]) w1
    = (reply, w2) ->
  tool_iteration te i step ls w
  = (Ok (Some (resolved i step ls (req_tool req) observation reply)),
     w2,
     [EvGetTool (req_tool req) true;
      EvToolCall (req_tool req) (req_input req) (Observation observation);
      EvThink
        (messages ls
         ++ [Message user (tool_output_message (req_tool req) observation)])
        reply]).
Proof.
  intros Hp Hg Hf Ht.
  unfold tool_iteration, bind, lift, ret, get_tool, call_tool, think.
  now rewrite Hp, Hg, Hf, Ht.
Qed.

(** What one pass can do: it never runs out of fuel; [break] makes no
    call; a completed pass is one lookup and one completion; an
    exception comes from the parser or from the tool. *)
Lemma tool_iteration_summary (ls : loop_state) (w w' : World)
    (out : outcome (option loop_state)) (evs : list event) :
  tool_iteration te i step ls w = (out, w', evs) ->
  match out with
  | OutOfFuel => False
  | Raise e =>
    replies evs = [] /\ (tool_lookups evs <= 1)%nat
    /\ (_parse_tool_request (response_text ls) = Error e
        \/ no_tool_fault evs = false)
  | Ok None =>
    evs = [] /\ _parse_tool_request (response_text ls) = Value None
  | Ok (Some ls') =>
    exists req observation reply,
      _parse_tool_request (response_text ls) = Value (Some req)
      /\ observes te w req observation
      /\ ls' = resolved i step ls (req_tool req) observation reply
      /\ replies evs = [or_empty reply]
      /\ tool_lookups evs = 1%nat
      /\ no_tool_fault evs = true
  end.
Proof.
  intros H.
  destruct (_parse_tool_request (response_text ls)) as [[req|]|e] eqn:Hp.
  - destruct (getTool te (req_tool req)) as [f|] eqn:Hg.
    + destruct (f (req_input req) w) as [[observation|e] w1] eqn:Hf.
      * destruct (llm_think
                    (messages ls
                     ++ [Message user
                           (tool_output_message (req_tool req) observation)])
                    w1) as [reply w2] eqn:Ht.
        rewrite (tool_iteration_observed _ _ _ _ _ _ _ _ Hp Hg Hf Ht) in H.
        injection H as <- <- <-. exists req, observation, reply.
        unfold observes. rewrite Hg, Hf. repeat split; reflexivity.
      * rewrite (tool_iteration_fault _ _ _ _ _ _ Hp Hg Hf) in H.
        injection H as <- <- <-. repeat split; auto.
    + destruct (llm_think
                  (messages ls
                   ++ [Message user
                         (tool_output_message (req_tool req)
                            (unregistered_message (req_tool req)))]) w)
        as [reply w1] eqn:Ht.
      rewrite (tool_iteration_unregistered _ _ _ _ _ Hp Hg Ht) in H.
      injection H as <- <- <-.
      exists req, (unregistered_message (req_tool req)), reply.
      unfold observes. rewrite Hg. repeat split; reflexivity.
  - rewrite (tool_iteration_break _ _ Hp) in H.
    injection H as <- <- <-. now split.
  - rewrite (tool_iteration_error _ _ _ Hp) in H.
    injection H as <- <- <-. repeat split; auto.
Qed.

End ExecutorFacts.

(** ** Facts about the tool loop *)

Section LoopFacts.

Context {lib : PyLib} {World : Type} {llm : HelloAgentsLLM World}.

Variables (ex : Executor (World:=World)) (i : Z) (step : pystr).

Lemma tool_loop_no_registry (fuel : nat) (ls : loop_state) (w : World) :
  tool_executor ex = None ->
  tool_loop fuel ex i step ls w = (Ok ls, w, []).
Proof. intros H. destruct fuel; simpl; now rewrite H. Qed.

Lemma tool_loop_exhausted (fuel : nat) (ls : loop_state) (w : World) :
  (max_tool_iterations ex <= tool_iterations ls)%Z ->
  tool_loop fuel ex i step ls w = (Ok ls, w, []).
Proof.
  intros H.
  assert ((tool_iterations ls <? max_tool_iterations ex)%Z = false) as E
    by (apply Z.ltb_ge; lia).
  destruct fuel; simpl; rewrite E; now destruct (tool_executor ex).
Qed.

Lemma tool_loop_step (fuel : nat) (te : ToolExecutor World)
    (ls : loop_state) (w : World) :
  tool_executor ex = Some te ->
  (tool_iterations ls < max_tool_iterations ex)%Z ->
  tool_loop (S fuel) ex i step ls w
  = match tool_iteration te i step ls w with
    | (Ok (Some ls'), w1, evs1) =>
      match tool_loop fuel ex i step ls' w1 with
      | (out, w2, evs2) => (out, w2, evs1 ++ evs2)
      end
    | (Ok None, w1, evs1) => (Ok ls, w1, evs1 ++ [])
    | (Raise e, w1, evs1) => (Raise e, w1, evs1)
    | (OutOfFuel, w1, evs1) => (OutOfFuel, w1, evs1)
    end.
Proof.
  intros Hte Hlt. apply Z.ltb_lt in Hlt.
  cbn [tool_loop]. rewrite Hte, Hlt. unfold bind at 1.
  destruct (tool_iteration te i step ls w) as [[[[ls'|]|e|] w1] evs1];
    reflexivity.
Qed.

(** The loop stops at once on a completion that requests no tool. *)
Lemma tool_loop_break (fuel : nat) (ls : loop_state) (w : World) :
  (remaining ex ls <= fuel)%nat ->
  _parse_tool_request (response_text ls) = Value None ->
  tool_loop fuel ex i step ls w = (Ok ls, w, []).
Proof.
  intros Hfuel Hp.
  destruct (tool_executor ex) as [te|] eqn:Hte;
    [|now apply tool_loop_no_registry].
  destruct (Z.lt_ge_cases (tool_iterations ls) (max_tool_iterations ex))
    as [Hlt|Hge]; [|now apply tool_loop_exhausted].
  destruct fuel as [|fuel]; [unfold remaining in Hfuel; lia|].
  rewrite (tool_loop_step _ _ _ _ Hte Hlt).
  now rewrite tool_iteration_break by exact Hp.
Qed.

(** The loop ends within the remaining budget, and what it did:
    every completion follows a lookup; when the loop returns, each
    lookup was followed by a completion, the counter counts the lookups,
    the response is the last completion and the history was extended. *)
Lemma tool_loop_events (fuel : nat) :
  forall (ls : loop_state) (w w' : World) (out : outcome loop_state)
         (evs : list event),
  (remaining ex ls <= fuel)%nat ->
  tool_loop fuel ex i step ls w = (out, w', evs) ->
  (engine_calls evs <= tool_lookups evs)%nat
  /\ (tool_lookups evs <= remaining ex ls)%nat
  /\ match out with
     | OutOfFuel => False
     | Raise _ => True
     | Ok ls' =>
       engine_calls evs = tool_lookups evs
       /\ tool_iterations ls'
          = (tool_iterations ls + Z.of_nat (tool_lookups evs))%Z
       /\ response_text ls' = last (replies evs) (response_text ls)
       /\ exists resolutions,
            history ls' = history ls ++ tool_records i step resolutions
            /\ List.length resolutions = tool_lookups evs
     end.
Proof.
  assert (Hnone : forall ls : loop_state,
             exists resolutions,
               history ls = history ls ++ tool_records i step resolutions
               /\ List.length resolutions = 0%nat)
    by (intros ls; exists []; cbn; now rewrite app_nil_r).
  induction fuel as [|fuel IH]; intros ls w w' out evs Hfuel H.
  - assert (max_tool_iterations ex <= tool_iterations ls)%Z as Hmax
      by (unfold remaining in Hfuel; lia).
    rewrite (tool_loop_exhausted _ _ _ Hmax) in H. injection H as <- <- <-.
    cbn. repeat split; try lia. apply Hnone.
  - destruct (tool_executor ex) as [te|] eqn:Hte.
    2:{ rewrite (tool_loop_no_registry _ _ _ Hte) in H.
        injection H as <- <- <-. cbn. repeat split; try lia.
        apply Hnone. }
    destruct (Z.lt_ge_cases (tool_iterations ls) (max_tool_iterations ex))
      as [Hlt|Hge].
    2:{ rewrite (tool_loop_exhausted _ _ _ Hge) in H.
        injection H as <- <- <-. cbn. repeat split; try lia.
        apply Hnone. }
    assert (0 < remaining ex ls)%nat as Hpos by (unfold remaining; lia).
    rewrite (tool_loop_step _ _ _ _ Hte Hlt) in H.
    destruct (tool_iteration te i step ls w) as [[o1 w1] evs1] eqn:Hit.
    apply tool_iteration_summary in Hit.
    destruct o1 as [[ls1|]|e|]; [| | |contradiction].
    + (* a completed pass, then the rest of the loop *)
      destruct Hit as (req & obs & reply & Hp & _ & -> & Hr & Hl & Hf).
      destruct (tool_loop fuel ex i step
                  (resolved i step ls (req_tool req) obs reply) w1)
        as [[o2 w2] evs2] eqn:Hrest.
      injection H as <- <- <-.
      apply IH in Hrest; [|unfold remaining in *; cbn; lia].
      destruct Hrest as (Hcalls & Hlook & Hout).
      assert (remaining ex (resolved i step ls (req_tool req) obs reply)
              = (remaining ex ls - 1)%nat) as Hrem
        by (unfold remaining; cbn; lia).
      rewrite Hrem in Hlook.
      assert (engine_calls evs1 = 1%nat) as Hc
        by (unfold engine_calls; now rewrite Hr).
      rewrite engine_calls_app, tool_lookups_app, Hl, Hc.
      repeat split; try lia.
      destruct o2 as [ls2| |]; [|exact I|contradiction].
      destruct Hout as (Heq & Hit2 & Hresp & (rs & Hhist & Hlen)).
      split; [lia|]. split; [rewrite Hit2; cbn; lia|]. split.
      * rewrite Hresp, replies_app, Hr. cbn [response_text resolved app].
        now rewrite last_cons_default.
      * exists ((req_tool req, obs) :: rs). split.
        -- rewrite Hhist. cbn. now rewrite <- app_assoc.
        -- cbn. now rewrite Hlen.
    + (* break *)
      destruct Hit as (-> & Hp). injection H as <- <- <-.
      cbn. repeat split; try lia. apply Hnone.
    + (* an exception *)
      destruct Hit as (Hr & Hl & _). injection H as <- <- <-.
      unfold engine_calls. rewrite Hr. cbn. repeat split; lia.
Qed.

(** When the first completions, as many as the budget allows, all
    request a tool and no tool raises, the loop uses the whole budget. *)
Lemma tool_loop_saturates (fuel : nat) :
  forall (ls : loop_state) (w w' : World) (out : outcome loop_state)
         (evs : list event),
  tool_executor ex <> None ->
  (remaining ex ls <= fuel)%nat ->
  tool_loop fuel ex i step ls w = (out, w', evs) ->
  no_tool_fault evs = true ->
  Forall requests_tool
    (firstn (remaining ex ls) (response_text ls :: replies evs)) ->
  tool_lookups evs = remaining ex ls /\ exists ls', out = Ok ls'.
Proof.
  induction fuel as [|fuel IH]; intros ls w w' out evs Hreg Hfuel H Hnf Hall.
  - assert (max_tool_iterations ex <= tool_iterations ls)%Z as Hmax
      by (unfold remaining in Hfuel; lia).
    rewrite (tool_loop_exhausted _ _ _ Hmax) in H. injection H as <- <- <-.
    split; [unfold remaining; cbn; lia | now eexists].
  - destruct (tool_executor ex) as [te|] eqn:Hte; [|congruence].
    destruct (Z.lt_ge_cases (tool_iterations ls) (max_tool_iterations ex))
      as [Hlt|Hge].
    2:{ rewrite (tool_loop_exhausted _ _ _ Hge) in H.
        injection H as <- <- <-.
        split; [unfold remaining; cbn; lia | now eexists]. }
    assert (exists r, remaining ex ls = S r) as [r Hr]
      by (exists (remaining ex ls - 1)%nat; unfold remaining; lia).
    rewrite Hr in Hall. cbn [firstn] in Hall.
    apply Forall_cons_iff in Hall as [[req0 Hreq0] Hall].
    rewrite (tool_loop_step _ _ _ _ Hte Hlt) in H.
    destruct (tool_iteration te i step ls w) as [[o1 w1] evs1] eqn:Hit.
    apply tool_iteration_summary in Hit.
    destruct o1 as [[ls1|]|e|]; [| | |contradiction].
    + destruct Hit as (req & obs & reply & Hp & _ & -> & Hrep & Hl & Hf).
      destruct (tool_loop fuel ex i step
                  (resolved i step ls (req_tool req) obs reply) w1)
        as [[o2 w2] evs2] eqn:Hrest.
      injection H as <- <- <-.
      rewrite no_tool_fault_app in Hnf. apply andb_prop in Hnf as [_ Hnf2].
      assert (remaining ex (resolved i step ls (req_tool req) obs reply) = r)
        as Hrem by (unfold remaining in *; cbn; lia).
      apply IH in Hrest; [ | congruence | lia | exact Hnf2 | ].
      * destruct Hrest as [Hlook Hok].
        rewrite tool_lookups_app, Hl, Hlook, Hrem, Hr. now split.
      * rewrite Hrem. rewrite replies_app, Hrep in Hall. exact Hall.
    + destruct Hit as (_ & Hp). congruence.
    + destruct Hit as (_ & _ & [Hp | Hfault]); [congruence|].
      injection H as <- <- <-. congruence.
Qed.

End LoopFacts.

(** ** Facts about one step *)

Section StepFacts.

Context {lib : PyLib} {World : Type} {llm : HelloAgentsLLM World}.

Variables (ex : Executor (World:=World)) (question : pystr)
          (plan : list pystr) (i : Z) (step : pystr) (hist : pystr).

Lemma or_empty_Some (s : pystr) : or_empty (Some s) = s.
Proof. now destruct s. Qed.

(** A step is its first completion followed by the tool loop and the
    terminal record. *)
Lemma execute_step_unfold (w w1 : World) (reply : option pystr) :
  llm_think [Message user (step_prompt ex question plan hist step)] w
    = (reply, w1) ->
  execute_step ex question plan i step hist w
  = match tool_loop (Z.to_nat (max_tool_iterations ex)) ex i step
            (initial_state (step_prompt ex question plan hist step)
               reply hist) w1 with
    | (Ok ls, w2, evs) =>
      (Ok (history ls ++ result_record i step (response_text ls),
           response_text ls),
       w2,
       EvThink [Message user (step_prompt ex question plan hist step)] reply
         :: evs)
    | (Raise e, w2, evs) =>
      (Raise e, w2,
       EvThink [Message user (step_prompt ex question plan hist step)] reply
         :: evs)
    | (OutOfFuel, w2, evs) =>
      (OutOfFuel, w2,
       EvThink [Message user (step_prompt ex question plan hist step)] reply
         :: evs)
    end.
Proof.
  intros Ht. unfold execute_step, run_step, bind, think, ret.
  rewrite Ht. unfold initial_state. cbn [app].
  destruct (tool_loop _ ex i step _ w1) as [[[ls|e|] w2] evs];
    cbn [app]; try reflexivity.
  now rewrite app_nil_r.
Qed.

(** When the loop is not entered, or is left at once, the step is one
    completion, returned as it is. *)
Lemma execute_step_single (w w1 : World) (reply : option pystr) :
  llm_think [Message user (step_prompt ex question plan hist step)] w
    = (reply, w1) ->
  tool_executor ex = None
  \/ (max_tool_iterations ex <= 0)%Z
  \/ _parse_tool_request (or_empty reply) = Value None ->
  execute_step ex question plan i step hist w
  = (Ok (hist ++ result_record i step (or_empty reply), or_empty reply),
     w1,
     [EvThink [Message user (step_prompt ex question plan hist step)] reply]).
Proof.
  intros Ht Hcase. rewrite (execute_step_unfold _ _ _ Ht).
  destruct Hcase as [Hnone | [Hmax | Hparse]].
  - now rewrite (tool_loop_no_registry _ _ _ _ _ _ Hnone).
  - now rewrite tool_loop_exhausted by (cbn; lia).
  - destruct (tool_executor ex) as [te|] eqn:Hte;
      [|now rewrite (tool_loop_no_registry _ _ _ _ _ _ Hte)].
    destruct (Z.lt_ge_cases 0 (max_tool_iterations ex)) as [Hlt|Hge];
      [|now rewrite tool_loop_exhausted by (cbn; lia)].
    destruct (Z.to_nat (max_tool_iterations ex)) as [|fuel] eqn:Hfuel;
      [lia|].
    rewrite (tool_loop_step _ _ _ _ te _ _ Hte) by (cbn; lia).
    now rewrite tool_iteration_break by exact Hparse.
Qed.

(** The empty completion requests no tool. *)
Lemma parse_empty : _parse_tool_request empty = Value None.
Proof. reflexivity. Qed.

End StepFacts.

(** ** Facts about a run without a registry *)

Section RunFacts.

Context {lib : PyLib} {World : Type} {llm : HelloAgentsLLM World}.

Variables (ex : Executor (World:=World)) (question : pystr)
          (plan : list pystr).

(** Without a registry every step is one call of the engine. *)
Lemma execute_steps_without_registry (steps : list pystr) :
  tool_executor ex = None ->
  forall (i : Z) (hist final_answer : pystr) (w : World),
  exists (r : pystr * pystr) (w' : World) (evs : list event),
    execute_steps ex question plan i steps hist final_answer w
    = (Ok r, w', evs)
    /\ engine_calls evs = List.length steps
    /\ tool_lookups evs = 0%nat.
Proof.
  intros Hnone.
  induction steps as [|step rest IH]; intros i hist fa w.
  - exists (hist, fa), w, []. now repeat split.
  - cbn [execute_steps]. unfold bind.
    destruct (llm_think
                [Message user (step_prompt ex question plan hist step)] w)
      as [reply w1] eqn:Ht.
    rewrite (execute_step_single ex question plan i step hist w w1 reply Ht
               (or_introl Hnone)).
    cbv beta iota.
    match goal with
    | |- context [execute_steps ex question plan ?j rest ?h ?a ?w0] =>
      destruct (IH j h a w0) as (r & w' & evs & Hrest & Hcalls & Hlook)
    end.
    exists r, w'. eexists. split; [rewrite Hrest; reflexivity|].
    rewrite engine_calls_app, tool_lookups_app, Hcalls, Hlook.
    now split.
Qed.

End RunFacts.

(** ** The properties of the specification *)

Section StepProperties.

Context {lib : PyLib} {World : Type} {llm : HelloAgentsLLM World}.

Variables (ex : Executor (World:=World)) (question : pystr)
          (plan : list pystr) (i : Z) (step : pystr) (hist : pystr).

(** C1 (amended).  For every execution of a step under a non-negative
    budget, the model returns or raises (it never runs out of fuel) and
    the number of invocations of the completion engine is between 1 and
    [max_tool_iterations + 1].  If moreover a tool registry is bound, no
    tool callable raises and every completion up to the budget parses as
    a tool request, then the loop performs exactly [max_tool_iterations]
    tool resolutions, the engine is invoked exactly
    [max_tool_iterations + 1] times and the step returns the last
    completion as its result. *)
Theorem step_engine_calls_bounded
    (w w' : World) (out : outcome (pystr * pystr)) (evs : list event) :
  (0 <= max_tool_iterations ex)%Z ->
  execute_step ex question plan i step hist w = (out, w', evs) ->
  out <> OutOfFuel
  /\ (1 <= Z.of_nat (engine_calls evs) <= max_tool_iterations ex + 1)%Z
  /\ (tool_executor ex <> None ->
      no_tool_fault evs = true ->
      Forall requests_tool
        (firstn (Z.to_nat (max_tool_iterations ex)) (replies evs)) ->
      tool_lookups evs = Z.to_nat (max_tool_iterations ex)
      /\ Z.of_nat (engine_calls evs) = (max_tool_iterations ex + 1)%Z
      /\ exists hist', out = Ok (hist', last (replies evs) [])).
Proof.
  intros Hmax H.
  destruct (llm_think [Message user (step_prompt ex question plan hist step)]
              w) as [reply w1] eqn:Ht.
  rewrite (execute_step_unfold _ _ _ _ _ _ _ _ _ Ht) in H.
  set (ls0 := initial_state (step_prompt ex question plan hist step)
                reply hist) in *.
  destruct (tool_loop (Z.to_nat (max_tool_iterations ex)) ex i step ls0 w1)
    as [[o w2] evs2] eqn:Hloop.
  assert (Hrem : remaining ex ls0 = Z.to_nat (max_tool_iterations ex))
    by (unfold remaining; cbn; now rewrite Z.sub_0_r).
  assert (Hfuel : (remaining ex ls0 <= Z.to_nat (max_tool_iterations ex))%nat)
    by (rewrite Hrem; lia).
  pose proof (tool_loop_events ex i step _ ls0 w1 w2 o evs2 Hfuel Hloop)
    as (Hcalls & Hlook & Hout).
  rewrite Hrem in Hlook.
  assert (Hevs : evs = EvThink
                         [Message user
                            (step_prompt ex question plan hist step)] reply
                         :: evs2)
    by (destruct o; injection H as _ _ <-; reflexivity).
  assert (Hc : engine_calls evs = S (engine_calls evs2))
    by (now rewrite Hevs).
  assert (Hl : tool_lookups evs = tool_lookups evs2)
    by (now rewrite Hevs).
  split; [|split].
  - destruct o; [| |contradiction]; injection H as <- _ _; discriminate.
  - lia.
  - intros Hreg Hnf Hall.
    assert (Hnf2 : no_tool_fault evs2 = true) by (now rewrite Hevs in Hnf).
    assert (Hall2 : Forall requests_tool
                      (firstn (remaining ex ls0)
                         (response_text ls0 :: replies evs2)))
      by (rewrite Hrem; now rewrite Hevs in Hall).
    destruct (tool_loop_saturates ex i step _ ls0 w1 w2 o evs2 Hreg
                Hfuel Hloop Hnf2 Hall2)
      as (Hsat & ls' & ->).
    rewrite Hrem in Hsat.
    destruct Hout as (Heq & _ & Hresp & _).
    split; [lia|]. split; [lia|].
    injection H as <- _ _. eexists. f_equal. f_equal.
    rewrite Hresp, Hevs. cbn [replies flat_map app].
    change (flat_map _ evs2) with (replies evs2).
    now rewrite last_cons_default.
Qed.


(** C8.  For every step, an absent or empty result of the completion
    engine is read as the empty string; the empty string requests no
    tool, and the step ends, without an exception, with the empty string
    as its result.  The same holds for a completion received inside the
    tool loop: the loop stops on it. *)
Theorem step_with_absent_completion
    (w w1 : World) (reply : option pystr) :
  llm_think [Message user (step_prompt ex question plan hist step)] w
    = (reply, w1) ->
  reply = None \/ reply = Some empty ->
  or_empty reply = empty
  /\ _parse_tool_request (or_empty reply) = Value None
  /\ execute_step ex question plan i step hist w
     = (Ok (hist ++ result_record i step empty, empty),
        w1,
        [EvThink [Message user (step_prompt ex question plan hist step)]
           reply])
  /\ forall (fuel : nat) (ls : loop_state) (w2 : World),
       response_text ls = or_empty reply ->
       (remaining ex ls <= fuel)%nat ->
       tool_loop fuel ex i step ls w2 = (Ok ls, w2, []).
Proof.
  intros Ht Hreply.
  assert (Hempty : or_empty reply = empty)
    by (destruct Hreply as [-> | ->]; reflexivity).
  split; [exact Hempty|]. split; [now rewrite Hempty|]. split.
  - rewrite <- Hempty at 1 2.
    apply execute_step_single; [exact Ht|].
    right; right. now rewrite Hempty.
  - intros fuel ls w2 Hresp Hfuel. apply tool_loop_break; [exact Hfuel|].
    now rewrite Hresp, Hempty.
Qed.

(** C10.  When no tool registry is bound to the executor, the tool loop
    is never entered: the step issues exactly one call of the completion
    engine, whose prompt carries the no-tools placeholder as the tool
    catalog, and no lookup; the first completion is the result of the
    step, whether or not it parses as a tool request; and the history
    receives the terminal record only.  Over a whole plan, the engine is
    called once for each step and no tool is looked up. *)
Theorem step_without_registry
    (w w1 : World) (reply : option pystr) :
  tool_executor ex = None ->
  llm_think
    [Message user
       (EXECUTOR_PROMPT_TEMPLATE question (str_text (PyList (map PyStr plan)))
          (if truthy hist then hist else lit "无") step NO_TOOLS)] w
    = (reply, w1) ->
  execute_step ex question plan i step hist w
  = (Ok (hist ++ result_record i step (or_empty reply), or_empty reply),
     w1,
     [EvThink
        [Message user
           (EXECUTOR_PROMPT_TEMPLATE question
              (str_text (PyList (map PyStr plan)))
              (if truthy hist then hist else lit "无") step NO_TOOLS)]
        reply])
  /\ forall w0 : World,
       exists (final_answer : pystr) (w' : World) (evs : list event),
         execute ex question plan w0 = (Ok final_answer, w', evs)
         /\ engine_calls evs = List.length plan
         /\ tool_lookups evs = 0%nat.
Proof.
  intros Hnone Ht.
  assert (Hprompt : step_prompt ex question plan hist step
                    = EXECUTOR_PROMPT_TEMPLATE question
                        (str_text (PyList (map PyStr plan)))
                        (if truthy hist then hist else lit "无") step
                        NO_TOOLS)
    by (unfold step_prompt, tool_instructions; now rewrite Hnone).
  rewrite <- Hprompt in *. split.
  - apply execute_step_single; [exact Ht | now left].
  - intros w0. unfold execute, bind.
    destruct (execute_steps_without_registry ex question plan plan Hnone
                1%Z empty empty w0)
      as (r & w' & evs & Hrun & Hcalls & Hlook).
    exists (snd r), w', (evs ++ []).
    split; [now rewrite Hrun|]. rewrite app_nil_r. now split.
Qed.

End StepProperties.

Section LoopProperties.

Context {lib : PyLib} {World : Type} {llm : HelloAgentsLLM World}.

(** C5.  For every parsed tool request whose tool name is not registered
    in the tool registry, the observation is the fixed error message that
    names the tool; the pass through the loop completes without an
    exception and counts as one iteration; the error observation is
    recorded in the history and sent to the engine as a new user turn, in
    the form of a tool output; and the loop goes on from there. *)
Theorem unregistered_tool_is_observed
    (ex : Executor (World:=World)) (te : ToolExecutor World) (i : Z)
    (step : pystr) (ls : loop_state) (w w' : World) (req : ToolRequest)
    (reply : option pystr) :
  tool_executor ex = Some te ->
  (tool_iterations ls < max_tool_iterations ex)%Z ->
  _parse_tool_request (response_text ls) = Value (Some req) ->
  getTool te (req_tool req) = None ->
  let observation := lit "错误：工具 '" ++ req_tool req ++ lit "' 未注册。" in
  let fed_back :=
    messages ls
    ++ [Message user (lit "工具 '" ++ req_tool req ++ lit "' 的输出: "
                      ++ observation)] in
  llm_think fed_back w = (reply, w') ->
  exists ls',
    tool_iteration te i step ls w
    = (Ok (Some ls'), w',
       [EvGetTool (req_tool req) false; EvThink fed_back reply])
    /\ tool_iterations ls' = (tool_iterations ls + 1)%Z
    /\ history ls'
       = history ls ++ tool_record i step (req_tool req) observation
    /\ response_text ls' = or_empty reply
    /\ messages ls' = fed_back ++ [Message assistant (or_empty reply)]
    /\ forall fuel,
         tool_loop (S fuel) ex i step ls w
         = match tool_loop fuel ex i step ls' w' with
           | (out, w2, evs2) =>
             (out, w2,
              [EvGetTool (req_tool req) false; EvThink fed_back reply]
                ++ evs2)
           end.
Proof.
  intros Hte Hlt Hp Hg observation fed_back Ht.
  exists (resolved i step ls (req_tool req) observation reply).
  pose proof (tool_iteration_unregistered te i step ls w w' req reply
                Hp Hg Ht) as Hit.
  split; [exact Hit|]. repeat split.
  intros fuel. rewrite (tool_loop_step ex i step fuel te ls w Hte Hlt).
  now rewrite Hit.
Qed.




End LoopProperties.

Section PlannerProperties.

Context {lib : PyLib} {World : Type} {llm : HelloAgentsLLM World}.


(** C6.  [Planner.plan] never raises: for every question and every
    response of the engine it returns a sequence, after one call of the
    engine; and the sequence is empty when the opening fence marker is
    absent, when the extraction of the block fails, when the fenced text
    is not a literal (whatever the evaluator raises), and when the
    literal is not a list. *)
Theorem plan_never_raises (question : pystr) (w : World) :
  exists (p : list pyvalue) (w' : World) (reply : option pystr),
    plan question w
    = (Ok p, w',
       [EvThink [Message user (PLANNER_PROMPT_TEMPLATE question)] reply])
    /\ (find FENCE_OPEN (or_empty reply) = None -> p = [])
    /\ (forall e, fenced_block (or_empty reply) = Error e -> p = [])
    /\ (forall block e,
           fenced_block (or_empty reply) = Value block ->
           literal_eval (strip block) = Error e -> p = [])
    /\ (forall block v,
           fenced_block (or_empty reply) = Value block ->
           literal_eval (strip block) = Value v ->
           (forall items, v <> PyList items) -> p = []).
Proof.
  destruct (llm_think [Message user (PLANNER_PROMPT_TEMPLATE question)] w)
    as [reply w'] eqn:Ht.
  unfold plan, bind, think. rewrite Ht. unfold plan_try.
  destruct (fenced_block (or_empty reply)) as [block|e] eqn:Hblock.
  - destruct (literal_eval (strip block)) as [v|e] eqn:Hlit.
    + exists (match v with PyList items => items | _ => [] end), w', reply.
      split; [reflexivity|]. split; [|split; [|split]].
      * intros Hnone. apply fenced_block_no_marker in Hnone. congruence.
      * intros e He. congruence.
      * intros block' e Hb He. congruence.
      * intros block' v' Hb Hv Hnot.
        rewrite Hblock in Hb. injection Hb as <-.
        rewrite Hlit in Hv. injection Hv as <-.
        destruct v; try reflexivity. now elim (Hnot items).
    + exists [], w', reply. split; [|now repeat split].
      cbv beta iota zeta.
      destruct (is_ValueError e || is_SyntaxError e || is_IndexError e);
        reflexivity.
  - exists [], w', reply. split; [|now repeat split].
    cbv beta iota zeta.
    destruct (is_ValueError e || is_SyntaxError e || is_IndexError e);
      reflexivity.
Qed.

End PlannerProperties.

Section ParserProperties.

Context {lib : PyLib}.

(** The parser answers [None] when both the JSON decoder and the literal
    evaluator refuse the text with the exceptions it catches. *)
Lemma parse_refused_by_both (text : pystr) (e e' : exn) :
  json_loads text = Error e -> is_JSONDecodeError e = true ->
  literal_eval text = Error e' ->
  is_ValueError e' || is_SyntaxError e' = true ->
  _parse_tool_request text = Value None.
Proof.
  intros Hj He Hl He'. unfold _parse_tool_request.
  destruct (truthy text); [|reflexivity]. cbn [negb].
  now rewrite Hj, He, Hl, He'.
Qed.

(** An exception of the literal evaluator that is neither a
    [ValueError] nor a [SyntaxError] leaves the parser. *)
Lemma parse_propagates (text : pystr) (e e' : exn) :
  truthy text = true ->
  json_loads text = Error e -> is_JSONDecodeError e = true ->
  literal_eval text = Error e' ->
  is_ValueError e' || is_SyntaxError e' = false ->
  _parse_tool_request text = Error e'.
Proof.
  intros Ht Hj He Hl He'. unfold _parse_tool_request.
  rewrite Ht. cbn [negb]. now rewrite Hj, He, Hl, He'.
Qed.

(** The check made on the value read. *)
Lemma parse_reads (text : pystr) (data : pyvalue) :
  truthy text = true -> reads_as text data ->
  _parse_tool_request text
  = match data with
    | PyDict items =>
      match dict_get items (lit "tool"), dict_get items (lit "input") with
      | Some t, Some inp =>
        match py_str t with
        | Error e => Error e
        | Value tool_text =>
          match py_str inp with
          | Error e => Error e
          | Value tool_input =>
            if truthy (strip tool_text)
            then Value (Some {| req_tool := strip tool_text;
                                req_input := tool_input |})
            else Value None
          end
        end
      | _, _ => Value None
      end
    | _ => Value None
    end.
Proof.
  intros Ht Hread. unfold _parse_tool_request. rewrite Ht. cbn [negb].
  destruct Hread as [Hj | (e & Hj & He & Hl)].
  - rewrite Hj. destruct data; reflexivity.
  - rewrite Hj, He, Hl. destruct data; reflexivity.
Qed.

(** A text that is not empty is read as a value, or refused by both
    decoders, or makes one of them raise an exception that the parser
    does not catch. *)
Lemma parse_cases (text : pystr) :
  truthy text = true ->
  (exists data, reads_as text data)
  \/ _parse_tool_request text = Value None
  \/ (exists e,
        _parse_tool_request text = Error e
        /\ ((json_loads text = Error e /\ is_JSONDecodeError e = false)
            \/ (exists e0,
                   json_loads text = Error e0
                   /\ is_JSONDecodeError e0 = true
                   /\ literal_eval text = Error e
                   /\ is_ValueError e || is_SyntaxError e = false))).
Proof.
  intros Ht. unfold reads_as, _parse_tool_request. rewrite Ht. cbn [negb].
  destruct (json_loads text) as [data|e] eqn:Hj.
  - left. exists data. now left.
  - destruct (is_JSONDecodeError e) eqn:He.
    + destruct (literal_eval text) as [data|e'] eqn:Hl.
      * left. exists data. right. now exists e.
      * destruct (is_ValueError e' || is_SyntaxError e') eqn:He'.
        -- right. now left.
        -- right. right. exists e'. split; [reflexivity|]. right.
           now exists e.
    + right. right. exists e. split; [reflexivity|]. now left.
Qed.

(** What the parser reads a text as is what one decoder gave: a text is
    not read as two values. *)
Lemma reads_as_functional (text : pystr) (data data' : pyvalue) :
  reads_as text data -> reads_as text data' -> data = data'.
Proof.
  unfold reads_as.
  intros [H | (e & Hj & He & Hl)] [H' | (e' & Hj' & He' & Hl')]; congruence.
Qed.

(** C7 (amended).  A completion is accepted as a tool request exactly
    when it is not empty and is read, by the JSON decoder or else by the
    literal evaluator, as a mapping that contains a [tool] key and an
    [input] key, both of which [str] converts, and whose tool name, as a
    string with the surrounding whitespace removed, is not empty; the
    request is made of that name and of the input as a string, and any
    other key of the mapping is ignored.  The completion goes to the
    decoders as it is: two completions that are not empty and are read
    as the same value, as a request and the same request surrounded by
    whitespace are by [json.loads], get the same answer. *)
Theorem tool_request_accepted_iff :
  (forall (text : pystr) (req : ToolRequest),
      _parse_tool_request text = Value (Some req)
      <-> (text <> []
           /\ exists items t inp tool_text,
                reads_as text (PyDict items)
                /\ dict_get items (lit "tool") = Some t
                /\ dict_get items (lit "input") = Some inp
                /\ py_str t = Value tool_text
                /\ py_str inp = Value (req_input req)
                /\ req_tool req = strip tool_text
                /\ req_tool req <> []))
  /\ (forall (text text' : pystr) (data : pyvalue),
         text <> [] -> text' <> [] ->
         reads_as text data -> reads_as text' data ->
         _parse_tool_request text' = _parse_tool_request text).
Proof.
  split.
  - intros text req. split.
    + intros H.
      destruct text as [|c text]; [discriminate|].
      split; [discriminate|].
      destruct (parse_cases (c :: text) eq_refl)
        as [(data & Hread) | [Hnone | (e & He & _)]]; [|congruence..].
      rewrite (parse_reads (c :: text) data eq_refl Hread) in H.
      destruct data; try discriminate.
      destruct (dict_get items (lit "tool")) as [t|] eqn:Htool;
        [|discriminate].
      destruct (dict_get items (lit "input")) as [inp|] eqn:Hinput;
        [|discriminate].
      destruct (py_str t) as [tool_text|e] eqn:Hstr; [|discriminate].
      destruct (py_str inp) as [tool_input|e] eqn:Hstr'; [|discriminate].
      destruct (strip tool_text) as [|d name] eqn:Hname; [discriminate|].
      cbn [truthy] in H. injection H as <-.
      exists items, t, inp, tool_text. cbn [req_tool req_input].
      rewrite Hname. repeat split; auto. discriminate.
    + intros (Hne & items & t & inp & tool_text & Hread & Htool & Hinput
              & Hstr & Hstr' & Hname & Hnonempty).
      assert (truthy text = true) as Ht by (now destruct text).
      rewrite (parse_reads _ _ Ht Hread), Htool, Hinput, Hstr, Hstr'.
      rewrite <- Hname. destruct req as [name input]. cbn [req_tool] in *.
      destruct name; [congruence|reflexivity].
  - intros text text' data Hne Hne' Hread Hread'.
    assert (truthy text = true) as Ht by (now destruct text).
    assert (truthy text' = true) as Ht' by (now destruct text').
    now rewrite (parse_reads _ _ Ht Hread), (parse_reads _ _ Ht' Hread').
Qed.

End ParserProperties.

(** ** Concrete runs *)

Section ConcreteRuns.

Import Script.

(** A tool request for a registered tool, then the answer: two calls of
    the engine, one call of the tool with the input of the request, the
    answer as the result, and the tool record in the history. *)
Example search_then_answer :
  run_step_on (executor 5)
    [Some (tool_request (lit "Search") (lit "X")); Some (lit "ANSWER")]
  = (Ok (tool_record 1 (lit "Do A") (lit "Search") (lit "results for X")
         ++ result_record 1 (lit "Do A") (lit "ANSWER"),
         lit "ANSWER"),
     [],
     snd (run_step_on (executor 5)
            [Some (tool_request (lit "Search") (lit "X"));
             Some (lit "ANSWER")]))
  /\ engine_calls
       (snd (run_step_on (executor 5)
               [Some (tool_request (lit "Search") (lit "X"));
                Some (lit "ANSWER")])) = 2%nat
  /\ filter (fun e => negb (is_lookup e))
       (skipn 1 (snd (run_step_on (executor 5)
                        [Some (tool_request (lit "Search") (lit "X"));
                         Some (lit "ANSWER")])))
     = [EvToolCall (lit "Search") (lit "X")
          (Observation (lit "results for X"));
        EvThink
          (messages (initial_state
                       (step_prompt (lib:=PyModel.model) (executor 5)
                          question the_plan empty (lit "Do A"))
                       (Some (tool_request (lit "Search") (lit "X")))
                       empty)
           ++ [Message user (lit "工具 'Search' 的输出: results for X")])
          (Some (lit "ANSWER"))].
Proof. vm_compute. repeat split. Qed.

(** Two steps without a tool: the answer is the completion of the
    second step. *)
Example two_steps_end_to_end :
  fst (fst (execute (lib:=PyModel.model) (executor 5) question the_plan
              [Some (lit "done A"); Some (lit "done B")]))
  = Ok (lit "done B").
Proof. vm_compute. reflexivity. Qed.

(** Counterexample to C1 as first stated, without a registry: the only completion
    of the step parses as a tool request, the budget is 5, and no tool
    resolution is performed. *)
Lemma step_without_registry_resolves_nothing :
  ~ (Forall (requests_tool (H:=PyModel.model))
       (firstn (Z.to_nat (max_tool_iterations (bare_executor 5)))
          (replies
             (snd (run_step_on (bare_executor 5)
                     [Some (tool_request (lit "Search") (lit "X"))])))) ->
     tool_lookups
       (snd (run_step_on (bare_executor 5)
               [Some (tool_request (lit "Search") (lit "X"))]))
     = Z.to_nat (max_tool_iterations (bare_executor 5))).
Proof.
  intros Hclaim.
  assert (Hall : Forall (requests_tool (H:=PyModel.model))
                   (firstn (Z.to_nat (max_tool_iterations (bare_executor 5)))
                      (replies
                         (snd (run_step_on (bare_executor 5)
                                 [Some (tool_request (lit "Search")
                                          (lit "X"))]))))).
  { repeat constructor.
    exists {| req_tool := lit "Search"; req_input := lit "X" |}.
    vm_compute. reflexivity. }
  specialize (Hclaim Hall). vm_compute in Hclaim. discriminate Hclaim.
Qed.

(** Witness of C1: a run with a budget of two. *)
Lemma step_engine_calls_bounded_witness :
  fst (fst (run_step_on (executor 2) two_requests_then_answer)) <> OutOfFuel
  /\ (1 <= Z.of_nat (engine_calls
                       (snd (run_step_on (executor 2)
                               two_requests_then_answer))) <= 2 + 1)%Z
  /\ tool_lookups (snd (run_step_on (executor 2) two_requests_then_answer))
     = 2%nat
  /\ Z.of_nat (engine_calls
                 (snd (run_step_on (executor 2) two_requests_then_answer)))
     = (2 + 1)%Z
  /\ exists hist',
       fst (fst (run_step_on (executor 2) two_requests_then_answer))
       = Ok (hist', lit "ANSWER").
Proof.
  destruct (@step_engine_calls_bounded PyModel.model World engine
              (executor 2) question the_plan 1 (lit "Do A") empty
              two_requests_then_answer
              (snd (fst (run_step_on (executor 2) two_requests_then_answer)))
              (fst (fst (run_step_on (executor 2) two_requests_then_answer)))
              (snd (run_step_on (executor 2) two_requests_then_answer)))
    as (Hfuel & Hbounds & Hfull).
  - cbn. lia.
  - vm_compute. reflexivity.
  - split; [exact Hfuel|]. split; [exact Hbounds|].
    apply Hfull.
    + discriminate.
    + vm_compute. reflexivity.
    + repeat constructor.
      * exists {| req_tool := lit "Search"; req_input := lit "X" |}.
        vm_compute. reflexivity.
      * exists {| req_tool := lit "Foo"; req_input := lit "Y" |}.
        vm_compute. reflexivity.
Defined.




(** Witness of C8: a step whose engine gives no result. *)
Lemma step_with_absent_completion_witness :
  fst (fst (run_step_on (executor 5) [None]))
  = Ok (empty ++ result_record 1 (lit "Do A") empty, empty).
Proof.
  unfold run_step_on.
  destruct (@step_with_absent_completion PyModel.model World engine
              (executor 5) question the_plan 1 (lit "Do A") empty
              [None] [] None) as (_ & _ & Hrun & _).
  - reflexivity.
  - now left.
  - now rewrite Hrun.
Defined.

(** Witness of C10: a step run without a registry; the tool request is
    the result. *)
Lemma step_without_registry_witness :
  fst (fst (run_step_on (bare_executor 5)
              [Some (tool_request (lit "Search") (lit "X"))]))
  = Ok (empty ++ result_record 1 (lit "Do A")
                    (tool_request (lit "Search") (lit "X")),
        tool_request (lit "Search") (lit "X")).
Proof.
  unfold run_step_on.
  destruct (@step_without_registry PyModel.model World engine
              (bare_executor 5) question the_plan 1 (lit "Do A") empty
              [Some (tool_request (lit "Search") (lit "X"))] []
              (Some (tool_request (lit "Search") (lit "X"))))
    as (Hstep & _).
  - reflexivity.
  - reflexivity.
  - now rewrite Hstep.
Defined.

(** Witness of C5: a request for the tool [Foo], which [registry] does
    not hold. *)
Lemma unregistered_tool_is_observed_witness :
  exists ls',
    tool_iteration (lib:=PyModel.model) registry 1 (lit "Do A")
      asked_for_foo [Some (lit "ANSWER")]
    = (Ok (Some ls'), [],
       [EvGetTool (lit "Foo") false;
        EvThink
          (messages asked_for_foo
           ++ [Message user
                 (lit "工具 'Foo' 的输出: 错误：工具 'Foo' 未注册。")])
          (Some (lit "ANSWER"))])
    /\ tool_iterations ls' = 1%Z
    /\ response_text ls' = lit "ANSWER".
Proof.
  destruct (@unregistered_tool_is_observed PyModel.model World engine
              (executor 5) registry 1 (lit "Do A") asked_for_foo
              [Some (lit "ANSWER")] []
              {| req_tool := lit "Foo"; req_input := lit "Y" |}
              (Some (lit "ANSWER")))
    as (ls' & Hit & Hcount & _ & Hresp & _).
  - reflexivity.
  - reflexivity.
  - vm_compute. reflexivity.
  - reflexivity.
  - reflexivity.
  - exists ls'. split; [exact Hit|]. split; [exact Hcount | exact Hresp].
Defined.

(** Counterexample to C7 as first stated: an object with a third key is
    accepted as a tool request. *)
Lemma request_with_extra_key_is_accepted :
  _parse_tool_request (lib:=PyModel.model) request_with_extra_key
  = Value (Some {| req_tool := lit "Search"; req_input := lit "x" |})
  /\ ~ json_object_with_exactly_tool_and_input (H:=PyModel.model)
         request_with_extra_key.
Proof.
  split; [vm_compute; reflexivity|].
  intros (items & Hload & Hkeys).
  vm_compute in Hload. injection Hload as <-.
  assert (Hin : In (PyStr (lit "extra"))
                  (map fst
                     [(PyStr (lit "tool"), PyStr (lit "Search"));
                      (PyStr (lit "input"), PyStr (lit "x"));
                      (PyStr (lit "extra"), PyInt 1)]))
    by (right; right; left; reflexivity).
  apply Hkeys in Hin. destruct Hin as [H | H]; vm_compute in H; discriminate H.
Qed.

(** Witness of C7: a request surrounded by whitespace is decoded to the
    same value as the request alone, and is accepted like it. *)
Lemma tool_request_accepted_iff_witness :
  _parse_tool_request (lib:=PyModel.model) padded_request
  = Value (Some {| req_tool := lit "Search"; req_input := lit "x" |}).
Proof.
  destruct (@tool_request_accepted_iff PyModel.model) as [Haccepted Hsame].
  rewrite (Hsame (tool_request (lit "Search") (lit "x")) padded_request
             (PyDict [(PyStr (lit "tool"), PyStr (lit "Search"));
                      (PyStr (lit "input"), PyStr (lit "x"))])).
  - apply Haccepted. split; [discriminate|].
    exists [(PyStr (lit "tool"), PyStr (lit "Search"));
            (PyStr (lit "input"), PyStr (lit "x"))],
           (PyStr (lit "Search")), (PyStr (lit "x")), (lit "Search").
    split; [left; vm_compute; reflexivity|].
    repeat split; try (vm_compute; reflexivity). discriminate.
  - discriminate.
  - discriminate.
  - left. vm_compute. reflexivity.
  - left. vm_compute. reflexivity.
Defined.

(** A request whose input is an integer beyond the digit limit: the
    JSON decoder refuses the text, the literal evaluator reads it, and
    [str] raises [ValueError] on the input, which leaves the parser and
    the step. *)
Example huge_input_raises_value_error :
  json_loads (PyLib:=PyModel.model) huge_input_request = Error JSONDecodeError
  /\ literal_eval (PyLib:=PyModel.model) huge_input_request
     = Value (PyDict [(PyStr (lit "tool"), PyStr (lit "Search"));
                      (PyStr (lit "input"), PyInt (16 ^ 3600 - 1))])
  /\ _parse_tool_request (lib:=PyModel.model) huge_input_request
     = Error ValueError
  /\ fst (fst (run_step_on (executor 5)
                 [Some huge_input_request; Some (lit "ANSWER")]))
     = Raise ValueError.
Proof. vm_compute. repeat split. Qed.

(** C4 at a completion in doubled braces: the JSON decoder refuses it,
    the literal evaluator raises [TypeError] on the set that holds a
    dictionary, the parser does not catch it, and the step ends with that
    exception where the specification has it end with the completion as
    its result. *)
Theorem doubled_braces_raise_type_error :
  json_loads (PyLib:=PyModel.model) doubled_request = Error JSONDecodeError
  /\ literal_eval (PyLib:=PyModel.model) doubled_request = Error TypeError
  /\ _parse_tool_request (lib:=PyModel.model) doubled_request
     = Error TypeError
  /\ fst (fst (run_step_on (executor 5)
                 [Some doubled_request; Some (lit "ANSWER")]))
     = Raise TypeError.
Proof. vm_compute. repeat split. Qed.

End ConcreteRuns.

(** ** Further properties: the planner's extraction *)

Section ExtractionProperties.

Context {lib : PyLib} {World : Type} {llm : HelloAgentsLLM World}.

Lemma find_split_at (sep s : pystr) (n : nat) :
  find sep s = Some n ->
  s = firstn n s ++ sep ++ skipn (n + List.length sep) s.
Proof.
  intros H. apply find_Some_startswith in H. apply startswith_split in H.
  rewrite skipn_skipn in H. rewrite (Nat.add_comm n).
  rewrite <- H. symmetry. apply firstn_skipn.
Qed.

(** The first piece of a split: it holds no separator, and what follows
    it is nothing or starts with the separator. *)
Lemma split_first_piece (sep s : pystr) :
  sep <> [] ->
  exists piece rest,
    nth_error (split sep s) 0 = Some piece
    /\ s = piece ++ rest
    /\ find sep piece = None
    /\ (rest = [] \/ startswith sep rest = true).
Proof.
  intros Hsep. rewrite (split_first _ _ Hsep).
  destruct (find sep s) as [n|] eqn:F.
  - exists (firstn n s), (skipn n s). split; [reflexivity|].
    split; [symmetry; apply firstn_skipn|]. split.
    + now apply find_firstn_none.
    + right. now apply find_Some_startswith.
  - exists s, []. split; [reflexivity|]. split; [now rewrite app_nil_r|].
    split; [exact F | now left].
Qed.

(** The first piece of a split is the text up to the separator. *)
Lemma split_first_upto (sep s : pystr) :
  sep <> [] -> nth_error (split sep s) 0 = Some (upto sep s).
Proof. intros Hsep. now rewrite (split_first _ _ Hsep). Qed.

(** The text up to a separator does not hold it. *)
Lemma upto_holds_none (sep s : pystr) :
  sep <> [] -> find sep (upto sep s) = None.
Proof.
  intros Hsep. unfold upto. destruct (find sep s) as [n|] eqn:F.
  - now apply find_firstn_none.
  - exact F.
Qed.

(** X1.  The extraction of the fenced block fails exactly when the
    response holds no opening marker, and then with [IndexError].
    Otherwise the text after the first opening marker is cut at the next
    opening marker, if there is one, and the block is that piece up to
    the first fence in it, or all of it when it holds none; the block
    holds no fence. *)
Theorem fenced_block_spec (response : pystr) :
  match find FENCE_OPEN response with
  | None => fenced_block response = Error IndexError
  | Some n =>
    let after_open := skipn (n + List.length FENCE_OPEN) response in
    fenced_block response
    = Value (upto FENCE (upto FENCE_OPEN after_open))
    /\ find FENCE (upto FENCE (upto FENCE_OPEN after_open)) = None
  end.
Proof.
  destruct (find FENCE_OPEN response) as [n|] eqn:Hopen;
    [|now apply fenced_block_no_marker].
  cbv zeta. split; [|apply upto_holds_none, FENCE_nonempty].
  unfold fenced_block.
  rewrite (split_second _ _ FENCE_OPEN_nonempty), Hopen.
  rewrite (split_first_upto _ _ FENCE_OPEN_nonempty).
  now rewrite (split_first_upto _ _ FENCE_nonempty).
Qed.

(** What the planner returns, in one expression. *)
Lemma plan_result (question : pystr) (w w' : World) (reply : option pystr) :
  llm_think [Message user (PLANNER_PROMPT_TEMPLATE question)] w
    = (reply, w') ->
  plan question w
  = (Ok (match plan_try (or_empty reply) with
         | Value p => p
         | Error _ => []
         end),
     w',
     [EvThink [Message user (PLANNER_PROMPT_TEMPLATE question)] reply]).
Proof.
  intros Ht. unfold plan, bind, think. rewrite Ht.
  destruct (plan_try (or_empty reply)) as [p|e]; [reflexivity|].
  cbv beta iota zeta.
  destruct (is_ValueError e || is_SyntaxError e || is_IndexError e);
    reflexivity.
Qed.

(** X2.  A plan that is not empty comes from a list literal: the response
    holds an opening marker, and the block extracted after it, stripped,
    evaluates to the very list the planner returns. *)
Theorem plan_comes_from_a_list_literal
    (question : pystr) (w w' : World) (reply : option pystr)
    (p : list pyvalue) (evs : list event) :
  llm_think [Message user (PLANNER_PROMPT_TEMPLATE question)] w
    = (reply, w') ->
  plan question w = (Ok p, w', evs) ->
  p <> [] ->
  exists n block,
    find FENCE_OPEN (or_empty reply) = Some n
    /\ fenced_block (or_empty reply) = Value block
    /\ literal_eval (strip block) = Value (PyList p).
Proof.
  intros Ht H Hp. rewrite (plan_result question w w' reply Ht) in H.
  injection H as H _. unfold plan_try in H.
  destruct (find FENCE_OPEN (or_empty reply)) as [n|] eqn:Hfind.
  - destruct (fenced_block (or_empty reply)) as [block|e] eqn:Hblock;
      [|congruence].
    exists n, block. split; [reflexivity|]. split; [reflexivity|].
    destruct (literal_eval (strip block)) as [v|e]; [|congruence].
    destruct v; congruence.
  - rewrite (fenced_block_no_marker (or_empty reply) Hfind) in H. congruence.
Qed.

(** X3.  A fence that is never closed is accepted: the block runs to the
    end of the response, and the planner returns the list its literal
    holds, whatever the type of the elements. *)
Theorem plan_accepts_an_open_fence
    (question pre body : pystr) (items : list pyvalue) (w w' : World) :
  llm_think [Message user (PLANNER_PROMPT_TEMPLATE question)] w
    = (Some (pre ++ FENCE_OPEN ++ body), w') ->
  find FENCE_OPEN (pre ++ FENCE_OPEN ++ body) = Some (List.length pre) ->
  find FENCE body = None ->
  literal_eval (strip body) = Value (PyList items) ->
  plan question w
  = (Ok items, w',
     [EvThink [Message user (PLANNER_PROMPT_TEMPLATE question)]
        (Some (pre ++ FENCE_OPEN ++ body))]).
Proof.
  intros Ht Hopen Hclose Hlit.
  assert (Hblock : fenced_block (pre ++ FENCE_OPEN ++ body) = Value body).
  { unfold fenced_block.
    rewrite (split_second _ _ FENCE_OPEN_nonempty), Hopen.
    rewrite Nat.add_comm, <- skipn_skipn.
    rewrite <- (Nat.add_0_r (List.length pre)), skipn_length_app.
    cbn [skipn].
    rewrite <- (Nat.add_0_r (List.length FENCE_OPEN)), skipn_length_app.
    cbn [skipn].
    assert (Hnone : find FENCE_OPEN body = None).
    { destruct (find FENCE_OPEN body) as [m|] eqn:F; [|reflexivity].
      apply find_Some_startswith in F.
      rewrite FENCE_OPEN_starts_with_FENCE in F.
      apply startswith_prefix in F.
      now rewrite (find_None_nowhere _ _ m Hclose) in F. }
    rewrite (split_first _ _ FENCE_OPEN_nonempty), Hnone.
    cbv beta iota.
    now rewrite (split_first _ _ FENCE_nonempty), Hclose. }
  unfold plan, bind, think. rewrite Ht, or_empty_Some.
  unfold plan_try. rewrite Hblock. cbv beta iota zeta. now rewrite Hlit.
Qed.

End ExtractionProperties.

(** ** Further properties: the parser of tool requests *)

Section StripFacts.

Lemma lstrip_head (s rest : pystr) (c : N) :
  lstrip s = c :: rest -> isspace c = false.
Proof.
  induction s as [|a s IH]; cbn [lstrip]; [discriminate|].
  destruct (isspace a) eqn:E; [exact IH|].
  intros H. injection H as <- _. exact E.
Qed.

Lemma lstrip_suffix (s : pystr) : exists blanks, s = blanks ++ lstrip s.
Proof.
  induction s as [|a s [blanks IH]]; [now exists []|].
  cbn [lstrip]. destruct (isspace a).
  - exists (a :: blanks). cbn. now f_equal.
  - now exists [].
Qed.

Lemma lstrip_fixed (s : pystr) :
  (forall c rest, s = c :: rest -> isspace c = false) -> lstrip s = s.
Proof.
  destruct s as [|a s]; [reflexivity|]. intros H. cbn [lstrip].
  now rewrite (H a s eq_refl).
Qed.

(** What [strip] returns has no whitespace at its ends. *)
Lemma strip_ends (s : pystr) :
  (forall c rest, strip s = c :: rest -> isspace c = false)
  /\ (forall c front, strip s = front ++ [c] -> isspace c = false).
Proof.
  unfold strip, rstrip. split.
  - intros c rest H.
    destruct (lstrip_suffix (rev (lstrip s))) as [blanks Hb].
    apply (f_equal (@rev N)) in Hb. rewrite rev_involutive, rev_app_distr in Hb.
    rewrite H in Hb. cbn [app] in Hb.
    now apply (lstrip_head s (rest ++ rev blanks) c).
  - intros c front H. apply (f_equal (@rev N)) in H.
    rewrite rev_involutive, rev_app_distr in H. cbn [rev app] in H.
    now apply (lstrip_head _ _ _ H).
Qed.

Lemma strip_fixed (s : pystr) :
  (forall c rest, s = c :: rest -> isspace c = false) ->
  (forall c front, s = front ++ [c] -> isspace c = false) ->
  strip s = s.
Proof.
  intros Hhead Hlast. unfold strip, rstrip.
  rewrite (lstrip_fixed s Hhead). rewrite lstrip_fixed.
  - apply rev_involutive.
  - intros c rest H. apply (Hlast c (rev rest)).
    apply (f_equal (@rev N)) in H. rewrite rev_involutive in H.
    exact H.
Qed.

Lemma strip_idempotent (s : pystr) : strip (strip s) = strip s.
Proof.
  destruct (strip_ends s) as [Hhead Hlast]. now apply strip_fixed.
Qed.

End StripFacts.

Section ParserFurther.

Context {lib : PyLib}.

(** An accepted request: the value read is a mapping, and the name is
    the stripped string of its [tool] item. *)
Lemma parse_accepted (text : pystr) (req : ToolRequest) :
  _parse_tool_request text = Value (Some req) ->
  exists items t inp tool_text,
    dict_get items (lit "tool") = Some t
    /\ dict_get items (lit "input") = Some inp
    /\ py_str t = Value tool_text
    /\ req_tool req = strip tool_text
    /\ py_str inp = Value (req_input req)
    /\ req_tool req <> [].
Proof.
  intros H. destruct text as [|c text]; [discriminate|].
  destruct (parse_cases (c :: text) eq_refl)
    as [(data & Hread) | [Hnone | (e & He & _)]]; [|congruence..].
  rewrite (parse_reads (c :: text) data eq_refl Hread) in H.
  destruct data; try discriminate.
  destruct (dict_get items (lit "tool")) as [t|] eqn:Ht; [|discriminate].
  destruct (dict_get items (lit "input")) as [inp|] eqn:Hi; [|discriminate].
  destruct (py_str t) as [tool_text|e] eqn:Hstr; [|discriminate].
  destruct (py_str inp) as [tool_input|e] eqn:Hstr'; [|discriminate].
  destruct (strip tool_text) as [|d name] eqn:Hn; [discriminate|].
  cbn [truthy] in H. injection H as <-.
  exists items, t, inp, tool_text. cbn [req_tool req_input]. rewrite Hn.
  repeat split; auto. discriminate.
Qed.

(** X4.  The tool name of a parsed request is never empty and never has
    whitespace at its ends: stripping it again changes nothing. *)
Theorem parsed_tool_name_is_trimmed (text : pystr) (req : ToolRequest) :
  _parse_tool_request text = Value (Some req) ->
  trimmed (req_tool req) /\ strip (req_tool req) = req_tool req.
Proof.
  intros H. apply parse_accepted in H.
  destruct H as (items & t & inp & tool_text & _ & _ & _ & Hname & _ & Hne).
  rewrite Hname in *. destruct (strip_ends tool_text) as [Hhead Hlast].
  split; [|apply strip_idempotent].
  split; [exact Hne|]. split; assumption.
Qed.

(** X5.  The parser raises in three cases only, on a text that is not
    empty: the JSON decoder raised an exception that is not a
    [JSONDecodeError]; or it raised a [JSONDecodeError] and the literal
    evaluator raised an exception that is neither a [ValueError] nor a
    [SyntaxError]; or the text was read as a mapping with a [tool] key
    and an [input] key, and [str] raised on the value of one of them.
    The exception of the parser is that exception; in the third case it
    is a [ValueError], for an integer beyond the digit limit. *)
Theorem parser_raises_iff (text : pystr) (e : exn) :
  _parse_tool_request text = Error e
  <-> (text <> []
       /\ ((json_loads text = Error e /\ is_JSONDecodeError e = false)
           \/ (exists e0,
                  json_loads text = Error e0
                  /\ is_JSONDecodeError e0 = true
                  /\ literal_eval text = Error e
                  /\ is_ValueError e || is_SyntaxError e = false)
           \/ (exists items t inp,
                  reads_as text (PyDict items)
                  /\ dict_get items (lit "tool") = Some t
                  /\ dict_get items (lit "input") = Some inp
                  /\ (py_str t = Error e \/ py_str inp = Error e)
                  /\ e = ValueError
                  /\ repr_raises t || repr_raises inp = true))).
Proof.
  split.
  - intros H. destruct text as [|c text]; [discriminate|].
    split; [discriminate|].
    destruct (parse_cases (c :: text) eq_refl)
      as [(data & Hread) | [Hnone | (e' & He' & Hwhy)]].
    + right. right.
      rewrite (parse_reads (c :: text) data eq_refl Hread) in H.
      destruct data; try discriminate.
      destruct (dict_get items (lit "tool")) as [t|] eqn:Ht;
        [|discriminate].
      destruct (dict_get items (lit "input")) as [inp|] eqn:Hi;
        [|discriminate].
      exists items, t, inp. split; [exact Hread|].
      split; [exact Ht|]. split; [exact Hi|].
      destruct (py_str t) as [tool_text|e1] eqn:Hstr.
      * destruct (py_str inp) as [tool_input|e2] eqn:Hstr'.
        -- destruct (truthy (strip tool_text)); discriminate.
        -- injection H as <-. apply py_str_error in Hstr'.
           destruct Hstr' as [-> Hraises].
           split; [now right|]. split; [reflexivity|].
           rewrite Hraises. apply orb_true_r.
      * injection H as <-. apply py_str_error in Hstr.
        destruct Hstr as [-> Hraises].
        split; [now left|]. split; [reflexivity|]. now rewrite Hraises.
    + congruence.
    + assert (e' = e) as -> by congruence.
      destruct Hwhy as [Hj | Hl]; [now left | right; now left].
  - intros (Hne & [[Hj He] | [(e0 & Hj & He0 & Hl & He)
                              | (items & t & inp & Hread & Ht & Hi & Hstr
                                 & _ & _)]]).
    + destruct text; [congruence|].
      unfold _parse_tool_request. cbn [truthy negb]. now rewrite Hj, He.
    + destruct text; [congruence|].
      unfold _parse_tool_request. cbn [truthy negb].
      now rewrite Hj, He0, Hl, He.
    + assert (truthy text = true) as Htext by (now destruct text).
      rewrite (parse_reads _ _ Htext Hread), Ht, Hi.
      destruct (py_str t) as [tool_text|e1] eqn:Hstr1.
      * destruct Hstr as [Hstr | Hstr]; [discriminate|]. now rewrite Hstr.
      * destruct Hstr as [Hstr | Hstr]; [congruence|].
        apply py_str_error in Hstr1. apply py_str_error in Hstr.
        destruct Hstr1 as [-> _]. now destruct Hstr as [-> _].
Qed.

End ParserFurther.

(** ** Further facts: the runs of the tool loop *)

Section LoopRuns.

Context {lib : PyLib} {World : Type} {llm : HelloAgentsLLM World}.

Variables (ex : Executor (World:=World)) (te : ToolExecutor World)
          (i : Z) (step : pystr).

Hypothesis Hbound : tool_executor ex = Some te.

(** Every result of the loop function is a run of the loop. *)
Lemma tool_loop_runs (fuel : nat) :
  forall (ls : loop_state) (w w' : World) (out : outcome loop_state)
         (evs : list event),
  (remaining ex ls <= fuel)%nat ->
  tool_loop fuel ex i step ls w = (out, w', evs) ->
  loop_trace ex te i step ls w out w' evs.
Proof.
  induction fuel as [|fuel IH]; intros ls w w' out evs Hfuel H.
  - assert (max_tool_iterations ex <= tool_iterations ls)%Z as Hmax
      by (unfold remaining in Hfuel; lia).
    rewrite (tool_loop_exhausted _ _ _ _ _ _ Hmax) in H.
    injection H as <- <- <-. now constructor.
  - destruct (Z.lt_ge_cases (tool_iterations ls) (max_tool_iterations ex))
      as [Hlt|Hge].
    2:{ rewrite (tool_loop_exhausted _ _ _ _ _ _ Hge) in H.
        injection H as <- <- <-. now constructor. }
    rewrite (tool_loop_step _ _ _ _ _ _ _ Hbound Hlt) in H.
    assert (Hnext : forall name obs reply,
               (remaining ex (resolved i step ls name obs reply) <= fuel)%nat)
      by (intros; unfold remaining in *; cbn; lia).
    destruct (_parse_tool_request (response_text ls)) as [[req|]|e] eqn:Hp.
    + destruct (getTool te (req_tool req)) as [f|] eqn:Hg.
      * destruct (f (req_input req) w) as [[observation|e] w1] eqn:Hf.
        -- destruct (llm_think
                       (messages ls
                        ++ [Message user
                              (tool_output_message (req_tool req)
                                 observation)]) w1) as [reply w2] eqn:Ht.
           rewrite (tool_iteration_observed _ _ _ _ _ _ _ _ _ _ _
                      Hp Hg Hf Ht) in H.
           destruct (tool_loop fuel ex i step
                       (resolved i step ls (req_tool req) observation reply)
                       w2) as [[o2 w3] evs2] eqn:Hrest.
           injection H as <- <- <-.
           eapply loop_observed; eauto.
        -- rewrite (tool_iteration_fault _ _ _ _ _ _ _ _ _ Hp Hg Hf) in H.
           injection H as <- <- <-. eapply loop_tool_fault; eauto.
      * destruct (llm_think
                    (messages ls
                     ++ [Message user
                           (tool_output_message (req_tool req)
                              (unregistered_message (req_tool req)))]) w)
          as [reply w1] eqn:Ht.
        rewrite (tool_iteration_unregistered _ _ _ _ _ _ _ _ Hp Hg Ht) in H.
        destruct (tool_loop fuel ex i step
                    (resolved i step ls (req_tool req)
                       (unregistered_message (req_tool req)) reply) w1)
          as [[o2 w2] evs2] eqn:Hrest.
        injection H as <- <- <-.
        eapply loop_unregistered; eauto.
    + rewrite (tool_iteration_break _ _ _ _ _ Hp) in H.
      injection H as <- <- <-. now apply loop_break.
    + rewrite (tool_iteration_error _ _ _ _ _ _ Hp) in H.
      injection H as <- <- <-. now apply loop_parse_error.
Qed.

(** In a run of the loop a callable is invoked after a successful lookup
    only, and the lookups report what the registry holds. *)
Lemma loop_trace_tool_use (ls : loop_state) (w w' : World)
    (out : outcome loop_state) (evs : list event) :
  loop_trace ex te i step ls w out w' evs ->
  (tool_calls evs <= tool_lookups evs)%nat /\ Forall (agrees_with te) evs.
Proof.
  induction 1 as [ | | | ls w w1 req f e Hlt Hp Hg Hf
                   | ls w w1 w2 w3 req f obs reply out evs Hlt Hp Hg Hf Ht _ IH
                   | ls w w1 w2 req reply out evs Hlt Hp Hg Ht _ IH ].
  - split; [cbn; lia | constructor].
  - split; [cbn; lia | constructor].
  - split; [cbn; lia | constructor].
  - split; [cbn; lia|].
    constructor; [cbn; now rewrite Hg|].
    constructor; [cbn; now rewrite Hg | constructor].
  - destruct IH as [Hc Hall]. split.
    + unfold tool_calls, tool_lookups in *. cbn. lia.
    + cbn [app]. constructor; [cbn; now rewrite Hg|].
      constructor; [cbn; now rewrite Hg|].
      constructor; [exact I | exact Hall].
  - destruct IH as [Hc Hall]. split.
    + unfold tool_calls, tool_lookups in *. cbn. lia.
    + cbn [app]. constructor; [cbn; now rewrite Hg|].
      constructor; [exact I | exact Hall].
Qed.

(** In a run of the loop every lookup is for the request parsed from
    the completion received last, a lookup that found the tool is
    followed at once by its invocation on the input of that request, and
    no tool is invoked otherwise. *)
Lemma loop_trace_sequenced (ls : loop_state) (w w' : World)
    (out : outcome loop_state) (evs : list event) :
  loop_trace ex te i step ls w out w' evs ->
  calls_follow_lookups evs = true
  /\ calls_follow_requests (response_text ls) evs.
Proof.
  induction 1 as [ | | | ls w w1 req f e Hlt Hp Hg Hf
                   | ls w w1 w2 w3 req f obs reply out evs Hlt Hp Hg Hf Ht _ IH
                   | ls w w1 w2 req reply out evs Hlt Hp Hg Ht _ IH ].
  - now split.
  - now split.
  - now split.
  - split.
    + cbn [calls_follow_lookups]. now rewrite eqb_refl.
    + cbn [calls_follow_requests]. split; [now exists req|].
      split; [now exists req | exact I].
  - destruct IH as [Hseq Hreq]. split.
    + cbn [app calls_follow_lookups]. now rewrite eqb_refl.
    + cbn [app calls_follow_requests]. split; [now exists req|].
      split; [now exists req | exact Hreq].
  - destruct IH as [Hseq Hreq]. split.
    + cbn [app calls_follow_lookups]. exact Hseq.
    + cbn [app calls_follow_requests]. split; [now exists req | exact Hreq].
Qed.

(** A fault of a tool ends the run of the loop at once, with the
    exception of the tool; and the loop raises for no other reason than
    such a fault or an exception of the parser on the completion it
    received last. *)
Lemma loop_trace_raises (ls : loop_state) (w w' : World)
    (out : outcome loop_state) (evs : list event) :
  loop_trace ex te i step ls w out w' evs ->
  (no_tool_fault evs = false ->
   exists front name input e,
     evs = front ++ [EvToolCall name input (Fault e)]
     /\ no_tool_fault front = true /\ out = Raise e)
  /\ (forall e, out = Raise e ->
        no_tool_fault evs = false
        \/ _parse_tool_request (last (replies evs) (response_text ls))
           = Error e).
Proof.
  induction 1 as [ | | | ls w w1 req f e Hlt Hp Hg Hf
                   | ls w w1 w2 w3 req f obs reply out evs Hlt Hp Hg Hf Ht _ IH
                   | ls w w1 w2 req reply out evs Hlt Hp Hg Ht _ IH ].
  - split; [discriminate|]. intros e He. discriminate.
  - split; [discriminate|]. intros e He. discriminate.
  - split; [discriminate|]. intros e' He. injection He as <-. now right.
  - split.
    + intros _. exists [EvGetTool (req_tool req) true], (req_tool req),
        (req_input req), e. now repeat split.
    + intros e' _. now left.
  - destruct IH as [IHf IHr]. split.
    + intros Hnf. cbn in Hnf. destruct (IHf Hnf)
        as (front & n & inp & e & -> & Hfront & ->).
      eexists (_ :: _ :: _ :: front), n, inp, e.
      split; [reflexivity|]. split; [exact Hfront | reflexivity].
    + intros e He. destruct (IHr e He) as [Hnf | Hparse]; [now left|].
      right. rewrite replies_app. cbn [replies flat_map app].
      change (flat_map _ evs) with (replies evs).
      rewrite last_cons_default. exact Hparse.
  - destruct IH as [IHf IHr]. split.
    + intros Hnf. cbn in Hnf. destruct (IHf Hnf)
        as (front & n & inp & e & -> & Hfront & ->).
      eexists (_ :: _ :: front), n, inp, e.
      split; [reflexivity|]. split; [exact Hfront | reflexivity].
    + intros e He. destruct (IHr e He) as [Hnf | Hparse]; [now left|].
      right. rewrite replies_app. cbn [replies flat_map app].
      change (flat_map _ evs) with (replies evs).
      rewrite last_cons_default. exact Hparse.
Qed.

(** The conversations of a run of the loop are chained. *)
Lemma loop_trace_chained (ls : loop_state) (w w' : World)
    (out : outcome loop_state) (evs : list event) :
  loop_trace ex te i step ls w out w' evs ->
  forall (msgs : list message) (reply : option pystr),
  messages ls = msgs ++ [Message assistant (or_empty reply)] ->
  chained msgs reply (thinks evs).
Proof.
  induction 1 as [ | | | ls w w1 req f e Hlt Hp Hg Hf
                   | ls w w1 w2 w3 req f obs reply out evs Hlt Hp Hg Hf Ht _ IH
                   | ls w w1 w2 req reply out evs Hlt Hp Hg Ht _ IH ];
    intros msgs reply0 Hmsgs; try exact I.
  - cbn. split.
    + exists (req_tool req), obs. rewrite Hmsgs. now rewrite <- app_assoc.
    + apply IH. reflexivity.
  - cbn. split.
    + exists (req_tool req), (unregistered_message (req_tool req)).
      rewrite Hmsgs. now rewrite <- app_assoc.
    + apply IH. reflexivity.
Qed.

End LoopRuns.

(** ** Further properties: one step *)

Section StepFurther.

Context {lib : PyLib} {World : Type} {llm : HelloAgentsLLM World}.

Variables (ex : Executor (World:=World)) (question : pystr)
          (plan : list pystr) (i : Z) (step : pystr) (hist : pystr).

(** X6.  In every step each lookup in the registry is for the tool
    named in the request parsed from the completion received last before
    it; a lookup that finds the tool is followed at once by one
    invocation of that tool, on the input of that request, and a tool is
    invoked nowhere else, so never before its lookup and never for a name
    that is not registered.  The lookups report what the registry
    holds, and there are at most [max_tool_iterations] of them, none when
    the budget is zero or negative. *)
Theorem step_tool_use
    (w w' : World) (out : outcome (pystr * pystr)) (evs : list event) :
  execute_step ex question plan i step hist w = (out, w', evs) ->
  calls_follow_lookups evs = true
  /\ (forall response, calls_follow_requests response evs)
  /\ (tool_calls evs <= tool_lookups evs)%nat
  /\ (tool_lookups evs <= Z.to_nat (max_tool_iterations ex))%nat
  /\ ((max_tool_iterations ex <= 0)%Z -> tool_lookups evs = 0%nat)
  /\ forall te, tool_executor ex = Some te -> Forall (agrees_with te) evs.
Proof.
  intros H.
  destruct (llm_think [Message user (step_prompt ex question plan hist step)]
              w) as [reply w1] eqn:Ht.
  rewrite (execute_step_unfold _ _ _ _ _ _ _ _ _ Ht) in H.
  set (ls0 := initial_state (step_prompt ex question plan hist step)
                reply hist) in *.
  destruct (tool_loop (Z.to_nat (max_tool_iterations ex)) ex i step ls0 w1)
    as [[o w2] evs2] eqn:Hloop.
  assert (Hfuel : (remaining ex ls0 <= Z.to_nat (max_tool_iterations ex))%nat)
    by (unfold remaining; cbn; lia).
  assert (Hevs : evs = EvThink
                         [Message user
                            (step_prompt ex question plan hist step)] reply
                         :: evs2)
    by (destruct o; injection H as _ _ <-; reflexivity).
  destruct (tool_loop_events ex i step _ ls0 w1 w2 o evs2 Hfuel Hloop)
    as (_ & Hlook & _).
  assert (Hrem : remaining ex ls0 = Z.to_nat (max_tool_iterations ex))
    by (unfold remaining; cbn; now rewrite Z.sub_0_r).
  rewrite Hrem in Hlook.
  assert (Hl : tool_lookups evs = tool_lookups evs2) by (now rewrite Hevs).
  assert (Hc : tool_calls evs = tool_calls evs2) by (now rewrite Hevs).
  assert (Hcalls : (tool_calls evs2 <= tool_lookups evs2)%nat
                   /\ (forall te, tool_executor ex = Some te ->
                                  Forall (agrees_with te) evs2)
                   /\ calls_follow_lookups evs2 = true
                   /\ calls_follow_requests (or_empty reply) evs2).
  { destruct (tool_executor ex) as [te|] eqn:Hte.
    - apply (tool_loop_runs ex te i step Hte) in Hloop; [|exact Hfuel].
      pose proof (loop_trace_sequenced ex te i step _ _ _ _ _ Hloop)
        as [Hseq Hreq].
      apply loop_trace_tool_use in Hloop. destruct Hloop as [Hle Hall].
      split; [exact Hle|]. split; [|now split].
      intros te' Hte'. now injection Hte' as <-.
    - rewrite (tool_loop_no_registry ex i step _ ls0 w1 Hte) in Hloop.
      injection Hloop as _ _ <-. split; [cbn; lia|].
      split; [discriminate | now split]. }
  destruct Hcalls as (Hle & Hall & Hseq & Hreq).
  split; [now rewrite Hevs|]. split; [intros response; now rewrite Hevs|].
  split; [lia|]. split; [lia|]. split; [lia|].
  intros te Hte. rewrite Hevs. constructor; [exact I | now apply Hall].
Qed.

(** X7.  A fault of a tool callable ends the step at once: the call
    that raised is the last event of the step, no call of the engine
    follows it, and the step raises the exception of the tool.  A step
    raises for no other reason than such a fault or an exception of the
    parser on the last completion received. *)
Theorem step_raises
    (w w' : World) (out : outcome (pystr * pystr)) (evs : list event) :
  execute_step ex question plan i step hist w = (out, w', evs) ->
  (no_tool_fault evs = false ->
   exists front name input e,
     evs = front ++ [EvToolCall name input (Fault e)]
     /\ no_tool_fault front = true /\ out = Raise e)
  /\ (forall e, out = Raise e ->
        no_tool_fault evs = false
        \/ _parse_tool_request (last (replies evs) empty) = Error e).
Proof.
  intros H.
  destruct (llm_think [Message user (step_prompt ex question plan hist step)]
              w) as [reply w1] eqn:Ht.
  rewrite (execute_step_unfold _ _ _ _ _ _ _ _ _ Ht) in H.
  set (ls0 := initial_state (step_prompt ex question plan hist step)
                reply hist) in *.
  destruct (tool_loop (Z.to_nat (max_tool_iterations ex)) ex i step ls0 w1)
    as [[o w2] evs2] eqn:Hloop.
  assert (Hfuel : (remaining ex ls0 <= Z.to_nat (max_tool_iterations ex))%nat)
    by (unfold remaining; cbn; lia).
  destruct (tool_executor ex) as [te|] eqn:Hte.
  - apply (tool_loop_runs ex te i step Hte) in Hloop; [|exact Hfuel].
    apply loop_trace_raises in Hloop. destruct Hloop as [Hfault Hraise].
    split.
    + intros Hnf.
      assert (Hnf2 : no_tool_fault evs2 = false)
        by (destruct o; injection H as _ _ <-; exact Hnf).
      destruct (Hfault Hnf2) as (front & n & inp & e & -> & Hfront & ->).
      injection H as <- _ <-.
      now exists (EvThink
                    [Message user (step_prompt ex question plan hist step)]
                    reply :: front), n, inp, e.
    + intros e He. destruct o as [ls|e'|];
        injection H as <- _ <-; try discriminate.
      injection He as <-.
      destruct (Hraise e' eq_refl) as [Hnf | Hparse]; [now left|right].
      cbn [replies flat_map app]. change (flat_map _ evs2) with (replies evs2).
      rewrite last_cons_default. exact Hparse.
  - rewrite (tool_loop_no_registry ex i step _ ls0 w1 Hte) in Hloop.
    injection Hloop as <- _ <-. injection H as <- _ <-.
    split; [discriminate|]. intros e He. discriminate.
Qed.

End StepFurther.

(** ** Further properties: the conversations of a step *)

Section Conversations.

Context {lib : PyLib} {World : Type} {llm : HelloAgentsLLM World}.

(** Two more turns keep the roles alternating. *)
Lemma alternates_two_more (msgs : list message) (a b : pystr) :
  forall r : role,
  alternates r msgs = true ->
  (Nat.odd (List.length msgs) = true ->
   alternates r (msgs ++ [Message (other r) a; Message r b]) = true)
  /\ (Nat.even (List.length msgs) = true ->
      alternates r (msgs ++ [Message r a; Message (other r) b]) = true).
Proof.
  induction msgs as [|m msgs IH]; intros r Halt.
  - split; [discriminate|]. intros _. now destruct r.
  - cbn [alternates] in Halt. cbn [List.length app alternates].
    rewrite Nat.odd_succ, Nat.even_succ.
    destruct r, (msg_role m); try discriminate.
    + destruct (IH assistant Halt) as [Hodd Heven]. split.
      * intros He. now apply Heven.
      * intros Ho. now apply Hodd.
    + destruct (IH user Halt) as [Hodd Heven]. split.
      * intros He. now apply Heven.
      * intros Ho. now apply Hodd.
Qed.

(** Chained conversations alternate and end with a user turn, when the
    first does. *)
Lemma chained_alternates (rest : list (list message * option pystr)) :
  forall (msgs : list message) (reply : option pystr),
  chained msgs reply rest ->
  alternates user msgs = true ->
  Nat.odd (List.length msgs) = true ->
  Forall (fun c => alternates user (fst c) = true
                   /\ Nat.odd (List.length (fst c)) = true) rest.
Proof.
  induction rest as [|[msgs' reply'] rest IH]; intros msgs reply Hch Ha Ho;
    [constructor|].
  destruct Hch as [(name & obs & ->) Hrest].
  assert (Ha' : alternates user
                  (msgs ++ [Message assistant (or_empty reply);
                            Message user (tool_output_message name obs)])
                = true)
    by (now apply (alternates_two_more msgs _ _ user Ha)).
  assert (Ho' : Nat.odd
                  (List.length
                     (msgs ++ [Message assistant (or_empty reply);
                               Message user (tool_output_message name obs)]))
                = true).
  { rewrite length_app. cbn [List.length].
    replace (List.length msgs + 2)%nat with (S (S (List.length msgs)))
      by lia.
    now rewrite Nat.odd_succ, Nat.even_succ. }
  constructor; [now split|]. exact (IH _ reply' Hrest Ha' Ho').
Qed.

(** X8.  The conversations a step sends to the engine: the first is the
    prompt of the step alone, as one user turn; each later one is the
    conversation before it, followed by the completion that answered it
    as an assistant turn and by one tool output as a user turn.  So the
    roles alternate in every conversation, which starts and ends with a
    user turn. *)
Theorem step_conversations
    (ex : Executor (World:=World)) (question : pystr) (plan : list pystr)
    (i : Z) (step hist : pystr)
    (w w' : World) (out : outcome (pystr * pystr)) (evs : list event) :
  execute_step ex question plan i step hist w = (out, w', evs) ->
  exists reply rest,
    thinks evs
    = ([Message user (step_prompt ex question plan hist step)], reply) :: rest
    /\ chained [Message user (step_prompt ex question plan hist step)]
         reply rest
    /\ Forall (fun c => alternates user (fst c) = true
                        /\ Nat.odd (List.length (fst c)) = true)
         (thinks evs).
Proof.
  intros H.
  destruct (llm_think [Message user (step_prompt ex question plan hist step)]
              w) as [reply w1] eqn:Ht.
  rewrite (execute_step_unfold _ _ _ _ _ _ _ _ _ Ht) in H.
  set (prompt := step_prompt ex question plan hist step) in *.
  destruct (tool_loop (Z.to_nat (max_tool_iterations ex)) ex i step
              (initial_state prompt reply hist) w1)
    as [[o w2] evs2] eqn:Hloop.
  assert (Hevs : evs = EvThink [Message user prompt] reply :: evs2)
    by (destruct o; injection H as _ _ <-; reflexivity).
  assert (Hch : chained [Message user prompt] reply (thinks evs2)).
  { destruct (tool_executor ex) as [te|] eqn:Hte.
    - apply (tool_loop_runs ex te i step Hte) in Hloop;
        [|unfold remaining; cbn; lia].
      now apply (loop_trace_chained ex te i step _ _ _ _ _ Hloop).
    - rewrite (tool_loop_no_registry ex i step _ _ w1 Hte) in Hloop.
      injection Hloop as _ _ <-. exact I. }
  exists reply, (thinks evs2). rewrite Hevs. split; [reflexivity|].
  split; [exact Hch|]. cbn [thinks flat_map app].
  change (flat_map _ evs2) with (thinks evs2).
  constructor; [now split|].
  now apply (chained_alternates _ _ reply Hch).
Qed.

End Conversations.

(** ** Further facts: a run of steps for any prompt *)

Section StepsWith.

Context {lib : PyLib} {World : Type} {llm : HelloAgentsLLM World}.

Variables (prompt_of : pystr -> pystr -> pystr)
          (ex : Executor (World:=World)).

Lemma last_app_default (l1 l2 : list pystr) (d : pystr) :
  last (l1 ++ l2) d = last l2 (last l1 d).
Proof.
  revert d; induction l1 as [|a l1 IH]; intros d; [reflexivity|].
  cbn [app]. now rewrite !last_cons_default, IH.
Qed.

Lemma step_with_unfold (i : Z) (step hist : pystr) (w w1 : World)
    (reply : option pystr) :
  llm_think [Message user (prompt_of hist step)] w = (reply, w1) ->
  step_with prompt_of ex i step hist w
  = match tool_loop (Z.to_nat (max_tool_iterations ex)) ex i step
            (initial_state (prompt_of hist step) reply hist) w1 with
    | (Ok ls, w2, evs) =>
      (Ok (history ls ++ result_record i step (response_text ls),
           response_text ls),
       w2, EvThink [Message user (prompt_of hist step)] reply :: evs)
    | (Raise e, w2, evs) =>
      (Raise e, w2, EvThink [Message user (prompt_of hist step)] reply :: evs)
    | (OutOfFuel, w2, evs) =>
      (OutOfFuel, w2,
       EvThink [Message user (prompt_of hist step)] reply :: evs)
    end.
Proof.
  intros Ht. unfold step_with, run_step_with, bind, think, ret.
  rewrite Ht. unfold initial_state. cbn [app].
  destruct (tool_loop _ ex i step _ w1) as [[[ls|e|] w2] evs];
    cbn [app]; try reflexivity.
  now rewrite app_nil_r.
Qed.

(** One step, whatever its prompt: its outcome, the numbers of calls,
    its result and what it appends to the history. *)
Lemma step_with_summary (i : Z) (step hist : pystr) (w w' : World)
    (out : outcome (pystr * pystr)) (evs : list event) :
  step_with prompt_of ex i step hist w = (out, w', evs) ->
  out <> OutOfFuel
  /\ (1 <= engine_calls evs <= 1 + Z.to_nat (max_tool_iterations ex))%nat
  /\ (tool_lookups evs <= Z.to_nat (max_tool_iterations ex))%nat
  /\ match out with
     | Ok (h, r) =>
       r = last (replies evs) empty
       /\ exists resolutions,
            h = hist ++ tool_records i step resolutions
                ++ result_record i step r
            /\ List.length resolutions = tool_lookups evs
     | _ => True
     end.
Proof.
  intros H.
  destruct (llm_think [Message user (prompt_of hist step)] w)
    as [reply w1] eqn:Ht.
  rewrite (step_with_unfold _ _ _ _ _ _ Ht) in H.
  set (ls0 := initial_state (prompt_of hist step) reply hist) in *.
  destruct (tool_loop (Z.to_nat (max_tool_iterations ex)) ex i step ls0 w1)
    as [[o w2] evs2] eqn:Hloop.
  assert (Hrem : remaining ex ls0 = Z.to_nat (max_tool_iterations ex))
    by (unfold remaining; cbn; now rewrite Z.sub_0_r).
  assert (Hfuel : (remaining ex ls0 <= Z.to_nat (max_tool_iterations ex))%nat)
    by (rewrite Hrem; lia).
  pose proof (tool_loop_events ex i step _ ls0 w1 w2 o evs2 Hfuel Hloop)
    as (Hcalls & Hlook & Hout).
  rewrite Hrem in Hlook.
  assert (Hevs : evs = EvThink [Message user (prompt_of hist step)] reply
                         :: evs2)
    by (destruct o; injection H as _ _ <-; reflexivity).
  assert (Hc : engine_calls evs = S (engine_calls evs2))
    by (now rewrite Hevs).
  assert (Hl : tool_lookups evs = tool_lookups evs2) by (now rewrite Hevs).
  split; [|split; [lia|split; [lia|]]].
  - destruct o; [| |contradiction]; injection H as <- _ _; discriminate.
  - destruct o as [ls|e|]; [|injection H as <- _ _; exact I|contradiction].
    injection H as <- _ _.
    destruct Hout as (_ & _ & Hresp & rs & Hhist & Hlen). split.
    + rewrite Hresp, Hevs. cbn [replies flat_map app].
      change (flat_map _ evs2) with (replies evs2).
      now rewrite last_cons_default.
    + exists rs. split; [|now rewrite Hl].
      rewrite Hhist. cbn [history initial_state ls0].
      now rewrite <- app_assoc.
Qed.

(** A run of steps, whatever the prompts: its outcome, the numbers of
    calls, its answer and the history it writes. *)
Lemma steps_with_summary (steps : list pystr) :
  forall (i : Z) (hist final_answer : pystr) (w w' : World)
         (out : outcome (pystr * pystr)) (evs : list event),
  steps_with prompt_of ex i steps hist final_answer w = (out, w', evs) ->
  out <> OutOfFuel
  /\ (engine_calls evs
      <= List.length steps * (1 + Z.to_nat (max_tool_iterations ex)))%nat
  /\ (tool_lookups evs
      <= List.length steps * Z.to_nat (max_tool_iterations ex))%nat
  /\ match out with
     | Ok (h, a) =>
       (List.length steps <= engine_calls evs)%nat
       /\ a = last (replies evs) final_answer
       /\ exists blocks,
            List.length blocks = List.length steps
            /\ h = hist ++ run_history i steps blocks
            /\ a = last (map snd blocks) final_answer
            /\ list_sum (map (fun b => List.length (fst b)) blocks)
               = tool_lookups evs
     | _ => True
     end.
Proof.
  induction steps as [|step rest IH];
    intros i hist fa w w' out evs H.
  - injection H as <- _ <-. split; [discriminate|].
    cbn. repeat split; try lia. exists []. cbn.
    now rewrite app_nil_r.
  - cbn [steps_with] in H. unfold bind in H.
    destruct (step_with prompt_of ex i step hist w)
      as [[o1 w1] evs1] eqn:Hstep.
    apply step_with_summary in Hstep.
    destruct Hstep as (Hfuel1 & Hcalls1 & Hlook1 & Hout1).
    cbn [List.length].
    destruct o1 as [[h1 r1]|e|]; [| |contradiction].
    + destruct (steps_with prompt_of ex (i + 1) rest (fst (h1, r1))
                  (snd (h1, r1)) w1) as [[o2 w2] evs2] eqn:Hrest.
      apply IH in Hrest. destruct Hrest as (Hfuel2 & Hcalls2 & Hlook2 & Hout2).
      injection H as <- _ <-.
      rewrite engine_calls_app, tool_lookups_app.
      split; [exact Hfuel2|]. split; [nia|]. split; [nia|].
      destruct o2 as [[h2 a2]| |]; [|exact I|exact I].
      destruct Hout1 as (Hr1 & rs & Hh1 & Hlen1).
      destruct Hout2 as (Hmin & Ha2 & blocks & Hlen & Hh2 & Hlast & Hsum).
      cbn [fst snd] in *.
      split; [lia|]. split.
      * rewrite replies_app, last_app_default, Ha2. f_equal.
        rewrite Hr1. destruct (replies evs1) as [|x l] eqn:E.
        -- unfold engine_calls in Hcalls1. rewrite E in Hcalls1.
           cbn in Hcalls1. lia.
        -- now rewrite !last_cons_default.
      * exists ((rs, r1) :: blocks). cbn [List.length map snd fst].
        split; [now rewrite Hlen|]. split.
        -- rewrite Hh2, Hh1. cbn [run_history]. now rewrite <- !app_assoc.
        -- split; [now rewrite last_cons_default|].
           unfold list_sum in *. cbn [map fold_right fst]. lia.
    + injection H as <- _ <-. split; [discriminate|].
      split; [nia|]. split; [nia|]. exact I.
Qed.

End StepsWith.

(** ** Further properties: a whole plan *)

Section RunFurther.

Context {lib : PyLib} {World : Type} {llm : HelloAgentsLLM World}.

Variables (ex : Executor (World:=World)) (question : pystr)
          (plan : list pystr).

(** The [for] loop of [execute] is the run of steps under the prompt of
    [execute]. *)
Lemma execute_steps_with (steps : list pystr) :
  forall (i : Z) (hist final_answer : pystr) (w : World),
  execute_steps ex question plan i steps hist final_answer w
  = steps_with (step_prompt ex question plan) ex i steps hist final_answer w.
Proof.
  induction steps as [|step rest IH]; intros i hist fa w; [reflexivity|].
  cbn [execute_steps steps_with]. unfold bind.
  change (execute_step ex question plan i step hist w)
    with (step_with (step_prompt ex question plan) ex i step hist w).
  destruct (step_with (step_prompt ex question plan) ex i step hist w)
    as [[[r|e|] w1] evs1]; try reflexivity.
  now rewrite IH.
Qed.

(** X9.  A run of [execute] returns or raises (the model never runs out
    of fuel).  It calls the engine at most [1 + max_tool_iterations]
    times for each step of the plan, and looks up a tool at most
    [max_tool_iterations] times for each step, a zero or negative budget
    counting as zero; when it returns, it has called the engine at least
    once for each step. *)
Theorem execute_calls_bounded
    (w w' : World) (out : outcome pystr) (evs : list event) :
  execute ex question plan w = (out, w', evs) ->
  out <> OutOfFuel
  /\ (engine_calls evs
      <= List.length plan * (1 + Z.to_nat (max_tool_iterations ex)))%nat
  /\ (tool_lookups evs
      <= List.length plan * Z.to_nat (max_tool_iterations ex))%nat
  /\ (forall answer, out = Ok answer ->
        (List.length plan <= engine_calls evs)%nat).
Proof.
  intros H. unfold execute, bind in H.
  rewrite execute_steps_with in H.
  destruct (steps_with (step_prompt ex question plan) ex 1 plan empty empty w)
    as [[o w1] evs1] eqn:Hrun.
  apply steps_with_summary in Hrun.
  destruct Hrun as (Hfuel & Hcalls & Hlook & Hout).
  destruct o as [[h a]|e|]; [| |contradiction].
  - injection H as <- _ <-. rewrite app_nil_r.
    split; [discriminate|]. split; [exact Hcalls|]. split; [exact Hlook|].
    intros answer _. now destruct Hout as [Hmin _].
  - injection H as <- _ <-.
    split; [discriminate|]. split; [exact Hcalls|]. split; [exact Hlook|].
    intros answer Habs. discriminate.
Qed.

(** X10.  The answer [execute] returns is the last completion the engine
    gave in the run, as the program read it; for an empty plan it is the
    empty string, and no call is made. *)
Theorem execute_returns_last_completion
    (w w' : World) (answer : pystr) (evs : list event) :
  execute ex question plan w = (Ok answer, w', evs) ->
  answer = last (replies evs) empty
  /\ (plan = [] -> evs = [] /\ answer = empty /\ w' = w).
Proof.
  intros H. split.
  - unfold execute, bind in H. rewrite execute_steps_with in H.
    destruct (steps_with (step_prompt ex question plan) ex 1 plan empty
                empty w) as [[o w1] evs1] eqn:Hrun.
    apply steps_with_summary in Hrun.
    destruct Hrun as (_ & _ & _ & Hout).
    destruct o as [[h a]|e|]; [|discriminate|discriminate].
    injection H as <- _ <-. rewrite app_nil_r.
    now destruct Hout as (_ & Ha & _).
  - intros ->. cbn in H. injection H as <- <- <-. now repeat split.
Qed.

(** X11.  The history the [for] loop of [execute] writes: what was there
    before, then for each step in the order of the plan, numbered one by
    one from the index of the first, the records of its tool resolutions
    and its terminal record; the answer is the result in the last
    terminal record, and there is one tool record for each lookup. *)
Theorem execute_writes_numbered_history
    (steps : list pystr) (i : Z) (hist final_answer hist' answer : pystr)
    (w w' : World) (evs : list event) :
  execute_steps ex question plan i steps hist final_answer w
    = (Ok (hist', answer), w', evs) ->
  exists blocks,
    List.length blocks = List.length steps
    /\ hist' = hist ++ run_history i steps blocks
    /\ answer = last (map snd blocks) final_answer
    /\ list_sum (map (fun b => List.length (fst b)) blocks)
       = tool_lookups evs.
Proof.
  intros H. rewrite execute_steps_with in H.
  apply steps_with_summary in H.
  now destruct H as (_ & _ & _ & _ & _ & Hblocks).
Qed.

End RunFurther.

(** ** Further properties: exceptions in a run *)

Section RaiseFurther.

Context {lib : PyLib} {World : Type} {llm : HelloAgentsLLM World}.

Variables (prompt_of : pystr -> pystr -> pystr)
          (ex : Executor (World:=World)).

Lemma last_nonempty (l : list pystr) (d d' : pystr) :
  l <> [] -> last l d = last l d'.
Proof.
  destruct l as [|a l]; [congruence|]. intros _.
  now rewrite !last_cons_default.
Qed.

(** One step, whatever its prompt: how it raises. *)
Lemma step_with_raises (i : Z) (step hist : pystr) (w w' : World)
    (out : outcome (pystr * pystr)) (evs : list event) :
  step_with prompt_of ex i step hist w = (out, w', evs) ->
  (no_tool_fault evs = false ->
   exists front name input e,
     evs = front ++ [EvToolCall name input (Fault e)]
     /\ no_tool_fault front = true /\ out = Raise e)
  /\ (forall e, out = Raise e ->
        no_tool_fault evs = false
        \/ _parse_tool_request (last (replies evs) empty) = Error e).
Proof.
  intros H.
  destruct (llm_think [Message user (prompt_of hist step)] w)
    as [reply w1] eqn:Ht.
  rewrite (step_with_unfold prompt_of ex i step hist w w1 reply Ht) in H.
  set (ls0 := initial_state (prompt_of hist step) reply hist) in *.
  destruct (tool_loop (Z.to_nat (max_tool_iterations ex)) ex i step ls0 w1)
    as [[o w2] evs2] eqn:Hloop.
  assert (Hfuel : (remaining ex ls0 <= Z.to_nat (max_tool_iterations ex))%nat)
    by (unfold remaining; cbn; lia).
  destruct (tool_executor ex) as [te|] eqn:Hte.
  - apply (tool_loop_runs ex te i step Hte) in Hloop; [|exact Hfuel].
    apply loop_trace_raises in Hloop. destruct Hloop as [Hfault Hraise].
    split.
    + intros Hnf.
      assert (Hnf2 : no_tool_fault evs2 = false)
        by (destruct o; injection H as _ _ <-; exact Hnf).
      destruct (Hfault Hnf2) as (front & n & inp & e & -> & Hfront & ->).
      injection H as <- _ <-.
      now exists (EvThink [Message user (prompt_of hist step)] reply
                    :: front), n, inp, e.
    + intros e He. destruct o as [ls|e'|];
        injection H as <- _ <-; try discriminate.
      injection He as <-.
      destruct (Hraise e' eq_refl) as [Hnf | Hparse]; [now left|right].
      cbn [replies flat_map app]. change (flat_map _ evs2) with (replies evs2).
      rewrite last_cons_default. exact Hparse.
  - rewrite (tool_loop_no_registry ex i step _ ls0 w1 Hte) in Hloop.
    injection Hloop as <- _ <-. injection H as <- _ <-.
    split; [discriminate|]. intros e He. discriminate.
Qed.

(** A run of steps, whatever the prompts: how it raises. *)
Lemma steps_with_raises (steps : list pystr) :
  forall (i : Z) (hist final_answer : pystr) (w w' : World)
         (out : outcome (pystr * pystr)) (evs : list event),
  steps_with prompt_of ex i steps hist final_answer w = (out, w', evs) ->
  (no_tool_fault evs = false ->
   exists front name input e,
     evs = front ++ [EvToolCall name input (Fault e)]
     /\ no_tool_fault front = true /\ out = Raise e)
  /\ (forall e, out = Raise e ->
        no_tool_fault evs = false
        \/ _parse_tool_request (last (replies evs) final_answer) = Error e).
Proof.
  induction steps as [|step rest IH]; intros i hist fa w w' out evs H.
  - injection H as <- _ <-. split; [discriminate|].
    intros e He. discriminate.
  - cbn [steps_with] in H. unfold bind in H.
    destruct (step_with prompt_of ex i step hist w)
      as [[o1 w1] evs1] eqn:Hstep.
    pose proof (step_with_summary prompt_of ex i step hist w w1 o1 evs1 Hstep)
      as (_ & Hcalls & _ & Hlast).
    assert (Hne : replies evs1 <> []).
    { unfold engine_calls in Hcalls. destruct (replies evs1);
        [cbn in Hcalls; lia | discriminate]. }
    apply step_with_raises in Hstep. destruct Hstep as [Hfault1 Hraise1].
    destruct o1 as [[h1 r1]|e1|].
    + assert (Hclean : no_tool_fault evs1 = true).
      { destruct (no_tool_fault evs1) eqn:E; [reflexivity|].
        destruct (Hfault1 eq_refl) as (f0 & n0 & i0 & e0 & _ & _ & Habs).
        discriminate Habs. }
      destruct (steps_with prompt_of ex (i + 1) rest (fst (h1, r1))
                  (snd (h1, r1)) w1) as [[o2 w2] evs2] eqn:Hrest.
      apply IH in Hrest. destruct Hrest as [Hfault2 Hraise2].
      injection H as <- _ <-. rewrite no_tool_fault_app, Hclean.
      cbn [andb]. split.
      * intros Hnf. destruct (Hfault2 Hnf)
          as (front & n & inp & e & -> & Hfront & ->).
        exists (evs1 ++ front), n, inp, e. rewrite app_assoc.
        split; [reflexivity|]. split; [|reflexivity].
        now rewrite no_tool_fault_app, Hclean.
      * intros e He. destruct (Hraise2 e He) as [Hnf | Hparse]; [now left|].
        right. rewrite replies_app, last_app_default.
        rewrite (last_nonempty (replies evs1) fa empty Hne).
        destruct Hlast as [<- _]. exact Hparse.
    + injection H as <- _ <-. split; [exact Hfault1|].
      intros e He. destruct (Hraise1 e He) as [Hnf | Hparse]; [now left|].
      right. now rewrite (last_nonempty (replies evs1) fa empty Hne).
    + injection H as <- _ <-. split; [exact Hfault1|].
      intros e He. discriminate.
Qed.

End RaiseFurther.

Section RunRaises.

Context {lib : PyLib} {World : Type} {llm : HelloAgentsLLM World}.

Variable ex : Executor (World:=World).

(** X15.  A fault of a tool callable ends the whole run: the call that
    raised is the last event of the run, the steps after it are not
    run, and [execute] raises the exception of the tool.  A run raises
    for no other reason than such a fault or an exception of the parser
    on the last completion received. *)
Theorem execute_raises
    (question : pystr) (plan : list pystr)
    (w w' : World) (out : outcome pystr) (evs : list event) :
  execute ex question plan w = (out, w', evs) ->
  (no_tool_fault evs = false ->
   exists front name input e,
     evs = front ++ [EvToolCall name input (Fault e)]
     /\ no_tool_fault front = true /\ out = Raise e)
  /\ (forall e, out = Raise e ->
        no_tool_fault evs = false
        \/ _parse_tool_request (last (replies evs) empty) = Error e).
Proof.
  intros H. unfold execute, bind in H.
  rewrite execute_steps_with in H.
  destruct (steps_with (step_prompt ex question plan) ex 1 plan empty empty w)
    as [[o w1] evs1] eqn:Hrun.
  assert (Hevs : evs = evs1)
    by (destruct o; injection H as _ _ <-; rewrite ?app_nil_r; reflexivity).
  assert (Hout : forall e, out = Raise e <-> o = Raise e).
  { intros e. destruct o; injection H as <- _ _; split; congruence. }
  apply (steps_with_raises (step_prompt ex question plan) ex) in Hrun.
  destruct Hrun as [Hfault Hraise]. rewrite Hevs. split.
  - intros Hnf. destruct (Hfault Hnf) as (front & n & inp & e & -> & Hf & Ho).
    exists front, n, inp, e. split; [reflexivity|]. split; [exact Hf|].
    now apply Hout.
  - intros e He. apply Hraise. now apply Hout.
Qed.

End RunRaises.

(** ** Further properties: the agent *)

Section AgentProperties.

Context {lib : PyLib} {World : Type} {llm : HelloAgentsLLM World}
        {tools : ToolsModule World}.

(** Runs of steps under prompts that agree are the same. *)
Lemma steps_with_ext (f g : pystr -> pystr -> pystr)
    (ex : Executor (World:=World)) (steps : list pystr) :
  (forall hist step, f hist step = g hist step) ->
  forall (i : Z) (hist final_answer : pystr) (w : World),
  steps_with f ex i steps hist final_answer w
  = steps_with g ex i steps hist final_answer w.
Proof.
  intros Hfg. induction steps as [|step rest IH]; intros i hist fa w;
    [reflexivity|].
  cbn [steps_with]. unfold bind.
  assert (Hstep : step_with f ex i step hist w = step_with g ex i step hist w)
    by (unfold step_with, run_step_with; now rewrite Hfg).
  rewrite Hstep.
  destruct (step_with g ex i step hist w) as [[[r|e|] w1] evs1];
    try reflexivity.
  now rewrite IH.
Qed.

(** Where [str] returns on the plan, it returns on every step, and the
    run is a run of steps on the texts. *)
Lemma value_steps_text
    (ex : Executor (World:=World)) (question : pystr) (p : list pyvalue)
    (plan_text : pystr) (steps : list pyvalue) :
  py_str (PyList p) = Value plan_text ->
  (forall v, In v steps -> In v p) ->
  forall (i : Z) (hist final_answer : pystr) (w : World),
  value_steps ex question p i steps hist final_answer w
  = steps_with (values_prompt ex question plan_text) ex i
      (map str_text steps) hist final_answer w.
Proof.
  intros Hplan. induction steps as [|step rest IH];
    intros Hin i hist fa w; [reflexivity|].
  cbn [value_steps steps_with map]. unfold bind.
  assert (Hstep : value_step ex question p i step hist w
                  = step_with (values_prompt ex question plan_text) ex i
                      (str_text step) hist w).
  { unfold value_step, bind, lift. rewrite Hplan.
    rewrite (py_str_elements p plan_text step Hplan (Hin step (or_introl eq_refl))).
    destruct (step_with _ ex i (str_text step) hist w) as [[o w1] evs1].
    reflexivity. }
  rewrite Hstep.
  destruct (step_with _ ex i (str_text step) hist w) as [[[r|e|] w1] evs1];
    try reflexivity.
  rewrite IH; [reflexivity|]. intros v Hv. apply Hin. now right.
Qed.

(** Where [str] raises on the plan, the first step raises before any
    call. *)
Lemma value_steps_raise
    (ex : Executor (World:=World)) (question : pystr) (p : list pyvalue)
    (e : exn) (step : pyvalue) (rest : list pyvalue)
    (i : Z) (hist final_answer : pystr) (w : World) :
  py_str (PyList p) = Error e ->
  value_steps ex question p i (step :: rest) hist final_answer w
  = (Raise e, w, []).
Proof.
  intros Hplan. cbn [value_steps]. unfold bind, value_step, lift.
  now rewrite Hplan.
Qed.

(** On a plan of strings, the executor of the orchestrator is
    [execute]. *)
Lemma execute_values_of_strings
    (ex : Executor (World:=World)) (question : pystr) (plan : list pystr)
    (w : World) :
  execute_values ex question (map PyStr plan) w = execute ex question plan w.
Proof.
  unfold execute_values, execute, bind.
  rewrite (execute_steps_with ex question plan plan 1 empty empty w).
  rewrite (value_steps_text ex question (map PyStr plan) _ (map PyStr plan)
             (py_str_strings plan) (fun v H => H)).
  assert (Hsteps : map str_text (map PyStr plan) = plan).
  { induction plan as [|s l IH]; [reflexivity|]. cbn [map str_text].
    now f_equal. }
  rewrite Hsteps.
  rewrite (steps_with_ext
             (values_prompt ex question (str_text (PyList (map PyStr plan))))
             (step_prompt ex question plan) ex plan); [reflexivity|].
  intros hist step. unfold values_prompt, step_prompt. reflexivity.
Qed.

(** A run of the executor of the orchestrator. *)
Lemma execute_values_summary
    (ex : Executor (World:=World)) (question : pystr) (p : list pyvalue)
    (w w' : World) (out : outcome pystr) (evs : list event) :
  execute_values ex question p w = (out, w', evs) ->
  out <> OutOfFuel
  /\ (engine_calls evs
      <= List.length p * (1 + Z.to_nat (max_tool_iterations ex)))%nat
  /\ (tool_lookups evs
      <= List.length p * Z.to_nat (max_tool_iterations ex))%nat
  /\ (forall a, out = Ok a ->
        a = last (replies evs) empty
        /\ (List.length p <= engine_calls evs)%nat).
Proof.
  intros H. unfold execute_values, bind in H.
  destruct (py_str (PyList p)) as [plan_text|e] eqn:Hplan.
  - rewrite (value_steps_text ex question p plan_text p Hplan
               (fun v Hv => Hv)) in H.
    destruct (steps_with (values_prompt ex question plan_text) ex 1
                (map str_text p) empty empty w) as [[o w1] evs1] eqn:Hrun.
    apply steps_with_summary in Hrun. rewrite length_map in Hrun.
    destruct Hrun as (Hfuel & Hcalls & Hlook & Hout).
    destruct o as [[h a]|e|]; [| |contradiction].
    + injection H as <- _ <-. rewrite app_nil_r.
      split; [discriminate|]. split; [exact Hcalls|]. split; [exact Hlook|].
      intros a' Ha'. injection Ha' as <-.
      destruct Hout as (Hmin & Ha & _). now split.
    + injection H as <- _ <-.
      split; [discriminate|]. split; [exact Hcalls|]. split; [exact Hlook|].
      intros a Ha. discriminate.
  - destruct p as [|step rest].
    + unfold ret in H. cbv beta iota in H. injection H as <- _ <-.
      split; [discriminate|]. split; [cbn; lia|]. split; [cbn; lia|].
      intros a Ha. injection Ha as <-. now split.
    + rewrite (value_steps_raise ex question (step :: rest) e step rest
                 1 empty empty w Hplan) in H.
      injection H as <- _ <-.
      split; [discriminate|].
      split; [change (engine_calls []) with 0%nat; lia|].
      split; [change (tool_lookups []) with 0%nat; lia|].
      intros a Ha. discriminate.
Qed.

(** X12.  Provided that a tool just registered is found under its name,
    the agent built by [__init__], with or without a registry, has an
    executor bound to the agent's registry with a budget of 5, and that
    registry resolves [Search]; a registry given with a tool named
    [Search] is kept as it is, its tool not replaced. *)
Theorem agent_resolves_Search (given : option (ToolExecutor World)) :
  (forall te name description func,
      getTool (registerTool te name description func) name = Some func) ->
  tool_executor (agent_executor (PlanAndSolveAgent_init given))
    = Some (agent_tool_executor (PlanAndSolveAgent_init given))
  /\ max_tool_iterations (agent_executor (PlanAndSolveAgent_init given)) = 5%Z
  /\ getTool (agent_tool_executor (PlanAndSolveAgent_init given))
       (lit "Search") <> None
  /\ (forall te func,
         given = Some te -> getTool te (lit "Search") = Some func ->
         agent_tool_executor (PlanAndSolveAgent_init given) = te).
Proof.
  intros Hlaw. split; [reflexivity|]. split; [reflexivity|]. split.
  - unfold PlanAndSolveAgent_init. cbn [agent_tool_executor].
    destruct given as [te|].
    + destruct (getTool te (lit "Search")) as [f|] eqn:Hg.
      * now rewrite Hg.
      * now rewrite Hlaw.
    + destruct (getTool new_ToolExecutor (lit "Search")) as [f|] eqn:Hg.
      * now rewrite Hg.
      * now rewrite Hlaw.
  - intros te func -> Hg. unfold PlanAndSolveAgent_init.
    cbn [agent_tool_executor]. now rewrite Hg.
Qed.

(** X13.  [run] calls the planner's engine once, and then: on an empty
    plan it reports no answer and makes no other call, the executor is
    not invoked; on a plan that is not empty it runs the executor, whose
    calls follow the planner's, and when the executor returns, the
    report is the last completion of the run.  It never runs out of
    fuel. *)
Theorem run_reports
    (agent : PlanAndSolveAgent) (question : pystr) (w w' : World)
    (out : outcome (option pystr)) (evs : list event) :
  run agent question w = (out, w', evs) ->
  exists (p : list pyvalue) (w1 : World) (reply : option pystr)
         (evs2 : list event),
    plan question w
    = (Ok p, w1,
       [EvThink [Message user (PLANNER_PROMPT_TEMPLATE question)] reply])
    /\ evs = EvThink [Message user (PLANNER_PROMPT_TEMPLATE question)] reply
             :: evs2
    /\ match out with
       | Ok None => p = [] /\ evs2 = [] /\ w' = w1
       | Ok (Some answer) =>
         p <> [] /\ answer = last (replies evs2) empty
         /\ (List.length p <= engine_calls evs2)%nat
       | Raise _ => p <> []
       | OutOfFuel => False
       end.
Proof.
  intros H.
  destruct (llm_think [Message user (PLANNER_PROMPT_TEMPLATE question)] w)
    as [reply w1] eqn:Ht.
  pose proof (plan_result question w w1 reply Ht) as Hplan.
  unfold run, bind in H. rewrite Hplan in H.
  set (p := match plan_try (or_empty reply) with
            | Value p => p
            | Error _ => []
            end) in *.
  destruct p as [|v p'] eqn:Hp.
  - unfold ret in H. cbv beta iota in H. injection H as <- <- <-.
    exists [], w1, reply, []. now repeat split.
  - unfold bind in H.
    destruct (execute_values (agent_executor agent) question (v :: p') w1)
      as [[o w2] evs2] eqn:Hex.
    apply execute_values_summary in Hex.
    destruct Hex as (Hfuel & _ & _ & Hok).
    exists (v :: p'), w1, reply, evs2. split; [exact Hplan|].
    destruct o as [a|e|]; [| |contradiction].
    + injection H as <- _ <-. cbn [app]. rewrite app_nil_r.
      split; [reflexivity|]. destruct (Hok a eq_refl) as [Ha Hmin].
      split; [discriminate|]. now split.
    + injection H as <- _ <-. split; [reflexivity|]. discriminate.
Qed.

(** X14.  A run of an agent built by [__init__], on a plan of [n]
    steps, calls the engine at least once and at most [1 + 6 n] times
    and looks up a tool at most [5 n] times. *)
Theorem run_calls_bounded
    (given : option (ToolExecutor World)) (question : pystr)
    (w w1 w' : World) (p : list pyvalue) (evs1 : list event)
    (out : outcome (option pystr)) (evs : list event) :
  plan question w = (Ok p, w1, evs1) ->
  run (PlanAndSolveAgent_init given) question w = (out, w', evs) ->
  out <> OutOfFuel
  /\ (1 <= engine_calls evs <= 1 + 6 * List.length p)%nat
  /\ (tool_lookups evs <= 5 * List.length p)%nat.
Proof.
  intros Hp H.
  destruct (llm_think [Message user (PLANNER_PROMPT_TEMPLATE question)] w)
    as [reply w0] eqn:Ht.
  rewrite (plan_result question w w0 reply Ht) in Hp.
  injection Hp as Hp <- <-.
  unfold run, bind in H. rewrite (plan_result question w w0 reply Ht), Hp in H.
  destruct p as [|v p'].
  - unfold ret in H. cbv beta iota in H. injection H as <- _ <-.
    split; [discriminate|].
    change (engine_calls _) with 1%nat. change (tool_lookups _) with 0%nat.
    cbn [List.length]. lia.
  - unfold bind in H.
    destruct (execute_values (agent_executor (PlanAndSolveAgent_init given))
                question (v :: p') w0) as [[o w2] evs2] eqn:Hex.
    apply execute_values_summary in Hex.
    destruct Hex as (Hfuel & Hcalls & Hlook & _).
    change (Z.to_nat
              (max_tool_iterations
                 (agent_executor (PlanAndSolveAgent_init given))))
      with 5%nat in *.
    assert (Hevs : evs = EvThink
                           [Message user (PLANNER_PROMPT_TEMPLATE question)]
                           reply :: evs2).
    { destruct o; injection H as _ _ <-; cbn [app];
        rewrite ?app_nil_r; reflexivity. }
    assert (Hc : engine_calls evs = S (engine_calls evs2))
      by (now rewrite Hevs).
    assert (Hl : tool_lookups evs = tool_lookups evs2) by (now rewrite Hevs).
    split; [|lia].
    destruct o; [| |contradiction]; injection H as <- _ _; discriminate.
Qed.

End AgentProperties.

(** ** Concrete runs for the further properties *)

Section FurtherRuns.

Import Script.

(** Witness of X2: the plan read from [plan_response]. *)
Lemma plan_comes_from_a_list_literal_witness :
  exists n block,
    find FENCE_OPEN (or_empty (Some plan_response)) = Some n
    /\ fenced_block (or_empty (Some plan_response)) = Value block
    /\ literal_eval (PyLib:=PyModel.model) (strip block)
       = Value (PyList [PyStr (lit "Do A"); PyStr (lit "Do B")]).
Proof.
  apply (@plan_comes_from_a_list_literal PyModel.model World engine question
           [Some plan_response] [] (Some plan_response)
           [PyStr (lit "Do A"); PyStr (lit "Do B")]
           (snd (plan_on [Some plan_response]))).
  - reflexivity.
  - vm_compute. reflexivity.
  - discriminate.
Defined.

(** Witness of X3: a list of numbers behind a fence that is not closed. *)
Lemma plan_accepts_an_open_fence_witness :
  fst (fst (plan_on [Some open_fence_response])) = Ok [PyInt 1; PyInt 2].
Proof.
  refine (f_equal (fun r => fst (fst r))
            (@plan_accepts_an_open_fence PyModel.model World engine question
               plan_response_pre open_fence_body [PyInt 1; PyInt 2]
               [Some open_fence_response] [] _ _ _ _)).
  - reflexivity.
  - vm_compute. reflexivity.
  - vm_compute. reflexivity.
  - vm_compute. reflexivity.
Defined.

(** Witness of X4: a request whose tool name has blanks around it. *)
Lemma parsed_tool_name_is_trimmed_witness :
  trimmed (lit "Search") /\ strip (lit "Search") = lit "Search".
Proof.
  apply (@parsed_tool_name_is_trimmed PyModel.model
           (tool_request (lit "  Search ") (lit "x"))
           {| req_tool := lit "Search"; req_input := lit "x" |}).
  vm_compute. reflexivity.
Defined.

(** Witness of X6: two lookups, one of them a miss, and one tool call. *)
Lemma step_tool_use_witness :
  calls_follow_lookups (snd two_request_run) = true
  /\ calls_follow_requests (H:=PyModel.model) empty (snd two_request_run)
  /\ (tool_calls (snd two_request_run) <= tool_lookups (snd two_request_run))%nat
  /\ (tool_lookups (snd two_request_run) <= Z.to_nat 2)%nat
  /\ Forall (agrees_with registry) (snd two_request_run).
Proof.
  destruct (@step_tool_use PyModel.model World engine (executor 2) question
              the_plan 1 (lit "Do A") empty two_requests_then_answer
              (snd (fst two_request_run)) (fst (fst two_request_run))
              (snd two_request_run))
    as (Hseq & Hreq & Hcalls & Hlook & _ & Hagree).
  - vm_compute. reflexivity.
  - split; [exact Hseq|]. split; [exact (Hreq empty)|].
    split; [exact Hcalls|]. split; [exact Hlook|].
    apply Hagree. reflexivity.
Defined.

(** Witness of X7: the tool raises, and the step with it. *)
Lemma step_raises_witness :
  exists front name input e,
    snd boom_run = front ++ [EvToolCall name input (Fault e)]
    /\ no_tool_fault front = true /\ fst (fst boom_run) = Raise e.
Proof.
  destruct (@step_raises PyModel.model World engine (faulty_executor 5)
              question the_plan 1 (lit "Do A") empty
              [Some (tool_request (lit "Boom") (lit "x"));
               Some (lit "ANSWER")]
              (snd (fst boom_run)) (fst (fst boom_run)) (snd boom_run))
    as (Hfault & _).
  - vm_compute. reflexivity.
  - apply Hfault. vm_compute. reflexivity.
Defined.

(** Witness of X15: the tool raises in the second step of the plan, and
    the run with it. *)
Lemma execute_raises_witness :
  exists front name input e,
    snd boom_execute = front ++ [EvToolCall name input (Fault e)]
    /\ no_tool_fault front = true /\ fst (fst boom_execute) = Raise e.
Proof.
  destruct (@execute_raises PyModel.model World engine (faulty_executor 5)
              question the_plan
              [Some (lit "done A"); Some (tool_request (lit "Boom") (lit "x"));
               Some (lit "ANSWER")]
              (snd (fst boom_execute)) (fst (fst boom_execute))
              (snd boom_execute))
    as (Hfault & _).
  - vm_compute. reflexivity.
  - apply Hfault. vm_compute. reflexivity.
Defined.

(** Witness of X8: the three conversations of a step with two tool
    resolutions. *)
Lemma step_conversations_witness :
  exists reply rest,
    thinks (snd two_request_run)
    = ([Message user
          (step_prompt (lib:=PyModel.model) (executor 2) question the_plan
             empty (lit "Do A"))], reply) :: rest
    /\ chained
         [Message user
            (step_prompt (lib:=PyModel.model) (executor 2) question the_plan
               empty (lit "Do A"))] reply rest
    /\ Forall (fun c => alternates user (fst c) = true
                        /\ Nat.odd (List.length (fst c)) = true)
         (thinks (snd two_request_run)).
Proof.
  apply (@step_conversations PyModel.model World engine (executor 2) question
           the_plan 1 (lit "Do A") empty two_requests_then_answer
           (snd (fst two_request_run)) (fst (fst two_request_run))
           (snd two_request_run)).
  vm_compute. reflexivity.
Defined.

(** Witness of X9: a plan of two steps, one completion each. *)
Lemma execute_calls_bounded_witness :
  fst (fst plain_run) <> OutOfFuel
  /\ (engine_calls (snd plain_run) <= 2 * (1 + Z.to_nat 5))%nat
  /\ (tool_lookups (snd plain_run) <= 2 * Z.to_nat 5)%nat
  /\ (forall answer, fst (fst plain_run) = Ok answer ->
        (2 <= engine_calls (snd plain_run))%nat).
Proof.
  apply (@execute_calls_bounded PyModel.model World engine (executor 5)
           question the_plan plain_script (snd (fst plain_run))
           (fst (fst plain_run)) (snd plain_run)).
  vm_compute. reflexivity.
Defined.

(** Witness of X10: the answer is the completion of the second step. *)
Lemma execute_returns_last_completion_witness :
  lit "done B" = last (replies (snd plain_run)) empty.
Proof.
  apply (@execute_returns_last_completion PyModel.model World engine
           (executor 5) question the_plan plain_script
           (snd (fst plain_run)) (lit "done B") (snd plain_run)).
  vm_compute. reflexivity.
Defined.

(** Witness of X11: the history of the two steps, numbered 1 and 2. *)
Lemma execute_writes_numbered_history_witness :
  exists blocks,
    List.length blocks = 2%nat
    /\ result_record 1 (lit "Do A") (lit "done A")
       ++ result_record 2 (lit "Do B") (lit "done B")
       = empty ++ run_history 1 the_plan blocks
    /\ lit "done B" = last (map snd blocks) empty
    /\ list_sum (map (fun b => List.length (fst b)) blocks)
       = tool_lookups (snd plain_steps_run).
Proof.
  apply (@execute_writes_numbered_history PyModel.model World engine
           (executor 5) question the_plan the_plan 1 empty empty
           (result_record 1 (lit "Do A") (lit "done A")
            ++ result_record 2 (lit "Do B") (lit "done B"))
           (lit "done B") plain_script (snd (fst plain_steps_run))
           (snd plain_steps_run)).
  vm_compute. reflexivity.
Defined.

(** Witness of X12: the agent built without a registry. *)
Lemma agent_resolves_Search_witness :
  tool_executor (agent_executor default_agent)
    = Some (agent_tool_executor default_agent)
  /\ max_tool_iterations (agent_executor default_agent) = 5%Z
  /\ getTool (agent_tool_executor default_agent) (lit "Search") <> None
  /\ (forall te func,
         @None (ToolExecutor World) = Some te ->
         getTool te (lit "Search") = Some func ->
         agent_tool_executor default_agent = te).
Proof.
  apply (@agent_resolves_Search World tools None).
  intros te name description func. cbn [registerTool tools getTool].
  now rewrite eqb_refl.
Defined.

(** Witness of X13: the agent plans two steps and reports the
    completion of the second. *)
Lemma run_reports_witness :
  exists (p : list pyvalue) (w1 : World) (reply : option pystr)
         (evs2 : list event),
    plan (lib:=PyModel.model) question (Some plan_response :: plain_script)
    = (Ok p, w1,
       [EvThink [Message user (PLANNER_PROMPT_TEMPLATE question)] reply])
    /\ snd agent_run
       = EvThink [Message user (PLANNER_PROMPT_TEMPLATE question)] reply
         :: evs2
    /\ p <> [] /\ lit "done B" = last (replies evs2) empty
    /\ (List.length p <= engine_calls evs2)%nat.
Proof.
  apply (@run_reports PyModel.model World engine default_agent question
           (Some plan_response :: plain_script) (snd (fst agent_run))
           (Ok (Some (lit "done B"))) (snd agent_run)).
  vm_compute. reflexivity.
Defined.

(** Witness of X14: three calls of the engine for a plan of two steps. *)
Lemma run_calls_bounded_witness :
  fst (fst agent_run) <> OutOfFuel
  /\ (1 <= engine_calls (snd agent_run) <= 1 + 6 * 2)%nat
  /\ (tool_lookups (snd agent_run) <= 5 * 2)%nat.
Proof.
  apply (@run_calls_bounded PyModel.model World engine tools None question
           (Some plan_response :: plain_script) plain_script
           (snd (fst agent_run))
           [PyStr (lit "Do A"); PyStr (lit "Do B")]
           (snd (plan_on [Some plan_response]))
           (fst (fst agent_run)) (snd agent_run)).
  - vm_compute. reflexivity.
  - vm_compute. reflexivity.
Defined.

End FurtherRuns.
